(** * InsightX AI: the analysis engine and its computability guard

    A shallow embedding of [backend/app/services/analysis_service.py]
    (class [AnalysisService]) together with the result schemas of
    [backend/app/models/schemas.py].

    Conventions of the embedding.
    - Python [str] is [string]; [Optional[str]] is [option string];
      a Python [set] of strings is a [gset string]; a [dict] with string
      keys is a [gmap string _]; a dict whose order matters (the segment
      dictionaries) is an association list.
    - An exception raised inside a [try] block is the [Raise] branch of
      [result]; every operation catches it at its boundary, as the source
      does with [except Exception as e].
    - Python [int] is [Z].  Python [float] is an exact rational ([Q]) or
      [PNaN]; rounding error of IEEE doubles is not modelled.
    - What the process obtains from outside the repository (the clock, the
      formatting built-ins of Python, the SQL front end of DuckDB) is a
      field of the records [Python] and [Dialect]; theorems hold for every
      value of these records. *)

From Stdlib Require Import QArith ZArith Lia Ascii String List Bool.
From stdpp Require Import gmap strings list fin_maps pretty sorting.

Local Open Scope string_scope.
Local Open Scope list_scope.

(* ===================================================================== *)
(** * Python string operations used by the service *)
(* ===================================================================== *)

Module Py.

(** [str.lower], on the ASCII letters; other bytes are left as they are. *)
Definition lower_ascii (c : ascii) : ascii :=
  let n := nat_of_ascii c in
  if (65 <=? n)%nat && (n <=? 90)%nat then ascii_of_nat (n + 32) else c.

Definition upper_ascii (c : ascii) : ascii :=
  let n := nat_of_ascii c in
  if (97 <=? n)%nat && (n <=? 122)%nat then ascii_of_nat (n - 32) else c.

Definition is_alpha (c : ascii) : bool :=
  let n := nat_of_ascii c in
  ((65 <=? n)%nat && (n <=? 90)%nat) || ((97 <=? n)%nat && (n <=? 122)%nat).

Fixpoint lower (s : string) : string :=
  match s with
  | EmptyString => EmptyString
  | String c t => String (lower_ascii c) (lower t)
  end.

(** Whitespace removed by [str.strip()]: tab, newline, vertical tab, form
    feed, carriage return and space. *)
Definition is_space (c : ascii) : bool :=
  let n := nat_of_ascii c in
  ((9 <=? n)%nat && (n <=? 13)%nat) || (n =? 32)%nat.

Fixpoint lstrip (s : string) : string :=
  match s with
  | EmptyString => EmptyString
  | String c t => if is_space c then lstrip t else s
  end.

Fixpoint rstrip (s : string) : string :=
  match s with
  | EmptyString => EmptyString
  | String c t =>
      match rstrip t with
      | EmptyString => if is_space c then EmptyString else String c EmptyString
      | t' => String c t'
      end
  end.

Definition strip (s : string) : string := rstrip (lstrip s).

(** [sep.join(l)] *)
Fixpoint join (sep : string) (l : list string) : string :=
  match l with
  | [] => EmptyString
  | [x] => x
  | x :: t => x +:+ sep +:+ join sep t
  end.

Fixpoint starts_with (p s : string) : bool :=
  match p, s with
  | EmptyString, _ => true
  | String a p', String b s' => if Ascii.eqb a b then starts_with p' s' else false
  | String _ _, EmptyString => false
  end.

(** [p in s] for strings *)
Fixpoint contains (p s : string) : bool :=
  starts_with p s ||
  match s with
  | EmptyString => false
  | String _ t => contains p t
  end.

(** [s.replace("_", " ")] *)
Fixpoint replace_underscore (s : string) : string :=
  match s with
  | EmptyString => EmptyString
  | String c t =>
      String (if Ascii.eqb c "_" then " "%char else c) (replace_underscore t)
  end.

(** [str.title()]: a letter that follows a non-letter is upper-cased, every
    other letter is lower-cased. *)
Fixpoint title_from (prev_alpha : bool) (s : string) : string :=
  match s with
  | EmptyString => EmptyString
  | String c t =>
      String (if prev_alpha then lower_ascii c else upper_ascii c)
             (title_from (is_alpha c) t)
  end.

Definition title (s : string) : string := title_from false s.

(** Truthiness of an [Optional[str]]: [None] and the empty string are false. *)
Definition truthy (o : option string) : bool :=
  match o with
  | Some s => negb (String.eqb s EmptyString)
  | None => false
  end.

(** [a or b] on [Optional[str]] values *)
Definition or_else (a b : option string) : option string :=
  if truthy a then a else b.

End Py.

(* ===================================================================== *)
(** * Schemas ([app/models/schemas.py]) *)
(* ===================================================================== *)

Record PrimaryFilters := {
  device : option string;
  state : option string;
  age_group : option string;
  network : option string;
  category : option string;
  payment_method : option string;
  status : option string
}.

(** [PrimaryFilters()] *)
Definition no_filters : PrimaryFilters :=
  {| device := None; state := None; age_group := None; network := None;
     category := None; payment_method := None; status := None |}.

Inductive IntentType :=
| METRIC_QUERY | COMPARISON | TIME_SERIES | SEGMENTATION | CLARIFICATION | UNKNOWN.

(** The fields of [IntentSchema] that the service reads. *)
Record IntentSchema := {
  intent_type : IntentType;
  metric : option string;
  primary_filters : PrimaryFilters
}.

(** The [time_window] argument: [Optional[Dict[str, Any]]], with the values
    the callers store in it (optional strings). *)
Abbreviation TimeWindow := (gmap string (option string)).

(** [time_window.get(k)] *)
Definition tw_get (tw : TimeWindow) (k : string) : option string :=
  match tw !! k with
  | Some v => v
  | None => None
  end.

(* ===================================================================== *)
(** * The computability guard *)
(* ===================================================================== *)

Definition supported_metrics : gset string :=
  {[ "failure_rate"; "volume"; "count"; "avg_amount";
     "avg_transaction_amount"; "total_amount"; "failure_codes";
     "fraud_rate"; "review_rate"; "executive_summary" ]}.

Definition valid_devices : gset string := {[ "android"; "ios"; "web" ]}.
Definition valid_networks : gset string := {[ "4g"; "5g"; "wifi"; "3g" ]}.
Definition valid_age_groups : gset string := {[ "<25"; "25-34"; "35-44"; "45+" ]}.
Definition valid_categories : gset string :=
  {[ "food"; "entertainment"; "travel"; "utilities"; "others" ]}.

(** [', '.join(a_set)]; Python leaves the iteration order of a set
    unspecified, the model takes the order of [elements]. *)
Definition join_set (s : gset string) : string := Py.join ", " (elements s).

Definition str_opt (o : option string) : string :=
  match o with Some s => s | None => "None" end.

(** [x and x.lower() not in vocabulary] *)
Definition rejected_by (vocabulary : gset string) (x : option string) : bool :=
  Py.truthy x && negb (bool_decide (Py.lower (str_opt x) ∈ vocabulary)).

Definition is_metric_computable (intent : IntentSchema) : bool * string :=
  if rejected_by supported_metrics (metric intent) then
    (false, "Metric '" +:+ str_opt (metric intent)
            +:+ "' is not supported. Available metrics: "
            +:+ join_set supported_metrics)
  else
    let filters := primary_filters intent in
    if rejected_by valid_devices (device filters) then
      (false, "Unknown device type: " +:+ str_opt (device filters)
              +:+ ". Valid options: " +:+ join_set valid_devices)
    else if rejected_by valid_networks (network filters) then
      (false, "Unknown network type: " +:+ str_opt (network filters)
              +:+ ". Valid options: " +:+ join_set valid_networks)
    else (true, "").

(* ===================================================================== *)
(** * What the process takes from outside the repository *)
(* ===================================================================== *)

(** Exceptions: a computation inside a [try] block either returns or raises
    with a message ([str(e)]). *)
Inductive result (A : Type) : Type :=
| Ok (a : A)
| Raise (msg : string).
Arguments Ok {A} a.
Arguments Raise {A} msg.

Definition bind {A B : Type} (m : result A) (k : A -> result B) : result B :=
  match m with
  | Ok a => k a
  | Raise msg => Raise msg
  end.

Notation "'let*' x ':=' m 'in' k" := (bind m (fun x => k))
  (at level 10, x name, m at level 100, k at level 200).

(** A [for] loop that builds one item per element and stops at the first
    exception. *)
Fixpoint traverse {A B : Type} (f : A -> result B) (l : list A) : result (list B) :=
  match l with
  | [] => Ok []
  | a :: t => let* b := f a in let* bs := traverse f t in Ok (b :: bs)
  end.

(** A Python number: an [int], a finite [float], or the float [nan]. *)
Inductive pynum :=
| PInt (z : Z)
| PFloat (q : Q)
| PNaN.

(** A cell of a query result: SQL NULL (Python [None] in a fetched tuple,
    a missing value in a data frame), an integer, a double, text, a date
    (days since the epoch) or a timestamp (seconds since the epoch). *)
Inductive cell :=
| VNull
| VInt (z : Z)
| VFloat (q : Q)
| VStr (s : string)
| VDate (days : Z)
| VTimestamp (seconds : Z).

(** The Python runtime: the clock and the number formatting built-ins. *)
Record Python := {
  (** [(datetime.now() - timedelta(days=n)).strftime('%Y-%m-%d')] *)
  days_ago : nat -> string;
  (** [format(x, spec)] of a number, for the format specs the service
      uses: the empty spec ([str(x)]), [,] [.2f] [,.2f] [+.2f] and [+.1f] *)
  format : string -> pynum -> string;
  (** [str(x)] of a missing cell of a data frame *)
  str_missing : string;
  (** [str(x)] of a date and of a timestamp cell of a data frame *)
  str_date : Z -> string;
  str_timestamp : Z -> string
}.

(* ===================================================================== *)
(** * Predicate builder and time window resolver *)
(* ===================================================================== *)

(** The dict [filter_map] of [_build_where_clause], in insertion order. *)
Definition filter_map (filters : PrimaryFilters) : list (string * option string) :=
  [ ("device", device filters);
    ("state", state filters);
    ("age_group", age_group filters);
    ("network", network filters);
    ("category", category filters);
    ("payment_method", payment_method filters);
    ("status", status filters) ].

(** The loop [for col, val in filter_map.items()], threading the two lists
    [conditions] and [params]. *)
Fixpoint where_loop (items : list (string * option string))
    (conditions params : list string) : list string * list string :=
  match items with
  | [] => (conditions, params)
  | (col, val) :: rest =>
      match val with
      | Some v => where_loop rest (conditions ++ [col +:+ " = ?"]) (params ++ [v])
      | None => where_loop rest conditions params
      end
  end.

Definition _build_where_clause (filters : PrimaryFilters) : string * list string :=
  let '(conditions, params) := where_loop (filter_map filters) [] [] in
  let where_ :=
    match conditions with
    | [] => "1=1"
    | _ => Py.join " AND " conditions
    end in
  (where_, params).

(** The [if / elif / else] chain on [period]. *)
Definition period_days (period : string) : nat :=
  if String.eqb period "last_7_days" then 7
  else if String.eqb period "last_30_days" then 30
  else if String.eqb period "last_90_days" then 90
  else 30.

Definition _apply_time_window (py : Python) (base_where : string)
    (time_window : option TimeWindow) : string * list string :=
  match time_window with
  | None => (base_where, [])
  | Some tw =>
      if bool_decide (tw = ∅) then (base_where, [])
      else
        let period := tw_get tw "period" in
        let base_where :=
          if Py.truthy period then
            base_where +:+ " AND timestamp >= '"
              +:+ days_ago py (period_days (str_opt period)) +:+ "'"
          else base_where in
        let from_date := Py.or_else (tw_get tw "from_date") (tw_get tw "from") in
        let to_date := Py.or_else (tw_get tw "to_date") (tw_get tw "to") in
        let base_where :=
          if Py.truthy from_date then
            base_where +:+ " AND timestamp >= '" +:+ str_opt from_date +:+ "'"
          else base_where in
        let base_where :=
          if Py.truthy to_date then
            base_where +:+ " AND timestamp <= '" +:+ str_opt to_date +:+ "'"
          else base_where in
        (base_where, [])
  end.

(* ===================================================================== *)
(** * The SQL the service emits, as syntax *)
(* ===================================================================== *)

(** The conjuncts that can occur in a WHERE clause built by the service. *)
Inductive atom :=
| ATrue                          (** [1=1] *)
| AEqParam (col : string)        (** [col = ?] *)
| AEqLit (col lit : string)      (** [col = 'lit'] *)
| ATsGe (lit : string)           (** [timestamp >= 'lit'] *)
| ATsLe (lit : string).          (** [timestamp <= 'lit'] *)

Definition render_atom (a : atom) : string :=
  match a with
  | ATrue => "1=1"
  | AEqParam col => col +:+ " = ?"
  | AEqLit col lit => col +:+ " = '" +:+ lit +:+ "'"
  | ATsGe lit => "timestamp >= '" +:+ lit +:+ "'"
  | ATsLe lit => "timestamp <= '" +:+ lit +:+ "'"
  end.

Definition render_conj (w : list atom) : string :=
  Py.join " AND " (map render_atom w).

(** The conjuncts [_build_where_clause] produces for a filter set. *)
Definition set_fields (filters : PrimaryFilters) : list (string * string) :=
  omap (fun cv => match snd cv with
                  | Some v => Some (fst cv, v)
                  | None => None
                  end) (filter_map filters).

Definition where_atoms (filters : PrimaryFilters) : list atom :=
  match set_fields filters with
  | [] => [ATrue]
  | fields => map (fun cv => AEqParam (fst cv)) fields
  end.

(** The conjuncts [_apply_time_window] appends. *)
Definition window_atoms (py : Python) (time_window : option TimeWindow) : list atom :=
  match time_window with
  | None => []
  | Some tw =>
      let period := tw_get tw "period" in
      let from_date := Py.or_else (tw_get tw "from_date") (tw_get tw "from") in
      let to_date := Py.or_else (tw_get tw "to_date") (tw_get tw "to") in
      (if Py.truthy period
       then [ATsGe (days_ago py (period_days (str_opt period)))] else [])
      ++ (if Py.truthy from_date then [ATsGe (str_opt from_date)] else [])
      ++ (if Py.truthy to_date then [ATsLe (str_opt to_date)] else [])
  end.

(** The aggregation expressions of the metric registry. *)
Inductive agg := CountStar | AvgAmount | SumAmount | FailureRate.

Definition failed_case : string :=
  "SUM(CASE WHEN status = 'Failed' THEN 1 ELSE 0 END)".

Definition render_agg (e : agg) : string :=
  match e with
  | CountStar => "COUNT(*)"
  | AvgAmount => "ROUND(AVG(amount), 2)"
  | SumAmount => "ROUND(SUM(amount), 2)"
  | FailureRate =>
      "ROUND(100.0 * " +:+ failed_case +:+ " / NULLIF(COUNT(*), 0), 2)"
  end.

(** [metric_expr_map] of [aggregate] *)
Definition aggregate_expr_map : gmap string agg :=
  <["volume" := CountStar]> (<["count" := CountStar]>
  (<["avg_amount" := AvgAmount]> (<["total_amount" := SumAmount]>
  (<["avg_transaction_amount" := AvgAmount]>
  (<["failure_rate" := FailureRate]> ∅))))).

(** [metric_expr_map] of [compare_segments] *)
Definition compare_expr_map : gmap string agg :=
  <["failure_rate" := FailureRate]> (<["avg_amount" := AvgAmount]>
  (<["volume" := CountStar]> (<["total_amount" := SumAmount]> ∅))).

(** [metric_expr_map] of [time_series] *)
Definition time_series_expr_map : gmap string agg :=
  <["volume" := CountStar]> (<["count" := CountStar]>
  (<["avg_amount" := AvgAmount]> (<["total_amount" := SumAmount]>
  (<["failure_rate" := FailureRate]> ∅)))).

(** [metric_expr_map.get(metric.lower(), "COUNT(*)")] *)
Definition metric_expr (m : gmap string agg) (metric : string) : agg :=
  default CountStar (m !! Py.lower metric).

(** The bucket expression of [time_series]. *)
Inductive time_expr :=
| TCol (time_col : string)
| TTrunc (unit_ time_col : string).   (** [DATE_TRUNC('unit', time_col)] *)

Definition render_time_expr (t : time_expr) : string :=
  match t with
  | TCol c => c
  | TTrunc u c => "DATE_TRUNC('" +:+ u +:+ "', " +:+ c +:+ ")"
  end.

(** The statements the service sends to the connection.  [w] is the list
    of conjuncts of the WHERE clause built so far. *)
Inductive query :=
| QFailureRate (w : list atom)
| QFailedSample (w : list atom)
| QAggregate (by_ : list string) (e : agg) (alias : string) (w : list atom)
| QCompare (e : agg) (alias : string) (w seg_a seg_b : list atom)
| QTimeSeries (t : time_expr) (group_by : option string) (e : agg)
    (alias : string) (w : list atom)
| QTopFailureCodes (w : list atom) (limit : Z)
| QSummary (w : list atom).

Definition table_name : string := "transactions".

Definition nl : string := String (ascii_of_nat 10) EmptyString.

Fixpoint spaces (n : nat) : string :=
  match n with
  | O => EmptyString
  | S k => String " " (spaces k)
  end.

(** A new line followed by [n] spaces and [s]. *)
Definition line (n : nat) (s : string) : string := nl +:+ spaces n +:+ s.

Definition rate_line (flag : string) (digits : string) (alias : string) : string :=
  "ROUND(100.0 * SUM(CASE WHEN " +:+ flag +:+ " THEN 1 ELSE 0 END) / NULLIF(COUNT(*), 0), "
  +:+ digits +:+ ") as " +:+ alias.

(** The query text, as the f-strings of the source lay it out. *)
Definition render (q : query) : string :=
  match q with
  | QFailureRate w =>
      line 12 "SELECT " +:+
      line 16 "COUNT(*) as total_transactions," +:+
      line 16 (failed_case +:+ " as failed_transactions,") +:+
      line 16 "ROUND(" +:+
      line 20 ("100.0 * " +:+ failed_case +:+ " / ") +:+
      line 20 "NULLIF(COUNT(*), 0), 2" +:+
      line 16 ") as failure_rate_pct" +:+
      line 12 ("FROM " +:+ table_name) +:+
      line 12 ("WHERE " +:+ render_conj w) +:+
      line 8 ""
  | QFailedSample w =>
      line 16 "SELECT transaction_id, timestamp, amount, device, state, " +:+
      line 23 "category, failure_code" +:+
      line 16 ("FROM " +:+ table_name) +:+
      line 16 ("WHERE " +:+ render_conj w +:+ " AND status = 'Failed'") +:+
      line 16 "LIMIT 5" +:+
      line 12 ""
  | QAggregate [] e alias w =>
      line 16 ("SELECT " +:+ render_agg e +:+ " as " +:+ alias) +:+
      line 16 ("FROM " +:+ table_name) +:+
      line 16 ("WHERE " +:+ render_conj w) +:+
      line 12 ""
  | QAggregate by_ e alias w =>
      let group_cols := Py.join ", " by_ in
      line 16 ("SELECT " +:+ group_cols +:+ ", " +:+ render_agg e +:+ " as " +:+ alias) +:+
      line 16 ("FROM " +:+ table_name) +:+
      line 16 ("WHERE " +:+ render_conj w) +:+
      line 16 ("GROUP BY " +:+ group_cols) +:+
      line 16 ("ORDER BY " +:+ alias +:+ " DESC") +:+
      line 16 "LIMIT 20" +:+
      line 12 ""
  | QCompare e alias w seg_a seg_b =>
      let branch (name : string) (seg : list atom) :=
        line 12 "SELECT " +:+
        line 16 ("'" +:+ name +:+ "' as segment,") +:+
        line 16 (render_agg e +:+ " as " +:+ alias +:+ ",") +:+
        line 16 "COUNT(*) as sample_size" +:+
        line 12 ("FROM " +:+ table_name) +:+
        line 12 ("WHERE " +:+ render_conj w +:+ " AND " +:+ render_conj seg) in
      branch "Segment A" seg_a +:+
      line 12 "" +:+
      line 12 "UNION ALL" +:+
      line 12 "" +:+
      branch "Segment B" seg_b +:+
      line 8 ""
  | QTimeSeries t (Some g) e alias w =>
      line 16 ("SELECT " +:+ render_time_expr t +:+ " as time_period, " +:+ g
               +:+ ", " +:+ render_agg e +:+ " as " +:+ alias) +:+
      line 16 ("FROM " +:+ table_name) +:+
      line 16 ("WHERE " +:+ render_conj w) +:+
      line 16 ("GROUP BY " +:+ render_time_expr t +:+ ", " +:+ g) +:+
      line 16 ("ORDER BY time_period, " +:+ g) +:+
      line 12 ""
  | QTimeSeries t None e alias w =>
      line 16 ("SELECT " +:+ render_time_expr t +:+ " as time_period, "
               +:+ render_agg e +:+ " as " +:+ alias) +:+
      line 16 ("FROM " +:+ table_name) +:+
      line 16 ("WHERE " +:+ render_conj w) +:+
      line 16 ("GROUP BY " +:+ render_time_expr t) +:+
      line 16 "ORDER BY time_period" +:+
      line 12 ""
  | QTopFailureCodes w limit =>
      line 12 "SELECT " +:+
      line 16 "COALESCE(failure_code, 'Unknown') as failure_code," +:+
      line 16 "COUNT(*) as count," +:+
      line 16 "ROUND(100.0 * COUNT(*) / SUM(COUNT(*)) OVER (), 2) as percentage" +:+
      line 12 ("FROM " +:+ table_name) +:+
      line 12 ("WHERE " +:+ render_conj w +:+ " AND status = 'Failed'") +:+
      line 12 "GROUP BY failure_code" +:+
      line 12 "ORDER BY count DESC" +:+
      line 12 ("LIMIT " +:+ pretty limit) +:+
      line 8 ""
  | QSummary w =>
      line 12 "SELECT " +:+
      line 16 "COUNT(*) as total_transactions," +:+
      line 16 "ROUND(SUM(amount), 2) as total_volume," +:+
      line 16 "ROUND(AVG(amount), 2) as avg_transaction_amount," +:+
      line 16 (rate_line "status = 'Failed'" "2" "failure_rate" +:+ ",") +:+
      line 16 (rate_line "fraud_flag = 1" "4" "fraud_rate" +:+ ",") +:+
      line 16 (rate_line "review_flag = 1" "2" "review_rate") +:+
      line 12 ("FROM " +:+ table_name) +:+
      line 12 ("WHERE " +:+ render_conj w) +:+
      line 8 ""
  end.

(* ===================================================================== *)
(** * Result schemas *)
(* ===================================================================== *)

Record CalculationDetail := {
  numerator : option pynum;
  denominator : option pynum;
  formula : option string;
  sample_size : option Z
}.

Record NumberDetail := {
  label : string;
  value : string;
  raw_value : option pynum;
  calculation : option CalculationDetail
}.

Record ChartDataPoint := {
  x : string;
  y : pynum;
  point_label : option string
}.

Inductive ChartType := LINE | BAR | PIE | SPARKLINE.

Record ChartData := {
  chart_type : ChartType;
  title : option string;
  x_label : option string;
  y_label : option string;
  data : list ChartDataPoint;
  series_name : option string
}.

(** [execution_time_ms], a wall-clock measurement, is left out. *)
Record AnalysisResult := {
  success : bool;
  result_metric : string;
  numbers : list NumberDetail;
  query_executed : string;
  sample_rows : option (list (list (string * cell)));
  chart_data : option ChartData;
  error : option string
}.

(* ===================================================================== *)
(** * The connection, and the Python side of a query result *)
(* ===================================================================== *)

(** What [execute(...)] returns before it is fetched. *)
Record Relation := {
  columns : list string;
  tuples : list (list cell)
}.

(** [conn.execute(query, parameters)].  The service always calls it with
    the query alone, that is with no parameters. *)
Record Conn := {
  execute : query -> list string -> result Relation
}.

(** [.fetchone()] *)
Definition fetchone (r : Relation) : option (list cell) := head (tuples r).

(** [.fetchdf()], a row being the mapping from column name to cell; also
    [.to_dict('records')]. *)
Definition fetchdf (r : Relation) : list (list (string * cell)) :=
  map (fun t => combine (columns r) t) (tuples r).

(** [result[i]] on the value of [fetchone()] *)
Definition item (t : option (list cell)) (i : nat) : result cell :=
  match t with
  | None => Raise "'NoneType' object is not subscriptable"
  | Some l =>
      match nth_error l i with
      | Some c => Ok c
      | None => Raise "tuple index out of range"
      end
  end.

(** [row[col]] on a row of a data frame *)
Fixpoint getitem (row : list (string * cell)) (col : string) : result cell :=
  match row with
  | [] => Raise ("KeyError: " +:+ col)
  | (k, c) :: rest => if String.eqb k col then Ok c else getitem rest col
  end.

(** [pd.notna(c)] *)
Definition notna (c : cell) : bool :=
  match c with VNull => false | _ => true end.

(** The number a cell holds; a text cell in a numeric position raises. *)
Definition scalar (c : cell) : result pynum :=
  match c with
  | VNull => Ok PNaN
  | VInt z => Ok (PInt z)
  | VFloat q => Ok (PFloat q)
  | VStr s => Raise ("could not convert string to float: '" +:+ s +:+ "'")
  | VDate _ | VTimestamp _ => Raise "float() argument must be a string or a real number"
  end.

(** [float(x)] on a number *)
Definition to_float (n : pynum) : pynum :=
  match n with
  | PInt z => PFloat (inject_Z z)
  | other => other
  end.

(** [float(c)] on a cell of a data frame *)
Definition float_cell (c : cell) : result pynum :=
  let* n := scalar c in Ok (to_float n).

(** [int(x)] on a number: truncation toward zero, an exception on [nan] *)
Definition to_int (n : pynum) : result Z :=
  match n with
  | PInt z => Ok z
  | PFloat q => Ok (Z.quot (Qnum q) (Zpos (Qden q)))
  | PNaN => Raise "cannot convert float NaN to integer"
  end.

Definition int_cell (c : cell) : result Z :=
  let* n := scalar c in to_int n.

(** [c or default] on a fetched cell, as a number *)
Definition or_num (c : cell) (default : pynum) : result pynum :=
  match c with
  | VNull => Ok default
  | VInt z => Ok (if Z.eqb z 0 then default else PInt z)
  | VFloat q => Ok (if Qeq_bool q 0 then default else PFloat q)
  | VStr s =>
      if String.eqb s EmptyString then Ok default
      else Raise "validation error: a number is required"
  | VDate _ | VTimestamp _ => Raise "validation error: a number is required"
  end.

(** [str(c)] *)
Definition str_cell (py : Python) (c : cell) : string :=
  match c with
  | VNull => str_missing py
  | VInt z => format py "" (PInt z)
  | VFloat q => format py "" (PFloat q)
  | VStr s => s
  | VDate d => str_date py d
  | VTimestamp t => str_timestamp py t
  end.

(** [format(c, spec)] on a fetched cell: [None] formats only with the empty
    spec. *)
Definition format_cell (py : Python) (spec : string) (c : cell) : result string :=
  match c with
  | VNull =>
      if String.eqb spec EmptyString then Ok "None"
      else Raise "unsupported format string passed to NoneType.__format__"
  | VInt z => Ok (format py spec (PInt z))
  | VFloat q => Ok (format py spec (PFloat q))
  | VStr s =>
      if String.eqb spec EmptyString then Ok s
      else Raise "Unknown format code for object of type 'str'"
  | VDate d =>
      if String.eqb spec EmptyString then Ok (str_date py d)
      else Raise "validation error: a number is required"
  | VTimestamp t =>
      if String.eqb spec EmptyString then Ok (str_timestamp py t)
      else Raise "validation error: a number is required"
  end.

(** A fetched cell as an [Optional[Union[int, float]]] field *)
Definition optional_num (c : cell) : result (option pynum) :=
  match c with
  | VNull => Ok None
  | VInt z => Ok (Some (PInt z))
  | VFloat q => Ok (Some (PFloat q))
  | VStr _ | VDate _ | VTimestamp _ => Raise "validation error: a number is required"
  end.

(** A cell as a required [str] field *)
Definition required_str (c : cell) : result string :=
  match c with
  | VStr s => Ok s
  | _ => Raise "validation error: a string is required"
  end.

(** Arithmetic of Python numbers, as far as [compare_segments] needs it. *)
Definition py_sub (a b : pynum) : pynum :=
  match a, b with
  | PNaN, _ | _, PNaN => PNaN
  | PInt m, PInt n => PInt (m - n)
  | PInt m, PFloat q => PFloat (inject_Z m - q)
  | PFloat p, PInt n => PFloat (p - inject_Z n)
  | PFloat p, PFloat q => PFloat (p - q)
  end.

(** [x != 0] *)
Definition nonzero (n : pynum) : bool :=
  match n with
  | PInt z => negb (Z.eqb z 0)
  | PFloat q => negb (Qeq_bool q 0)
  | PNaN => true
  end.

Definition as_Q (n : pynum) : option Q :=
  match n with
  | PInt z => Some (inject_Z z)
  | PFloat q => Some q
  | PNaN => None
  end.

(** [a / b * 100], for [b != 0] *)
Definition py_ratio_pct (a b : pynum) : pynum :=
  match as_Q a, as_Q b with
  | Some p, Some q => PFloat (p / q * 100)
  | _, _ => PNaN
  end.

Definition is_float (n : pynum) : bool :=
  match n with PInt _ => false | _ => true end.

Definition rupee : string := "₹".

(** [_format_metric_value(metric, value)] *)
Definition _format_metric_value (py : Python) (metric : string) (n : pynum)
    : result string :=
  match n with
  | PNaN => Ok "N/A"
  | _ =>
      let metric_lower := Py.lower metric in
      if Py.contains "rate" metric_lower || Py.contains "percentage" metric_lower then
        Ok (format py ".2f" n +:+ "%")
      else if Py.contains "amount" metric_lower || Py.contains "volume" metric_lower then
        if is_float n then Ok (rupee +:+ format py ",.2f" n)
        else Ok (rupee +:+ format py "," n)
      else if Py.contains "count" metric_lower || String.eqb metric_lower "volume" then
        let* z := to_int n in Ok (format py "," (PInt z))
      else
        if is_float n then Ok (format py ",.2f" n)
        else Ok (format py "," n)
  end.

(* ===================================================================== *)
(** * The operations of [AnalysisService] *)
(* ===================================================================== *)

(** The result every operation returns from its [except] branch, and when
    the dataset is not loaded. *)
Definition failed (metric query_text message : string) : AnalysisResult :=
  {| success := false;
     result_metric := metric;
     numbers := [];
     query_executed := query_text;
     sample_rows := None;
     chart_data := None;
     error := Some message |}.

(** [try: ... except Exception as e: return AnalysisResult(success=False,
    metric=..., query_executed=query.strip(), error=str(e))] *)
Definition try_except (metric : string) (q : query) (body : result AnalysisResult)
    : AnalysisResult :=
  match body with
  | Ok r => r
  | Raise message => failed metric (Py.strip (render q)) message
  end.

(** The WHERE clause of an operation, after [_build_where_clause] and
    [_apply_time_window], as conjuncts; its rendering is the text these two
    functions return (lemma [where_clause_text]). *)
Definition where_clause (py : Python) (filters : option PrimaryFilters)
    (time_window : option TimeWindow) : list atom :=
  where_atoms (default no_filters filters) ++ window_atoms py time_window.

(** [metric.replace('_', ' ').title()] *)
Definition metric_title (metric : string) : string :=
  Py.title (Py.replace_underscore metric).

Definition compute_failure_rate (py : Python) (conn : option Conn)
    (filters : option PrimaryFilters) (time_window : option TimeWindow)
    : AnalysisResult :=
  match conn with
  | None => failed "failure_rate" "N/A" "Dataset not loaded"
  | Some c =>
      let where_ := where_clause py filters time_window in
      let q := QFailureRate where_ in
      try_except "failure_rate" q (
        let* rel := execute c q [] in
        let fetched := fetchone rel in
        let* c0 := item fetched 0 in
        let* total := or_num c0 (PInt 0) in
        let* c1 := item fetched 1 in
        let* failed_ := or_num c1 (PInt 0) in
        let* c2 := item fetched 2 in
        let* rate := or_num c2 (PFloat 0) in
        let* sample := execute c (QFailedSample where_) [] in
        Ok {| success := true;
              result_metric := "failure_rate";
              numbers :=
                [ {| label := "Failure Rate";
                     value := format py "" rate +:+ "%";
                     raw_value := Some rate;
                     calculation := Some
                       {| numerator := Some failed_;
                          denominator := Some total;
                          formula := Some "(failed_transactions / total_transactions) * 100";
                          sample_size := None |} |};
                  {| label := "Total Transactions";
                     value := format py "," total;
                     raw_value := Some total;
                     calculation := None |};
                  {| label := "Failed Transactions";
                     value := format py "," failed_;
                     raw_value := Some failed_;
                     calculation := None |} ];
              query_executed := Py.strip (render q);
              sample_rows := Some (fetchdf sample);
              chart_data := None;
              error := None |})
  end.

(** [float(value) if pd.notna(value) else 0] *)
Definition float_or_zero (c : cell) : result pynum :=
  if notna c then float_cell c else Ok (PInt 0).

(** One iteration of the loop of [aggregate] over the grouped rows. *)
Definition aggregate_row (py : Python) (metric : string) (by_ : list string)
    (row : list (string * cell)) : result (NumberDetail * ChartDataPoint) :=
  let* label_parts := traverse (fun col => let* c := getitem row col in
                                           Ok (str_cell py c)) by_ in
  let label_ := Py.join " - " label_parts in
  let* v := getitem row metric in
  let* n := scalar v in
  let* text := _format_metric_value py metric n in
  let* raw := float_or_zero v in
  Ok ({| label := label_; value := text; raw_value := Some raw;
         calculation := None |},
      {| x := label_; y := raw; point_label := None |}).

Definition aggregate (py : Python) (conn : option Conn) (metric : string)
    (by_ : list string) (filters : option PrimaryFilters)
    (time_window : option TimeWindow) : AnalysisResult :=
  match conn with
  | None => failed metric "N/A" "Dataset not loaded"
  | Some c =>
      let where_ := where_clause py filters time_window in
      let e := metric_expr aggregate_expr_map metric in
      let q := QAggregate by_ e metric where_ in
      try_except metric q (
        let* rel := execute c q [] in
        let df := fetchdf rel in
        match by_ with
        | _ :: _ =>
            let* items := traverse (aggregate_row py metric by_) df in
            Ok {| success := true;
                  result_metric := metric;
                  numbers := map fst items;
                  query_executed := Py.strip (render q);
                  sample_rows := None;
                  chart_data := Some
                    {| chart_type := BAR;
                       title := Some (metric_title metric +:+ " by "
                                      +:+ Py.join ", " by_);
                       x_label := None; y_label := None;
                       data := map snd items;
                       series_name := None |};
                  error := None |}
        | [] =>
            let* v := match df with
                      | row :: _ => getitem row metric
                      | [] => Ok (VInt 0)
                      end in
            let* n := scalar v in
            let* text := _format_metric_value py metric n in
            let* raw := float_or_zero v in
            Ok {| success := true;
                  result_metric := metric;
                  numbers := [ {| label := metric_title metric;
                                  value := text;
                                  raw_value := Some raw;
                                  calculation := None |} ];
                  query_executed := Py.strip (render q);
                  sample_rows := None;
                  chart_data := None;
                  error := None |}
        end)
  end.

(** [" AND ".join([f"{k} = '{v}'" for k, v in segment.items()])], as
    conjuncts *)
Definition segment_atoms (segment : list (string * string)) : list atom :=
  map (fun kv => AEqLit (fst kv) (snd kv)) segment.

(** [" & ".join([f"{k}: {v}" for k, v in segment.items()])] *)
Definition segment_label (segment : list (string * string)) : string :=
  Py.join " & " (map (fun kv => fst kv +:+ ": " +:+ snd kv) segment).

(** [float(df.iloc[i][col]) if len(df) > i else 0] *)
Definition iloc_float (df : list (list (string * cell))) (i : nat) (col : string)
    : result pynum :=
  match nth_error df i with
  | Some row => let* v := getitem row col in float_cell v
  | None => Ok (PInt 0)
  end.

(** [int(df.iloc[i][col]) if len(df) > i else 0] *)
Definition iloc_int (df : list (list (string * cell))) (i : nat) (col : string)
    : result Z :=
  match nth_error df i with
  | Some row => let* v := getitem row col in int_cell v
  | None => Ok 0%Z
  end.

(** [(diff / val_b * 100) if val_b != 0 else 0] *)
Definition pct_difference (diff val_b : pynum) : pynum :=
  if nonzero val_b then py_ratio_pct diff val_b else PInt 0.

Definition compare_segments (py : Python) (conn : option Conn)
    (segment_a segment_b : list (string * string)) (metric : string)
    (filters : option PrimaryFilters) (time_window : option TimeWindow)
    : AnalysisResult :=
  match conn with
  | None => failed metric "N/A" "Dataset not loaded"
  | Some c =>
      let base_where := where_clause py filters time_window in
      let e := metric_expr compare_expr_map metric in
      let q := QCompare e metric base_where
                 (segment_atoms segment_a) (segment_atoms segment_b) in
      try_except metric q (
        let* rel := execute c q [] in
        let df := fetchdf rel in
        let seg_a_label := segment_label segment_a in
        let seg_b_label := segment_label segment_b in
        let* val_a := iloc_float df 0 metric in
        let* val_b := iloc_float df 1 metric in
        let* size_a := iloc_int df 0 "sample_size" in
        let* size_b := iloc_int df 1 "sample_size" in
        let diff := py_sub val_a val_b in
        let pct_diff := pct_difference diff val_b in
        let* text_a := _format_metric_value py metric val_a in
        let* text_b := _format_metric_value py metric val_b in
        Ok {| success := true;
              result_metric := metric;
              numbers :=
                [ {| label := metric_title metric +:+ " (" +:+ seg_a_label +:+ ")";
                     value := text_a;
                     raw_value := Some val_a;
                     calculation := Some
                       {| numerator := None; denominator := None;
                          formula := None; sample_size := Some size_a |} |};
                  {| label := metric_title metric +:+ " (" +:+ seg_b_label +:+ ")";
                     value := text_b;
                     raw_value := Some val_b;
                     calculation := Some
                       {| numerator := None; denominator := None;
                          formula := None; sample_size := Some size_b |} |};
                  {| label := "Difference";
                     value := format py "+.2f" diff +:+ " ("
                              +:+ format py "+.1f" pct_diff +:+ "%)";
                     raw_value := Some diff;
                     calculation := None |} ];
              query_executed := Py.strip (render q);
              sample_rows := None;
              chart_data := Some
                {| chart_type := BAR;
                   title := Some (metric_title metric +:+ " Comparison");
                   x_label := None; y_label := None;
                   data := [ {| x := seg_a_label; y := val_a; point_label := None |};
                             {| x := seg_b_label; y := val_b; point_label := None |} ];
                   series_name := None |};
              error := None |})
  end.

(** The [if period == "week" / elif period == "month" / else] chain. *)
Definition bucket (period time_col : string) : time_expr :=
  if String.eqb period "week" then TTrunc "week" time_col
  else if String.eqb period "month" then TTrunc "month" time_col
  else TCol time_col.

(** [group_by] when it is truthy *)
Definition grouping (group_by : option string) : option string :=
  if Py.truthy group_by then group_by else None.

(** One iteration of the loop of [time_series]. *)
Definition time_series_row (py : Python) (metric : string) (group_by : option string)
    (row : list (string * cell)) : result (NumberDetail * ChartDataPoint) :=
  let* t := getitem row "time_period" in
  let time_val := str_cell py t in
  let* v := getitem row metric in
  let* metric_val := float_or_zero v in
  let* label_ := match group_by with
                 | Some g => let* gc := getitem row g in
                             Ok (time_val +:+ " (" +:+ str_cell py gc +:+ ")")
                 | None => Ok time_val
                 end in
  let* text := _format_metric_value py metric metric_val in
  let* plabel := match group_by with
                 | Some g => let* gc := getitem row g in Ok (Some (str_cell py gc))
                 | None => Ok None
                 end in
  Ok ({| label := label_; value := text; raw_value := Some metric_val;
         calculation := None |},
      {| x := time_val; y := metric_val; point_label := plabel |}).

Definition time_series (py : Python) (conn : option Conn) (metric : string)
    (time_col period : string) (filters : option PrimaryFilters)
    (time_window : option TimeWindow) (group_by : option string)
    : AnalysisResult :=
  match conn with
  | None => failed metric "N/A" "Dataset not loaded"
  | Some c =>
      let where_ := where_clause py filters time_window in
      let e := metric_expr time_series_expr_map metric in
      let q := QTimeSeries (bucket period time_col) (grouping group_by) e metric where_ in
      try_except metric q (
        let* rel := execute c q [] in
        let df := fetchdf rel in
        let* items := traverse (time_series_row py metric (grouping group_by)) df in
        Ok {| success := true;
              result_metric := metric;
              numbers := firstn 20 (map fst items);
              query_executed := Py.strip (render q);
              sample_rows := None;
              chart_data := Some
                {| chart_type := LINE;
                   title := Some (metric_title metric +:+ " over Time");
                   x_label := Some "Date";
                   y_label := Some (metric_title metric);
                   data := map snd items;
                   series_name := None |};
              error := None |})
  end.

(** One iteration of the loop of [get_top_failure_codes]. *)
Definition failure_code_row (py : Python) (row : list (string * cell))
    : result (NumberDetail * ChartDataPoint) :=
  let* cc := getitem row "failure_code" in
  let* n := getitem row "count" in
  let* count := int_cell n in
  let* p := getitem row "percentage" in
  let* pct := float_cell p in
  let* code := required_str cc in
  Ok ({| label := code;
         value := format py "," (PInt count) +:+ " (" +:+ format py "" pct +:+ "%)";
         raw_value := Some (PInt count);
         calculation := None |},
      {| x := code; y := PInt count; point_label := None |}).

(** The parameter [limit: int = 10] *)
Definition limit_or_default (limit : option Z) : Z :=
  match limit with
  | Some n => n
  | None => 10%Z
  end.

Definition get_top_failure_codes (py : Python) (conn : option Conn)
    (filters : option PrimaryFilters) (time_window : option TimeWindow)
    (limit : option Z) : AnalysisResult :=
  match conn with
  | None => failed "failure_codes" "N/A" "Dataset not loaded"
  | Some c =>
      let where_ := where_clause py filters time_window in
      let q := QTopFailureCodes where_ (limit_or_default limit) in
      try_except "failure_codes" q (
        let* rel := execute c q [] in
        let df := fetchdf rel in
        let* items := traverse (failure_code_row py) df in
        Ok {| success := true;
              result_metric := "failure_codes";
              numbers := map fst items;
              query_executed := Py.strip (render q);
              sample_rows := None;
              chart_data := Some
                {| chart_type := BAR;
                   title := Some "Top Failure Codes";
                   x_label := None; y_label := None;
                   data := map snd items;
                   series_name := None |};
              error := None |})
  end.

(** One [NumberDetail] of the executive summary: [value] is the prefix
    followed by [format(result[i], spec)] and the suffix. *)
Definition summary_number (py : Python) (fetched : option (list cell)) (i : nat)
    (label_ prefix spec suffix : string) : result NumberDetail :=
  let* c := item fetched i in
  let* text := format_cell py spec c in
  let* raw := optional_num c in
  Ok {| label := label_; value := prefix +:+ text +:+ suffix;
        raw_value := raw; calculation := None |}.

Definition get_executive_summary (py : Python) (conn : option Conn)
    (time_window : option TimeWindow) : AnalysisResult :=
  match conn with
  | None => failed "executive_summary" "N/A" "Dataset not loaded"
  | Some c =>
      let where_ := [ATrue] ++ window_atoms py time_window in
      let q := QSummary where_ in
      try_except "executive_summary" q (
        let* rel := execute c q [] in
        let fetched := fetchone rel in
        let* n0 := summary_number py fetched 0 "Total Transactions" "" "," "" in
        let* n1 := summary_number py fetched 1 "Total Volume" rupee ",.2f" "" in
        let* n2 := summary_number py fetched 2 "Average Transaction" rupee ",.2f" "" in
        let* n3 := summary_number py fetched 3 "Failure Rate" "" "" "%" in
        let* n4 := summary_number py fetched 4 "Fraud Rate" "" "" "%" in
        let* n5 := summary_number py fetched 5 "Review Rate" "" "" "%" in
        Ok {| success := true;
              result_metric := "executive_summary";
              numbers := [n0; n1; n2; n3; n4; n5];
              query_executed := Py.strip (render q);
              sample_rows := None;
              chart_data := None;
              error := None |})
  end.

(* ===================================================================== *)
(** * The dataset and DuckDB's answers to the statements above *)
(* ===================================================================== *)

Module Tx.

(** A row of the table [transactions]: the thirteen required columns of
    [_required_columns].  An empty CSV field is NULL ([None]). *)
Record Row := {
  transaction_id : option string;
  timestamp : option Z;
  amount : option Q;
  payment_method : option string;
  device : option string;
  state : option string;
  age_group : option string;
  network : option string;
  category : option string;
  status : option string;
  failure_code : option string;
  fraud_flag : option Z;
  review_flag : option Z
}.

(** The computed column: [date_only = CAST(timestamp AS DATE)]. *)
Definition date_only (r : Row) : option Z :=
  match timestamp r with
  | Some t => Some (t / 86400)%Z
  | None => None
  end.

End Tx.

Inductive coltype := TText | TInt | TDouble | TDate | TTimestamp.

(** The parts of DuckDB's front end that the model takes as given. *)
Record Dialect := {
  (** whether a plain identifier is a reserved word, which cannot be
      used as a column alias *)
  reserved : string -> bool;
  (** the cast of a string literal or parameter to the type of the column
      it is compared with; [None] is a conversion error *)
  cast : coltype -> string -> option cell;
  (** [DATE_TRUNC(unit, column)] by the type of its column; [None] when no
      such function exists for the type *)
  date_trunc : string -> coltype -> option (cell -> cell);
  (** the answer to a statement outside the fragment modelled here *)
  beyond : list Tx.Row -> query -> list string -> result Relation
}.

Definition opt_cell {A : Type} (f : A -> cell) (o : option A) : cell :=
  match o with
  | Some a => f a
  | None => VNull
  end.

(** The columns of the table, with their types. *)
Definition schema : list (string * (coltype * (Tx.Row -> cell))) :=
  [ ("transaction_id", (TText, fun r => opt_cell VStr (Tx.transaction_id r)));
    ("timestamp", (TTimestamp, fun r => opt_cell VTimestamp (Tx.timestamp r)));
    ("amount", (TDouble, fun r => opt_cell VFloat (Tx.amount r)));
    ("payment_method", (TText, fun r => opt_cell VStr (Tx.payment_method r)));
    ("device", (TText, fun r => opt_cell VStr (Tx.device r)));
    ("state", (TText, fun r => opt_cell VStr (Tx.state r)));
    ("age_group", (TText, fun r => opt_cell VStr (Tx.age_group r)));
    ("network", (TText, fun r => opt_cell VStr (Tx.network r)));
    ("category", (TText, fun r => opt_cell VStr (Tx.category r)));
    ("status", (TText, fun r => opt_cell VStr (Tx.status r)));
    ("failure_code", (TText, fun r => opt_cell VStr (Tx.failure_code r)));
    ("fraud_flag", (TInt, fun r => opt_cell VInt (Tx.fraud_flag r)));
    ("review_flag", (TInt, fun r => opt_cell VInt (Tx.review_flag r)));
    ("date_only", (TDate, fun r => opt_cell VDate (Tx.date_only r))) ].

Fixpoint assoc {A : Type} (k : string) (l : list (string * A)) : option A :=
  match l with
  | [] => None
  | (k', a) :: rest => if String.eqb k k' then Some a else assoc k rest
  end.

Definition column (name : string) : option (coltype * (Tx.Row -> cell)) :=
  assoc name schema.

(** Equality in a WHERE clause: NULL is equal to nothing. *)
Definition cell_eqb (a b : cell) : bool :=
  match a, b with
  | VInt m, VInt n => Z.eqb m n
  | VFloat p, VFloat q => Qeq_bool p q
  | VStr s, VStr t => String.eqb s t
  | VDate m, VDate n => Z.eqb m n
  | VTimestamp m, VTimestamp n => Z.eqb m n
  | _, _ => false
  end.

(** Equality of grouping keys: NULLs fall into one group. *)
Definition key_eqb (a b : cell) : bool :=
  match a, b with
  | VNull, VNull => true
  | _, _ => cell_eqb a b
  end.

Fixpoint keys_eqb (a b : list cell) : bool :=
  match a, b with
  | [], [] => true
  | c :: a', d :: b' => key_eqb c d && keys_eqb a' b'
  | _, _ => false
  end.

(** Ascending order of a sort key, NULLs last. *)
Definition cell_leb (a b : cell) : bool :=
  match a, b with
  | _, VNull => true
  | VNull, _ => false
  | VInt m, VInt n => Z.leb m n
  | VFloat p, VFloat q => Qle_bool p q
  | VStr s, VStr t => String.leb s t
  | VDate m, VDate n => Z.leb m n
  | VTimestamp m, VTimestamp n => Z.leb m n
  | _, _ => true
  end.

(** Descending order of a sort key, NULLs last. *)
Definition cell_geb (a b : cell) : bool :=
  match a, b with
  | _, VNull => true
  | VNull, _ => false
  | _, _ => cell_leb b a
  end.

(** [col = value], the value being a literal of the text or a bound
    parameter. *)
Definition eq_pred (d : Dialect) (col value_ : string) : result (Tx.Row -> bool) :=
  match column col with
  | None => Raise ("Binder Error: Referenced column " +:+ col +:+ " not found")
  | Some (ty, get) =>
      match cast d ty value_ with
      | Some v => Ok (fun r => cell_eqb (get r) v)
      | None => Raise ("Conversion Error: Could not convert string '" +:+ value_ +:+ "'")
      end
  end.

(** [timestamp >= 'lit'] and [timestamp <= 'lit'] *)
Definition ts_pred (d : Dialect) (ge : bool) (lit : string) : result (Tx.Row -> bool) :=
  match cast d TTimestamp lit with
  | Some (VTimestamp bound) =>
      Ok (fun r => match Tx.timestamp r with
                   | Some t => if ge then Z.leb bound t else Z.leb t bound
                   | None => false
                   end)
  | _ => Raise ("Conversion Error: invalid timestamp field format: " +:+ lit)
  end.

(** The rows a conjunction selects.  Each [?] takes the next parameter; a
    statement with more or fewer placeholders than parameters is refused. *)
Fixpoint bind_conj (d : Dialect) (w : list atom) (params : list string)
    : result ((Tx.Row -> bool) * list string) :=
  match w with
  | [] => Ok (fun _ => true, params)
  | a :: rest =>
      let* pa :=
        match a with
        | ATrue => Ok (fun _ : Tx.Row => true, params)
        | AEqParam col =>
            match params with
            | [] => Raise "Invalid Input Error: Values were not provided for the prepared statement parameters"
            | p :: ps => let* f := eq_pred d col p in Ok (f, ps)
            end
        | AEqLit col lit => let* f := eq_pred d col lit in Ok (f, params)
        | ATsGe lit => let* f := ts_pred d true lit in Ok (f, params)
        | ATsLe lit => let* f := ts_pred d false lit in Ok (f, params)
        end in
      let* pr := bind_conj d rest (snd pa) in
      Ok (fun r => fst pa r && fst pr r, snd pr)
  end.

Definition all_bound {A : Type} (p : A * list string) : result A :=
  match snd p with
  | [] => Ok (fst p)
  | _ => Raise "Invalid Input Error: more parameters than placeholders"
  end.

(** [ROUND(x, digits)] for a non-negative or negative rational: to the
    nearest multiple of [10^-digits], halves away from zero. *)
Definition round_to (digits : nat) (q : Q) : Q :=
  let s := (10 ^ Z.of_nat digits)%Z in
  let n := (Qnum q * s)%Z in
  let dn := Zpos (Qden q) in
  let r := if (0 <=? n)%Z then ((2 * n + dn) / (2 * dn))%Z
           else (- ((2 * (- n) + dn) / (2 * dn)))%Z in
  Qred (Qmake r (Z.to_pos s)).

(** The number of rows on which a [CASE WHEN cond THEN 1 ELSE 0 END] is 1 *)
Definition count_where (f : Tx.Row -> bool) (rows : list Tx.Row) : Z :=
  Z.of_nat (length (List.filter f rows)).

Definition is_failed (r : Tx.Row) : bool :=
  match Tx.status r with
  | Some s => String.eqb s "Failed"
  | None => false
  end.

Definition flag_set (flag : Tx.Row -> option Z) (r : Tx.Row) : bool :=
  match flag r with
  | Some z => Z.eqb z 1
  | None => false
  end.

(** [ROUND(100.0 * SUM(CASE WHEN cond THEN 1 ELSE 0 END) / NULLIF(COUNT( * ), 0), digits)] *)
Definition rate_cell (digits : nat) (f : Tx.Row -> bool) (rows : list Tx.Row) : cell :=
  match rows with
  | [] => VNull
  | _ => VFloat (round_to digits
                   (Qmake (100 * count_where f rows) (Pos.of_nat (length rows))))
  end.

(** The non-NULL amounts *)
Definition amounts (rows : list Tx.Row) : list Q :=
  omap Tx.amount rows.

Definition Qsum (l : list Q) : Q := fold_right Qplus 0%Q l.

Definition eval_agg (e : agg) (rows : list Tx.Row) : cell :=
  match e with
  | CountStar => VInt (Z.of_nat (length rows))
  | AvgAmount =>
      match amounts rows with
      | [] => VNull
      | l => VFloat (round_to 2 (Qsum l / inject_Z (Z.of_nat (length l))))
      end
  | SumAmount =>
      match amounts rows with
      | [] => VNull
      | l => VFloat (round_to 2 (Qsum l))
      end
  | FailureRate => rate_cell 2 is_failed rows
  end.

(** GROUP BY: the groups in order of first occurrence. *)
Fixpoint insert_group {K : Type} (eqb : K -> K -> bool) (k : K) (r : Tx.Row)
    (groups : list (K * list Tx.Row)) : list (K * list Tx.Row) :=
  match groups with
  | [] => [(k, [r])]
  | (k', rs) :: rest =>
      if eqb k k' then (k', rs ++ [r]) :: rest
      else (k', rs) :: insert_group eqb k r rest
  end.

Definition group_rows {K : Type} (eqb : K -> K -> bool) (key : Tx.Row -> K)
    (rows : list Tx.Row) : list (K * list Tx.Row) :=
  fold_left (fun groups r => insert_group eqb (key r) r groups) rows [].

(** ORDER BY: a stable insertion sort. *)
Fixpoint insert_sorted {A : Type} (leb : A -> A -> bool) (a : A) (l : list A) : list A :=
  match l with
  | [] => [a]
  | b :: rest => if leb a b then a :: l else b :: insert_sorted leb a rest
  end.

Definition order_by {A : Type} (leb : A -> A -> bool) (l : list A) : list A :=
  fold_right (insert_sorted leb) [] l.

(** The fragment of SQL the model answers itself: column names are those of
    the table, literals hold no quote, aliases are plain identifiers that
    do not collide with another output column, and LIMIT is not negative. *)
Definition is_digit (c : ascii) : bool :=
  let n := nat_of_ascii c in (48 <=? n)%nat && (n <=? 57)%nat.

Definition ident_start (c : ascii) : bool := Py.is_alpha c || Ascii.eqb c "_".

Fixpoint ident_rest (s : string) : bool :=
  match s with
  | EmptyString => true
  | String c t => (ident_start c || is_digit c) && ident_rest t
  end.

Definition plain_identifier (s : string) : bool :=
  match s with
  | EmptyString => false
  | String c t => ident_start c && ident_rest t
  end.

Definition quote_free (lit : string) : bool := negb (Py.contains "'" lit).

Definition is_column (name : string) : bool :=
  match column name with Some _ => true | None => false end.

Definition atom_ok (a : atom) : bool :=
  match a with
  | ATrue => true
  | AEqParam col => is_column col
  | AEqLit col lit => is_column col && quote_free lit
  | ATsGe lit | ATsLe lit => quote_free lit
  end.

Definition alias_ok (alias : string) (others : list string) : bool :=
  plain_identifier alias
  && negb (existsb (String.eqb (Py.lower alias)) others).

Definition in_fragment (q : query) : bool :=
  match q with
  | QFailureRate w | QFailedSample w | QSummary w => forallb atom_ok w
  | QTopFailureCodes w limit => forallb atom_ok w && (0 <=? limit)%Z
  | QAggregate by_ e alias w =>
      forallb atom_ok w && forallb is_column by_ && alias_ok alias by_
  | QCompare e alias w seg_a seg_b =>
      forallb atom_ok (w ++ seg_a ++ seg_b)
      && alias_ok alias ["segment"; "sample_size"]
  | QTimeSeries t g e alias w =>
      forallb atom_ok w
      && is_column (match t with TCol c | TTrunc _ c => c end)
      && match g with Some c => is_column c | None => true end
      && alias_ok alias ("time_period" :: match g with Some c => [c] | None => [] end)
  end.

(** An alias that is a reserved word is a syntax error. *)
Definition check_alias (d : Dialect) (alias : string) : result unit :=
  if reserved d (Py.lower alias)
  then Raise ("Parser Error: syntax error at or near " +:+ alias)
  else Ok tt.

Definition getter (name : string) : result (Tx.Row -> cell) :=
  match column name with
  | Some (_, get) => Ok get
  | None => Raise ("Binder Error: Referenced column " +:+ name +:+ " not found")
  end.

(** The rows selected by the WHERE clause [w]. *)
Definition select_rows (d : Dialect) (w : list atom) (params : list string)
    (tbl : list Tx.Row) : result (list Tx.Row * list string) :=
  let* p := bind_conj d w params in
  Ok (List.filter (fst p) tbl, snd p).

(** [SUM(CASE WHEN cond THEN 1 ELSE 0 END)]: NULL over no rows *)
Definition sum_case (f : Tx.Row -> bool) (rows : list Tx.Row) : cell :=
  match rows with
  | [] => VNull
  | _ => VInt (count_where f rows)
  end.

Fixpoint keys_leb (a b : list cell) : bool :=
  match a, b with
  | [], _ => true
  | _ :: _, [] => false
  | c :: a', d :: b' => if key_eqb c d then keys_leb a' b' else cell_leb c d
  end.

Definition time_bucket (d : Dialect) (t : time_expr) : result (Tx.Row -> cell) :=
  match t with
  | TCol c => getter c
  | TTrunc u c =>
      match column c with
      | None => Raise ("Binder Error: Referenced column " +:+ c +:+ " not found")
      | Some (ty, get) =>
          match date_trunc d u ty with
          | Some f => Ok (fun r => f (get r))
          | None => Raise "Binder Error: No function matches date_trunc for the column type"
          end
      end
  end.

(** [COALESCE(failure_code, 'Unknown')] *)
Definition code_label (code : option string) : string :=
  match code with
  | Some s => s
  | None => "Unknown"
  end.

(** Equality of two failure codes as grouping keys. *)
Definition code_eqb (a b : option string) : bool :=
  match a, b with
  | None, None => true
  | Some s, Some t => String.eqb s t
  | _, _ => false
  end.

(** [ROUND(100.0 * COUNT( * ) / SUM(COUNT( * )) OVER (), 2)] for a group of
    [count] rows among [total] rows of all groups *)
Definition share_pct (count total : nat) : Q :=
  round_to 2 (Qmake (100 * Z.of_nat count) (Pos.of_nat total)).

(** The groups of [GROUP BY failure_code] over the failed rows. *)
Definition failure_groups (rows : list Tx.Row) : list (option string * list Tx.Row) :=
  group_rows code_eqb Tx.failure_code (List.filter is_failed rows).

Definition entry_count (e : string * Z * Q) : Z := snd (fst e).

(** The rows of the top failure codes statement over the rows selected by
    its WHERE clause: label, count and percentage of every group, ordered
    by count descending, the first [limit] of them. *)
Definition top_failure_codes (rows : list Tx.Row) (limit : nat) : list (string * Z * Q) :=
  let total := length (List.filter is_failed rows) in
  let out := map (fun g => (code_label (fst g), Z.of_nat (length (snd g)),
                            share_pct (length (snd g)) total))
                 (failure_groups rows) in
  firstn limit (order_by (fun a b => Z.leb (entry_count b) (entry_count a)) out).

Definition entry_tuple (e : string * Z * Q) : list cell :=
  [VStr (fst (fst e)); VInt (entry_count e); VFloat (snd e)].

(** The answer to a statement of the fragment over the table [tbl]. *)
Definition run (d : Dialect) (tbl : list Tx.Row) (q : query) (params : list string)
    : result Relation :=
  match q with
  | QFailureRate w =>
      let* s := select_rows d w params tbl in
      let* rows := all_bound s in
      Ok {| columns := ["total_transactions"; "failed_transactions"; "failure_rate_pct"];
            tuples := [[ VInt (Z.of_nat (length rows));
                         sum_case is_failed rows;
                         rate_cell 2 is_failed rows ]] |}
  | QFailedSample w =>
      let* s := select_rows d w params tbl in
      let* rows := all_bound s in
      Ok {| columns := ["transaction_id"; "timestamp"; "amount"; "device"; "state";
                        "category"; "failure_code"];
            tuples := map (fun r => [ opt_cell VStr (Tx.transaction_id r);
                                      opt_cell VTimestamp (Tx.timestamp r);
                                      opt_cell VFloat (Tx.amount r);
                                      opt_cell VStr (Tx.device r);
                                      opt_cell VStr (Tx.state r);
                                      opt_cell VStr (Tx.category r);
                                      opt_cell VStr (Tx.failure_code r) ])
                          (firstn 5 (List.filter is_failed rows)) |}
  | QAggregate [] e alias w =>
      let* _ := check_alias d alias in
      let* s := select_rows d w params tbl in
      let* rows := all_bound s in
      Ok {| columns := [alias]; tuples := [[eval_agg e rows]] |}
  | QAggregate by_ e alias w =>
      let* _ := check_alias d alias in
      let* getters := traverse getter by_ in
      let* s := select_rows d w params tbl in
      let* rows := all_bound s in
      let groups := group_rows keys_eqb (fun r => map (fun g => g r) getters) rows in
      let out := map (fun g => (fst g, eval_agg e (snd g))) groups in
      let sorted := order_by (fun a b => cell_geb (snd a) (snd b)) out in
      Ok {| columns := by_ ++ [alias];
            tuples := map (fun kv => fst kv ++ [snd kv]) (firstn 20 sorted) |}
  | QCompare e alias w seg_a seg_b =>
      let* _ := check_alias d alias in
      match seg_a, seg_b with
      | _ :: _, _ :: _ =>
          let* sa := select_rows d (w ++ seg_a) params tbl in
          let* sb := select_rows d (w ++ seg_b) (snd sa) tbl in
          let* rows_b := all_bound sb in
          let rows_a := fst sa in
          Ok {| columns := ["segment"; alias; "sample_size"];
                tuples := [ [VStr "Segment A"; eval_agg e rows_a;
                             VInt (Z.of_nat (length rows_a))];
                            [VStr "Segment B"; eval_agg e rows_b;
                             VInt (Z.of_nat (length rows_b))] ] |}
      | _, _ => Raise "Parser Error: syntax error at or near AND"
      end
  | QTimeSeries t g e alias w =>
      let* _ := check_alias d alias in
      let* tb := time_bucket d t in
      let* gg := match g with
                 | Some c => let* f := getter c in Ok [f]
                 | None => Ok []
                 end in
      let* s := select_rows d w params tbl in
      let* rows := all_bound s in
      let groups := group_rows keys_eqb (fun r => tb r :: map (fun f => f r) gg) rows in
      let sorted := order_by (fun a b => keys_leb (fst a) (fst b)) groups in
      Ok {| columns := "time_period" :: match g with Some c => [c] | None => [] end
                       ++ [alias];
            tuples := map (fun kv => fst kv ++ [eval_agg e (snd kv)]) sorted |}
  | QTopFailureCodes w limit =>
      let* s := select_rows d w params tbl in
      let* rows := all_bound s in
      Ok {| columns := ["failure_code"; "count"; "percentage"];
            tuples := map entry_tuple (top_failure_codes rows (Z.to_nat limit)) |}
  | QSummary w =>
      let* s := select_rows d w params tbl in
      let* rows := all_bound s in
      Ok {| columns := ["total_transactions"; "total_volume"; "avg_transaction_amount";
                        "failure_rate"; "fraud_rate"; "review_rate"];
            tuples := [[ VInt (Z.of_nat (length rows));
                         eval_agg SumAmount rows;
                         eval_agg AvgAmount rows;
                         rate_cell 2 is_failed rows;
                         rate_cell 4 (flag_set Tx.fraud_flag) rows;
                         rate_cell 2 (flag_set Tx.review_flag) rows ]] |}
  end.

(** The connection [duckdb.connect(":memory:")] after [load_dataset] has
    filled the table with [tbl]. *)
Definition duckdb (d : Dialect) (tbl : list Tx.Row) : Conn :=
  {| execute := fun q params =>
       if in_fragment q then run d tbl q params else beyond d tbl q params |}.

(* ===================================================================== *)
(** * A concrete runtime, for running the model on examples *)
(* ===================================================================== *)

Module Sample.

(** Days since 1970-01-01 to the civil date (year, month, day), and back. *)
Definition civil_from_days (z : Z) : Z * Z * Z :=
  let z := (z + 719468)%Z in
  let era := (z / 146097)%Z in
  let doe := (z - era * 146097)%Z in
  let yoe := ((doe - doe / 1460 + doe / 36524 - doe / 146096) / 365)%Z in
  let doy := (doe - (365 * yoe + yoe / 4 - yoe / 100))%Z in
  let mp := ((5 * doy + 2) / 153)%Z in
  let d := (doy - (153 * mp + 2) / 5 + 1)%Z in
  let m := (if (mp <? 10)%Z then mp + 3 else mp - 9)%Z in
  let y := (yoe + era * 400 + (if (m <=? 2)%Z then 1 else 0))%Z in
  (y, m, d).

Definition days_from_civil (y m d : Z) : Z :=
  let y := (if (m <=? 2)%Z then y - 1 else y)%Z in
  let era := (y / 400)%Z in
  let yoe := (y - era * 400)%Z in
  let doy := ((153 * (if (2 <? m)%Z then m - 3 else m + 9) + 2) / 5 + d - 1)%Z in
  let doe := (yoe * 365 + yoe / 4 - yoe / 100 + doy)%Z in
  (era * 146097 + doe - 719468)%Z.

(** A non-negative number in at least [width] decimal digits. *)
Fixpoint zeros (n : nat) : string :=
  match n with
  | O => EmptyString
  | S k => String "0" (zeros k)
  end.

Definition pad (width : nat) (z : Z) : string :=
  let s := pretty z in
  zeros (width - String.length s) +:+ s.

Definition iso_date (days : Z) : string :=
  let '(y, m, d) := civil_from_days days in
  pad 4 y +:+ "-" +:+ pad 2 m +:+ "-" +:+ pad 2 d.


(** The value of a run of decimal digits; [None] if another character occurs. *)
Fixpoint digits_value (acc : Z) (s : string) : option Z :=
  match s with
  | EmptyString => Some acc
  | String c t =>
      if is_digit c
      then digits_value (10 * acc + Z.of_nat (nat_of_ascii c) - 48)%Z t
      else None
  end.

(** [YYYY-MM-DD] to days since the epoch *)
Definition parse_date (s : string) : option Z :=
  if (String.length s =? 10)%nat
     && String.eqb (substring 4 1 s) "-" && String.eqb (substring 7 1 s) "-"
  then
    match digits_value 0 (substring 0 4 s), digits_value 0 (substring 5 2 s),
          digits_value 0 (substring 8 2 s) with
    | Some y, Some m, Some d =>
        if (1 <=? m)%Z && (m <=? 12)%Z && (1 <=? d)%Z && (d <=? 31)%Z
        then Some (days_from_civil y m d) else None
    | _, _, _ => None
    end
  else None.

(** Thousands separators for a run of digits *)
Fixpoint group3 (digits : list ascii) : list ascii :=
  match digits with
  | a :: b :: c :: (_ :: _) as rest => a :: b :: c :: ","%char :: group3 rest
  | _ => digits
  end.

Definition with_commas (s : string) : string :=
  string_of_list_ascii
    (rev (group3 (rev (list_ascii_of_string s)))).

(** The nearest integer, halves to even *)
Definition round_half_even (q : Q) : Z :=
  let n := Qnum q in
  let dn := Zpos (Qden q) in
  let fl := (n / dn)%Z in
  let twice := (2 * (n - fl * dn))%Z in
  if (twice <? dn)%Z then fl
  else if (dn <? twice)%Z then (fl + 1)%Z
  else if Z.even fl then fl else (fl + 1)%Z.

(** [format(x, "[+][,].Nf")] *)
Definition fixed (plus comma : bool) (prec : nat) (q : Q) : string :=
  let s := (10 ^ Z.of_nat prec)%Z in
  let r := round_half_even (q * inject_Z s) in
  let a := Z.abs r in
  let whole := pretty (a / s)%Z in
  let frac := pad prec (a mod s)%Z in
  (if (r <? 0)%Z then "-" else if plus then "+" else "")
  +:+ (if comma then with_commas whole else whole)
  +:+ (match prec with O => "" | _ => "." +:+ frac end).

(** The least number of decimals, from 1 to [fuel], that represents [q]
    exactly *)
Fixpoint decimals (fuel k : nat) (q : Q) : nat :=
  match fuel with
  | O => k
  | S f =>
      if ((Qnum q * 10 ^ Z.of_nat k) mod Zpos (Qden q) =? 0)%Z then k
      else decimals f (S k) q
  end.

Definition signed_int (plus comma : bool) (z : Z) : string :=
  (if (z <? 0)%Z then "-" else if plus then "+" else "")
  +:+ (if comma then with_commas (pretty (Z.abs z)) else pretty (Z.abs z)).

Definition format_number (spec : string) (n : pynum) : string :=
  let plus := Py.starts_with "+" spec in
  let comma := Py.contains "," spec in
  let prec := if Py.contains ".1f" spec then Some 1%nat
              else if Py.contains ".2f" spec then Some 2%nat else None in
  match n, prec with
  | PNaN, _ => if plus then "+nan" else "nan"
  | PInt z, None => signed_int plus comma z
  | PInt z, Some p => fixed plus comma p (inject_Z z)
  | PFloat q, Some p => fixed plus comma p q
  | PFloat q, None => fixed plus comma (decimals 16 1 q) q
  end.

(** The day on which the examples run: 2025-01-10. *)
Definition today : Z := 20098.

Definition python : Python :=
  {| days_ago := fun n => iso_date (today - Z.of_nat n);
     format := format_number;
     str_missing := "nan";
     str_date := fun d => iso_date d +:+ " 00:00:00";
     str_timestamp := fun t => iso_date (t / 86400) |}.

Definition keywords : list string :=
  [ "select"; "from"; "where"; "group"; "order"; "having"; "limit"; "and"; "or";
    "not"; "as"; "union"; "all"; "case"; "when"; "then"; "else"; "end"; "table";
    "null"; "true"; "false"; "in"; "on"; "desc"; "asc"; "distinct" ].

Definition cast_text (ty : coltype) (s : string) : option cell :=
  match ty with
  | TText => Some (VStr s)
  | TInt => match s with
            | EmptyString => None
            | _ => option_map VInt (digits_value 0 s)
            end
  | TDouble => match s with
               | EmptyString => None
               | _ => option_map (fun z => VFloat (inject_Z z)) (digits_value 0 s)
               end
  | TDate => option_map VDate (parse_date s)
  | TTimestamp => option_map (fun d => VTimestamp (d * 86400)) (parse_date s)
  end.

Definition trunc_days (u : string) (days : Z) : Z :=
  if String.eqb u "week" then (days - (days + 3) mod 7)%Z
  else let '(y, m, _) := civil_from_days days in days_from_civil y m 1.

Definition trunc_at (u : string) (ty : coltype) : option (cell -> cell) :=
  match ty with
  | TDate =>
      Some (fun c => match c with VDate d => VDate (trunc_days u d) | _ => VNull end)
  | TTimestamp =>
      Some (fun c => match c with
                     | VTimestamp t => VTimestamp (trunc_days u (t / 86400) * 86400)
                     | _ => VNull
                     end)
  | _ => None
  end.

Definition dialect : Dialect :=
  {| reserved := fun s => existsb (String.eqb s) keywords;
     cast := cast_text;
     date_trunc := trunc_at;
     beyond := fun _ _ _ => Raise "Not implemented Error" |}.

(** The dataset of the fixture [sample_csv] of [tests/test_analysis.py]:
    one hundred hourly transactions from 2025-01-01, the last ten failed. *)
Definition cycle (l : list string) (i : nat) : option string :=
  nth_error l (i mod length l).

Definition row_every (step : Z) (i : nat) : Tx.Row :=
  {| Tx.transaction_id := Some ("txn_" +:+ pretty (Z.of_nat i));
     Tx.timestamp := Some (days_from_civil 2025 1 1 * 86400 + step * Z.of_nat i)%Z;
     Tx.amount := Some (inject_Z (100 + 10 * Z.of_nat i));
     Tx.payment_method := cycle ["UPI"; "Card"; "NetBanking"] i;
     Tx.device := cycle ["Android"; "iOS"; "Web"] i;
     Tx.state := cycle ["Maharashtra"; "Karnataka"; "Tamil Nadu"] i;
     Tx.age_group := cycle ["<25"; "25-34"; "35-44"; "45+"] i;
     Tx.network := cycle ["4G"; "5G"; "WiFi"; "3G"] i;
     Tx.category := cycle ["Food"; "Entertainment"; "Travel"; "Utilities"; "Others"] i;
     Tx.status := Some (if (i <? 90)%nat then "Success" else "Failed");
     Tx.failure_code :=
       if (i <? 90)%nat then None
       else cycle ["TIMEOUT"; "NETWORK_ERROR"; "BANK_DECLINED"] (i - 90);
     Tx.fraud_flag := Some (if (i <? 98)%nat then 0 else 1)%Z;
     Tx.review_flag := Some (if (i <? 95)%nat then 0 else 1)%Z |}.

Definition fixture : list Tx.Row := map (row_every 3600) (seq 0 100).

(** Twenty-one transactions, one a day. *)
Definition three_weeks : list Tx.Row := map (row_every 86400) (seq 0 21).


End Sample.


(* ===================================================================== *)
(** * Auxiliary notions used in the statements *)
(* ===================================================================== *)

(** The text of one equality with a placeholder. *)
Definition placeholder (cv : string * string) : string := fst cv +:+ " = ?".

(** The fields of a filter set with every value replaced by the empty
    string: the same fields are set, no value is kept. *)
Definition blank (filters : PrimaryFilters) : PrimaryFilters :=
  let b := option_map (fun _ : string => "") in
  {| device := b (device filters); state := b (state filters);
     age_group := b (age_group filters); network := b (network filters);
     category := b (category filters);
     payment_method := b (payment_method filters);
     status := b (status filters) |}.

Definition set_items (items : list (string * option string)) : list (string * string) :=
  omap (fun cv => match snd cv with
                  | Some v => Some (fst cv, v)
                  | None => None
                  end) items.


(** The length in days of a relative period, in the words of the
    specification: 7, 30 or 90 for the matching tag, 30 for any other tag. *)
Definition window_days (tag : string) : nat :=
  if decide (tag = "last_7_days") then 7
  else if decide (tag = "last_90_days") then 90
  else 30.

(** The text of one time bound appended to a predicate. *)
Definition bound_text (op lit : string) : string :=
  " AND timestamp " +:+ op +:+ " '" +:+ lit +:+ "'".

(** The text that the conjuncts [atoms] add behind a non-empty predicate. *)
Fixpoint conj_suffix (atoms : list atom) : string :=
  match atoms with
  | [] => ""
  | b :: rest => " AND " +:+ render_atom b +:+ conj_suffix rest
  end.


(** The rate [compute_failure_rate] reports for the selected rows:
    [result[2] or 0.0]. *)
Definition reported_rate (rows : list Tx.Row) : Q :=
  match rate_cell 2 is_failed rows with
  | VFloat q => if Qeq_bool q 0 then 0%Q else q
  | _ => 0%Q
  end.

(** A filter set with only the device set. *)
Definition device_only (dev : string) : PrimaryFilters :=
  {| device := Some dev; state := None; age_group := None; network := None;
     category := None; payment_method := None; status := None |}.






(** The distinct keys of the rows, in order of first occurrence. *)
Definition first_keys {K : Type} (eqb : K -> K -> bool) (key : Tx.Row -> K)
    (rows : list Tx.Row) : list K :=
  fold_left (fun ks r => if existsb (eqb (key r)) ks then ks else ks ++ [key r])
            rows [].

(** The rows with the key [k]. *)
Definition rows_of {K : Type} (eqb : K -> K -> bool) (key : Tx.Row -> K)
    (rows : list Tx.Row) (k : K) : list Tx.Row :=
  List.filter (fun r => eqb (key r) k) rows.


(** The row of the top failure codes statement for the failure code
    [code], among the failed rows [failures]. *)
Definition code_entry (failures : list Tx.Row) (code : option string)
    : string * Z * Q :=
  let n := length (rows_of code_eqb Tx.failure_code failures code) in
  (code_label code, Z.of_nat n, share_pct n (length failures)).



(* ===================================================================== *)
(** * The router of the chat endpoint ([app/api/chat.py]) *)
(* ===================================================================== *)

(** [ComparisonRequest]; its field [time_window] is never read. *)
Record ComparisonRequest := {
  compare_with : option string
}.

(** The model [TimeWindow] of the schemas. *)
Record TimeWindowSchema := {
  from_date : option string;
  to_date : option string;
  period : option string
}.

(** An [IntentSchema] as the endpoint reads it: the fields the guard reads,
    with [comparison], [time_window] and the two follow-up fields. *)
Record RoutedIntent := {
  guarded : IntentSchema;
  comparison : option ComparisonRequest;
  time_window : option TimeWindowSchema;
  follow_up_needed : bool;
  follow_up_question : option string
}.

(** The dict [{"from": ..., "to": ..., "period": ...}] *)
Definition window_dict (w : TimeWindowSchema) : TimeWindow :=
  <["from" := from_date w]> (<["to" := to_date w]> (<["period" := period w]> ∅)).

(** [o or fallback], for an [Optional[str]] and a string *)
Definition or_str (o : option string) (fallback : string) : string :=
  if Py.truthy o then str_opt o else fallback.

(** The two segment dicts of the [COMPARISON] branch. *)
Definition comparison_segments (intent : RoutedIntent)
    : list (string * string) * list (string * string) :=
  let filters := primary_filters (guarded intent) in
  let given := match comparison intent with
               | Some cmp => compare_with cmp
               | None => None
               end in
  if Py.truthy given then
    if existsb (String.eqb (Py.lower (str_opt given))) ["android"; "ios"; "web"] then
      if Py.truthy (device filters)
      then ([("device", str_opt (device filters))], [("device", str_opt given)])
      else ([("device", "Android")], [("device", str_opt given)])
    else ([], [])
  else ([("device", "Android")], [("device", "iOS")]).

(** The grouping column of the [SEGMENTATION] branch. *)
Definition segmentation_columns (filters : PrimaryFilters) : list string :=
  if Py.truthy (device filters) then ["device"]
  else if Py.truthy (age_group filters) then ["age_group"]
  else ["category"].

Definition _execute_analysis (py : Python) (conn : option Conn)
    (intent : RoutedIntent) : AnalysisResult :=
  let filters := primary_filters (guarded intent) in
  let window := option_map window_dict (time_window intent) in
  match intent_type (guarded intent) with
  | COMPARISON =>
      let '(segment_a, segment_b) := comparison_segments intent in
      compare_segments py conn segment_a segment_b
        (or_str (metric (guarded intent)) "failure_rate") (Some filters) window
  | TIME_SERIES =>
      time_series py conn (or_str (metric (guarded intent)) "volume")
        "date_only" "day" (Some filters) window None
  | SEGMENTATION =>
      aggregate py conn (or_str (metric (guarded intent)) "volume")
        (segmentation_columns filters) (Some filters) window
  | _ =>
      let metric_ := or_str (metric (guarded intent)) "failure_rate" in
      if String.eqb (Py.lower metric_) "failure_codes" then
        get_top_failure_codes py conn (Some filters) window None
      else if String.eqb (Py.lower metric_) "executive_summary" then
        get_executive_summary py conn window
      else if Py.contains "failure" (Py.lower metric_) then
        compute_failure_rate py conn (Some filters) window
      else
        aggregate py conn metric_ [] (Some filters) window
  end.

(** The conjuncts an operation builds from its filters and time window. *)
Definition where_of (q : query) : list atom :=
  match q with
  | QFailureRate w | QFailedSample w | QSummary w => w
  | QAggregate _ _ _ w => w
  | QCompare _ _ w _ _ => w
  | QTimeSeries _ _ _ _ w => w
  | QTopFailureCodes w _ => w
  end.

Definition is_placeholder (a : atom) : bool :=
  match a with
  | AEqParam _ => true
  | _ => false
  end.

(** A connection that, as DuckDB does, refuses a statement that holds a
    placeholder when it is executed without values. *)
Definition refuses_unbound (c : Conn) : Prop :=
  forall q, existsb is_placeholder (where_of q) = true ->
            exists msg, execute c q [] = Raise msg.

(** The labels of the six numbers of the executive summary. *)
Definition summary_labels : list string :=
  [ "Total Transactions"; "Total Volume"; "Average Transaction";
    "Failure Rate"; "Fraud Rate"; "Review Rate" ].

(** A number and a chart point that show the same thing. *)
Definition plotted (n : NumberDetail) (p : ChartDataPoint) : Prop :=
  raw_value n = Some (y p).

(* ===================================================================== *)
(** * Loading the dataset, and the service singleton *)
(* ===================================================================== *)

(** What [load_dataset] takes from outside the repository: the file system
    and DuckDB's execution of the loading statements, each for the path of
    the data file. *)
Record Loader := {
  (** [Path(data_path).exists()] *)
  path_exists : string -> bool;
  (** the connection [duckdb.connect(":memory:")], as it answers the
      operations after [load_dataset] has used it *)
  connection : string -> Conn;
  (** [CREATE TABLE transactions AS SELECT * FROM read_csv_auto(...)] *)
  create_table : string -> result unit;
  (** the column names that [information_schema.columns] lists for the
      table *)
  column_names : string -> result (list string);
  (** the [ALTER TABLE] and [UPDATE] statements for [date_only] *)
  add_date_only : string -> result unit
}.

(** The attributes of an [AnalysisService] that change or differ between
    instances. *)
Record AnalysisService := {
  data_path : string;
  conn : option Conn
}.

(** [AnalysisService(data_path)] *)
Definition new_service (path : string) : AnalysisService :=
  {| data_path := path; conn := None |}.

Definition _required_columns : gset string :=
  {[ "transaction_id"; "timestamp"; "amount"; "payment_method"; "device";
     "state"; "age_group"; "network"; "category"; "status"; "failure_code";
     "fraud_flag"; "review_flag" ]}.

(** [str] of a set of strings, in the order of [elements]. *)
Definition set_repr (s : gset string) : string :=
  "{" +:+ Py.join ", " (map (fun c => "'" +:+ c +:+ "'") (elements s)) +:+ "}".

(** [load_dataset]: what it returns or raises, and the instance as the call
    leaves it. *)
Definition load_dataset (env : Loader) (self : AnalysisService)
    : result bool * AnalysisService :=
  let path := data_path self in
  if negb (path_exists env path) then
    (Raise ("Data file not found: " +:+ path), self)
  else
    let self := {| data_path := path; conn := Some (connection env path) |} in
    (let* _ := create_table env path in
     let* columns_ := column_names env path in
     let actual_columns : gset string := list_to_set (map Py.lower columns_) in
     let missing := _required_columns ∖ actual_columns in
     if bool_decide (missing = ∅) then
       let* _ := add_date_only env path in
       Ok true
     else Raise ("Missing required columns: " +:+ set_repr missing),
     self).

(** [get_analysis_service]: the global [_analysis_service] is threaded
    through; it is assigned before [load_dataset] is called. *)
Definition get_analysis_service (env : Loader) (global : option AnalysisService)
    (path : string) : result AnalysisService * option AnalysisService :=
  match global with
  | Some service => (Ok service, global)
  | None =>
      let loaded := load_dataset env (new_service path) in
      (let* _ := fst loaded in Ok (snd loaded), Some (snd loaded))
  end.

(** The six operations answer with this result while no dataset is
    loaded. *)
Definition not_loaded (metric : string) : AnalysisResult :=
  failed metric "N/A" "Dataset not loaded".

(** A loader for the examples: the file [data.csv] exists and holds the
    rows of the test fixture under capitalised headers, with one further
    column; no other file exists. *)
Definition sample_loader : Loader :=
  {| path_exists := fun p => String.eqb p "data.csv";
     connection := fun _ => duckdb Sample.dialect Sample.fixture;
     create_table := fun _ => Ok tt;
     column_names := fun _ =>
       Ok [ "Transaction_ID"; "Timestamp"; "Amount"; "Payment_Method"; "Device";
            "State"; "Age_Group"; "Network"; "Category"; "Status";
            "Failure_Code"; "Fraud_Flag"; "Review_Flag"; "Merchant" ];
     add_date_only := fun _ => Ok tt |}.

(* ===================================================================== *)
(** * The session service ([app/services/session_service.py]) *)
(* ===================================================================== *)

(** [ConversationTurn], without its timestamp and without [intent] and
    [analysis], which [add_turn] never sets. *)
Record ConversationTurn := {
  role : string;
  content : string
}.

(** [SessionContext], without its dates and its metadata. *)
Record SessionContext := {
  session_id : string;
  turns : list ConversationTurn
}.

(** A [SessionService].  The [OrderedDict] is the list of its items, the
    oldest first. *)
Record SessionService := {
  max_turns : Z;
  max_sessions : Z;
  _sessions : list (string * SessionContext)
}.

(** [SessionService(max_turns, max_sessions)] *)
Definition new_sessions (turns_kept sessions_kept : Z) : SessionService :=
  {| max_turns := turns_kept; max_sessions := sessions_kept; _sessions := [] |}.

Definition with_sessions (self : SessionService)
    (d : list (string * SessionContext)) : SessionService :=
  {| max_turns := max_turns self; max_sessions := max_sessions self;
     _sessions := d |}.

(** [l[-n:]]: the last [n] items for a positive [n]; the whole list for
    [n = 0]; the list without its first [-n] items for a negative [n]. *)
Definition last_from {A : Type} (n : Z) (l : list A) : list A :=
  if (0 <? n)%Z then skipn (length l - Z.to_nat n) l
  else skipn (Z.to_nat (- n)) l.

Definition has_key (k : string) (d : list (string * SessionContext)) : bool :=
  existsb (fun kv => String.eqb (fst kv) k) d.

(** [del d[k]] *)
Definition del_item (k : string) (d : list (string * SessionContext))
    : list (string * SessionContext) :=
  List.filter (fun kv => negb (String.eqb (fst kv) k)) d.

(** [d[k] = v]: a key that is present keeps its place. *)
Definition set_item (k : string) (v : SessionContext)
    (d : list (string * SessionContext)) : list (string * SessionContext) :=
  if has_key k d
  then map (fun kv => if String.eqb (fst kv) k then (k, v) else kv) d
  else d ++ [(k, v)].

Definition _add_session (self : SessionService) (sid : string)
    (session : SessionContext) : result SessionService :=
  let* d :=
    if (max_sessions self <=? Z.of_nat (length (_sessions self)))%Z then
      match _sessions self with
      | [] => Raise "'dictionary is empty'"
      | _ :: rest => Ok rest
      end
    else Ok (_sessions self) in
  Ok (with_sessions self (set_item sid session d)).

(** [get_session]: the session, and the service as the call leaves it. *)
Definition get_session (self : SessionService) (sid : string)
    : result (SessionContext * SessionService) :=
  match assoc sid (_sessions self) with
  | Some session =>
      Ok (session,
          with_sessions self (del_item sid (_sessions self) ++ [(sid, session)]))
  | None =>
      let session := {| session_id := sid; turns := [] |} in
      let* self := _add_session self sid session in
      Ok (session, self)
  end.

(** [add_turn].  The session object is the one the store holds, so the
    store sees the new list of turns. *)
Definition add_turn (self : SessionService) (sid role_ content_ : string)
    : result SessionService :=
  let* found := get_session self sid in
  let session := fst found in
  let self := snd found in
  let appended := turns session ++ [ {| role := role_; content := content_ |} ] in
  let kept := if (max_turns self <? Z.of_nat (length appended))%Z
              then last_from (max_turns self) appended
              else appended in
  Ok (with_sessions self
        (set_item sid {| session_id := session_id session; turns := kept |}
                  (_sessions self))).

(** One line of the context string.  A character of the model is one
    [ascii]; [len] and the slice count characters. *)
Definition context_line (turn : ConversationTurn) : string :=
  let role_label := if String.eqb (role turn) "user" then "User" else "Assistant" in
  let shown :=
    if (500 <? String.length (content turn))%nat
    then substring 0 500 (content turn) +:+ "..."
    else content turn in
  role_label +:+ ": " +:+ shown.

Definition get_context_string (self : SessionService) (sid : string)
    : result (string * SessionService) :=
  let* found := get_session self sid in
  match turns (fst found) with
  | [] => Ok ("No previous context.", snd found)
  | shown =>
      Ok (Py.join nl (map context_line (last_from (max_turns self) shown)),
          snd found)
  end.

Definition get_last_user_query (self : SessionService) (sid : string)
    : result (option string * SessionService) :=
  let* found := get_session self sid in
  Ok (option_map content
        (List.find (fun turn => String.eqb (role turn) "user")
                   (rev (turns (fst found)))),
      snd found).

Definition clear_session (self : SessionService) (sid : string) : SessionService :=
  if has_key sid (_sessions self)
  then with_sessions self (del_item sid (_sessions self))
  else self.

(** The calls a client of the service can make, and what a sequence of
    them does to the service. *)
Inductive session_call :=
| CallGetSession (sid : string)
| CallAddTurn (sid role_ content_ : string)
| CallContextString (sid : string)
| CallLastUserQuery (sid : string)
| CallClearSession (sid : string).

Definition perform (self : SessionService) (call : session_call)
    : result SessionService :=
  match call with
  | CallGetSession sid => let* found := get_session self sid in Ok (snd found)
  | CallAddTurn sid role_ content_ => add_turn self sid role_ content_
  | CallContextString sid =>
      let* found := get_context_string self sid in Ok (snd found)
  | CallLastUserQuery sid =>
      let* found := get_last_user_query self sid in Ok (snd found)
  | CallClearSession sid => Ok (clear_session self sid)
  end.

Fixpoint perform_all (self : SessionService) (calls : list session_call)
    : result SessionService :=
  match calls with
  | [] => Ok self
  | call :: rest => let* self := perform self call in perform_all self rest
  end.

(** The turns the store holds for a session id. *)
Definition stored_turns (self : SessionService) (sid : string)
    : list ConversationTurn :=
  match assoc sid (_sessions self) with
  | Some session => turns session
  | None => []
  end.

(** The store holds one session per id, no more sessions than
    [max_sessions], and, when [max_turns] is positive, no session with
    more turns than [max_turns]. *)
Definition within_limits (self : SessionService) : Prop :=
  List.NoDup (map fst (_sessions self))
  /\ (Z.of_nat (length (_sessions self)) <= max_sessions self)%Z
  /\ ((1 <= max_turns self)%Z ->
      Forall (fun kv => (Z.of_nat (length (turns (snd kv))) <= max_turns self)%Z)
             (_sessions self)).

(* ===================================================================== *)
(** * The rate limiter ([app/services/llm_service.py]) *)
(* ===================================================================== *)

(** A [RateLimiter].  [_requests] is a [defaultdict(list)]: a session id
    without an entry reads as the empty list. *)
Record RateLimiter := {
  max_requests : Z;
  window_seconds : Z;
  _requests : gmap string (list Q)
}.

(** [RateLimiter(max_requests, window_seconds)] *)
Definition new_limiter (requests_allowed window : Z) : RateLimiter :=
  {| max_requests := requests_allowed; window_seconds := window; _requests := ∅ |}.

Definition with_requests (self : RateLimiter) (m : gmap string (list Q))
    : RateLimiter :=
  {| max_requests := max_requests self; window_seconds := window_seconds self;
     _requests := m |}.

(** [ts > bound] *)
Definition later_than (bound ts : Q) : bool := negb (Qle_bool ts bound).

(** [self._requests[session_id]] *)
Definition requests_of (self : RateLimiter) (sid : string) : list Q :=
  default [] (_requests self !! sid).

(** [is_allowed], the value of [time.time()] being the argument [now]:
    the verdict, and the limiter as the call leaves it. *)
Definition is_allowed (self : RateLimiter) (now : Q) (sid : string)
    : bool * RateLimiter :=
  let window_start := (now - inject_Z (window_seconds self))%Q in
  let recent := List.filter (later_than window_start) (requests_of self sid) in
  if (max_requests self <=? Z.of_nat (length recent))%Z
  then (false, with_requests self (<[sid := recent]> (_requests self)))
  else (true, with_requests self (<[sid := recent ++ [now]]> (_requests self))).

(** The verdicts of a sequence of calls, each with its time and its
    session id. *)
Fixpoint verdicts (self : RateLimiter) (calls : list (Q * string)) : list bool :=
  match calls with
  | [] => []
  | (now, sid) :: rest =>
      let outcome := is_allowed self now sid in
      fst outcome :: verdicts (snd outcome) rest
  end.

(** The times of the calls of a sequence that were allowed for [sid]. *)
Fixpoint grants (self : RateLimiter) (calls : list (Q * string)) (sid : string)
    : list Q :=
  match calls with
  | [] => []
  | (now, s) :: rest =>
      let outcome := is_allowed self now s in
      (if fst outcome && String.eqb s sid then [now] else [])
      ++ grants (snd outcome) rest sid
  end.

(** The clock does not run backwards from [start] on. *)
Fixpoint clock_from (start : Q) (calls : list (Q * string)) : Prop :=
  match calls with
  | [] => True
  | (now, _) :: rest => (start <= now)%Q /\ clock_from now rest
  end.

(** The number of the times [l] that lie in the window of [width] seconds
    that ends at [t]. *)
Definition in_window (width : Z) (t : Q) (l : list Q) : nat :=
  length (List.filter (fun ts => later_than (t - inject_Z width) ts && Qle_bool ts t) l).

(** What the limiter remembers of the calls it has let through: for each
    session the times in [past] that are still within the window of some
    moment not later than [clock]; and [past] respects the limit. *)
Definition remembers (self : RateLimiter) (past : string -> list Q) (clock : Q) : Prop :=
  (forall sid, exists seen, (seen <= clock)%Q
     /\ requests_of self sid
        = List.filter (later_than (seen - inject_Z (window_seconds self))) (past sid))
  /\ (forall sid ts, In ts (past sid) -> (ts <= clock)%Q)
  /\ (forall sid t,
        (Z.of_nat (in_window (window_seconds self) t (past sid)) <= max_requests self)%Z).

(** Two limiters that no call made at [clock] or later can tell apart:
    they have the same limits and, for every session, the same times
    within the window that ends at [clock]. *)
Definition alike_from (clock : Q) (a b : RateLimiter) : Prop :=
  max_requests a = max_requests b
  /\ window_seconds a = window_seconds b
  /\ forall sid,
       List.filter (later_than (clock - inject_Z (window_seconds a))) (requests_of a sid)
       = List.filter (later_than (clock - inject_Z (window_seconds a))) (requests_of b sid).
(* ===================================================================== *)
(** * Properties *)
(* ===================================================================== *)

(** ** Strings *)

Lemma append_cons (c : ascii) (s t : string) :
  String c s +:+ t = String c (s +:+ t).
Proof. reflexivity. Qed.

Lemma append_nil_r (s : string) : s +:+ "" = s.
Proof.
  induction s as [|c s IH]; [reflexivity|].
  now rewrite append_cons, IH.
Qed.

Lemma append_assoc (a b c : string) : (a +:+ b) +:+ c = a +:+ (b +:+ c).
Proof.
  induction a as [|x a IH]; [reflexivity|].
  now rewrite !append_cons, IH.
Qed.

Lemma join_snoc (sep : string) (l : list string) (x : string) :
  l <> [] -> Py.join sep (l ++ [x]) = Py.join sep l +:+ sep +:+ x.
Proof.
  induction l as [|a l IH]; intros Hne; [congruence|].
  destruct l as [|b l].
  - reflexivity.
  - change (Py.join sep ((a :: b :: l) ++ [x]))
      with (a +:+ sep +:+ Py.join sep ((b :: l) ++ [x])).
    rewrite IH by discriminate.
    change (Py.join sep (a :: b :: l)) with (a +:+ sep +:+ Py.join sep (b :: l)).
    now rewrite !append_assoc.
Qed.

(** ** The computability guard *)

Lemma truthy_lower (x : option string) :
  Py.truthy (Py.lower <$> x) = Py.truthy x.
Proof.
  destruct x as [s|]; simpl; [|reflexivity].
  destruct s; reflexivity.
Qed.

(** Whether a value is rejected depends on its lower-cased form only. *)
Lemma rejected_by_lower (v : gset string) (x x' : option string) :
  Py.lower <$> x = Py.lower <$> x' -> rejected_by v x = rejected_by v x'.
Proof.
  intros H. unfold rejected_by.
  rewrite <- (truthy_lower x), <- (truthy_lower x'), H.
  destruct x as [s|], x' as [s'|]; simpl in *; try congruence.
  injection H as ->. reflexivity.
Qed.

Lemma guard_verdict (i : IntentSchema) :
  fst (is_metric_computable i) =
  negb (rejected_by supported_metrics (metric i))
  && negb (rejected_by valid_devices (device (primary_filters i)))
  && negb (rejected_by valid_networks (network (primary_filters i))).
Proof.
  unfold is_metric_computable.
  destruct (rejected_by supported_metrics _); [reflexivity|].
  destruct (rejected_by valid_devices _); [reflexivity|].
  destruct (rejected_by valid_networks _); reflexivity.
Qed.

Lemma accepted_metric_supported (i : IntentSchema) (m : string) :
  metric i = Some m -> m <> "" -> fst (is_metric_computable i) = true ->
  Py.lower m ∈ supported_metrics.
Proof.
  intros Hm Hne Hacc. rewrite guard_verdict, Hm in Hacc.
  apply andb_prop in Hacc as [Hacc _]. apply andb_prop in Hacc as [Hacc _].
  unfold rejected_by in Hacc. simpl in Hacc.
  destruct (String.eqb_spec m ""); [congruence|]. simpl in Hacc.
  apply negb_true_iff, negb_false_iff in Hacc.
  now apply bool_decide_eq_true in Hacc.
Qed.

(** C1, as the code has it.  Every metric name the guard accepts, other
    than [fraud_rate] and [review_rate], is, lower-cased, either a key of
    the expression map of [aggregate] or the name of one of the two
    operations with a query of their own, [failure_codes] and
    [executive_summary]. *)
Theorem accepted_metric_registered_or_dedicated (i : IntentSchema) (m : string) :
  metric i = Some m -> m <> "" -> fst (is_metric_computable i) = true ->
  Py.lower m <> "fraud_rate" -> Py.lower m <> "review_rate" ->
  is_Some (aggregate_expr_map !! Py.lower m)
  \/ Py.lower m = "failure_codes" \/ Py.lower m = "executive_summary".
Proof.
  intros Hm Hne Hacc Hf Hr.
  pose proof (accepted_metric_supported i m Hm Hne Hacc) as Hin.
  unfold supported_metrics in Hin.
  repeat (apply elem_of_union in Hin as [Hin|Hin]);
    apply elem_of_singleton in Hin; rewrite Hin in *;
    try congruence; try (left; vm_compute; eauto; fail); auto.
Qed.

Lemma accepted_metric_registered_or_dedicated_witness :
  is_Some (aggregate_expr_map !! Py.lower "Avg_Amount")
  \/ Py.lower "Avg_Amount" = "failure_codes"
  \/ Py.lower "Avg_Amount" = "executive_summary".
Proof.
  apply (accepted_metric_registered_or_dedicated
           {| intent_type := METRIC_QUERY; metric := Some "Avg_Amount";
              primary_filters := no_filters |} "Avg_Amount");
    [reflexivity | discriminate | vm_compute; reflexivity
    | vm_compute; discriminate | vm_compute; discriminate].
Defined.

(** C1, as the specification states it, fails: the guard accepts
    [fraud_rate], which is no key of the expression map of [aggregate]. *)
Lemma guard_accepts_unregistered_metric :
  fst (is_metric_computable
         {| intent_type := METRIC_QUERY; metric := Some "fraud_rate";
            primary_filters := no_filters |}) = true
  /\ aggregate_expr_map !! Py.lower "fraud_rate" = None.
Proof. split; vm_compute; reflexivity. Qed.

(** C10.  The verdict of the guard depends on the metric name and on the
    device and network values through their lower-cased forms only, and on
    no other filter field: [FAILURE_RATE] with device [ANDROID], network
    [WIFI] and arbitrary values in the five other fields is accepted. *)
Theorem guard_is_case_insensitive :
  (forall i i' : IntentSchema,
     Py.lower <$> metric i = Py.lower <$> metric i' ->
     Py.lower <$> device (primary_filters i) = Py.lower <$> device (primary_filters i') ->
     Py.lower <$> network (primary_filters i) = Py.lower <$> network (primary_filters i') ->
     fst (is_metric_computable i) = fst (is_metric_computable i'))
  /\ (forall (t : IntentType) (st ag ca pm s : option string),
        is_metric_computable
          {| intent_type := t; metric := Some "FAILURE_RATE";
             primary_filters :=
               {| device := Some "ANDROID"; state := st; age_group := ag;
                  network := Some "WIFI"; category := ca; payment_method := pm;
                  status := s |} |} = (true, "")).
Proof.
  split.
  - intros i i' Hm Hd Hn. rewrite !guard_verdict.
    now rewrite (rejected_by_lower _ _ _ Hm), (rejected_by_lower _ _ _ Hd),
      (rejected_by_lower _ _ _ Hn).
  - intros. vm_compute. reflexivity.
Qed.

Lemma guard_is_case_insensitive_witness :
  fst (is_metric_computable
         {| intent_type := METRIC_QUERY; metric := Some "Volume";
            primary_filters :=
              {| device := Some "iOS"; state := Some "Goa"; age_group := None;
                 network := Some "5G"; category := None; payment_method := None;
                 status := None |} |})
  = fst (is_metric_computable
           {| intent_type := TIME_SERIES; metric := Some "VOLUME";
              primary_filters :=
                {| device := Some "IOS"; state := None; age_group := Some "elderly";
                   network := Some "5g"; category := Some "Pets";
                   payment_method := None; status := Some "Pending" |} |}).
Proof.
  apply (proj1 guard_is_case_insensitive); reflexivity.
Defined.

(** ** The predicate builder *)

Lemma where_loop_spec (items : list (string * option string))
    (conditions params : list string) :
  where_loop items conditions params =
  (conditions ++ map placeholder (set_items items),
   params ++ map snd (set_items items)).
Proof.
  revert conditions params.
  induction items as [|[col [v|]] items IH]; intros conditions params.
  - simpl. now rewrite !app_nil_r.
  - simpl. rewrite IH. unfold set_items at 3 4. simpl.
    now rewrite <- !app_assoc.
  - simpl. now rewrite IH.
Qed.

Lemma build_where_clause_fields (filters : PrimaryFilters) :
  _build_where_clause filters =
  (match set_fields filters with
   | [] => "1=1"
   | fields => Py.join " AND " (map placeholder fields)
   end, map snd (set_fields filters)).
Proof.
  unfold _build_where_clause. rewrite where_loop_spec.
  change (set_items (filter_map filters)) with (set_fields filters).
  cbv beta iota. rewrite !app_nil_l.
  destruct (set_fields filters); reflexivity.
Qed.

(** The text built by the source is the rendering of the conjuncts the
    model works with. *)
Lemma build_where_clause_render (filters : PrimaryFilters) :
  fst (_build_where_clause filters) = render_conj (where_atoms filters).
Proof.
  rewrite build_where_clause_fields. unfold where_atoms, render_conj.
  cbn [fst].
  destruct (set_fields filters) as [|cv fields]; [reflexivity|].
  now rewrite map_map.
Qed.



(** ** The time window resolver *)

Lemma period_days_window_days (tag : string) : period_days tag = window_days tag.
Proof.
  unfold period_days, window_days.
  destruct (String.eqb_spec tag "last_7_days") as [->|H7]; [reflexivity|].
  rewrite decide_False by exact H7.
  destruct (String.eqb_spec tag "last_30_days") as [->|H30]; [reflexivity|].
  destruct (String.eqb_spec tag "last_90_days") as [->|H90]; [reflexivity|].
  now rewrite decide_False by exact H90.
Qed.

Lemma tw_get_empty (k : string) : tw_get ∅ k = None.
Proof. unfold tw_get. now rewrite lookup_empty. Qed.

(** The three optional suffixes, in the order the source appends them. *)
Lemma apply_time_window_text (py : Python) (base : string) (tw : TimeWindow) :
  let period := tw_get tw "period" in
  let from_date := Py.or_else (tw_get tw "from_date") (tw_get tw "from") in
  let to_date := Py.or_else (tw_get tw "to_date") (tw_get tw "to") in
  _apply_time_window py base (Some tw) =
  (base
   +:+ (if Py.truthy period
        then bound_text ">=" (days_ago py (window_days (str_opt period))) else "")
   +:+ (if Py.truthy from_date then bound_text ">=" (str_opt from_date) else "")
   +:+ (if Py.truthy to_date then bound_text "<=" (str_opt to_date) else ""),
   []).
Proof.
  intros period from_date to_date. unfold _apply_time_window.
  case_bool_decide as Hempty.
  - subst tw. subst period from_date to_date.
    rewrite !tw_get_empty. cbn. now rewrite !append_nil_r.
  - fold period from_date to_date. rewrite period_days_window_days.
    unfold bound_text.
    destruct (Py.truthy period), (Py.truthy from_date), (Py.truthy to_date);
      rewrite ?append_nil_r, ?append_assoc; reflexivity.
Qed.

Lemma render_conj_snoc (a : atom) (w : list atom) (b : atom) :
  render_conj ((a :: w) ++ [b]) = render_conj (a :: w) +:+ " AND " +:+ render_atom b.
Proof.
  unfold render_conj. rewrite map_app. simpl map at 2.
  apply join_snoc. discriminate.
Qed.

Lemma render_conj_app (a : atom) (w atoms : list atom) :
  render_conj ((a :: w) ++ atoms) = render_conj (a :: w) +:+ conj_suffix atoms.
Proof.
  revert w. induction atoms as [|b rest IH]; intros w.
  - rewrite app_nil_r. cbn [conj_suffix]. now rewrite append_nil_r.
  - change ((a :: w) ++ b :: rest) with ((a :: w) ++ [b] ++ rest).
    rewrite app_assoc. change ((a :: w) ++ [b]) with (a :: (w ++ [b])).
    rewrite IH. change (a :: (w ++ [b])) with ((a :: w) ++ [b]).
    rewrite render_conj_snoc. cbn [conj_suffix]. now rewrite !append_assoc.
Qed.

(** The text the source builds is the rendering of the conjuncts of the
    model: the base conjuncts followed by those of the window. *)
Lemma apply_time_window_render (py : Python) (a : atom) (w : list atom)
    (time_window : option TimeWindow) :
  fst (_apply_time_window py (render_conj (a :: w)) time_window)
  = render_conj ((a :: w) ++ window_atoms py time_window).
Proof.
  rewrite render_conj_app.
  destruct time_window as [tw|]; [|cbn; now rewrite append_nil_r].
  rewrite apply_time_window_text. cbn [fst]. unfold window_atoms.
  rewrite <- period_days_window_days.
  destruct (Py.truthy (tw_get tw "period")),
    (Py.truthy (Py.or_else (tw_get tw "from_date") (tw_get tw "from"))),
    (Py.truthy (Py.or_else (tw_get tw "to_date") (tw_get tw "to")));
    cbn [app conj_suffix render_atom]; unfold bound_text;
    rewrite ?append_nil_r, ?append_assoc; reflexivity.
Qed.


Lemma where_atoms_nonempty (filters : PrimaryFilters) :
  exists a w, where_atoms filters = a :: w.
Proof.
  unfold where_atoms. destruct (set_fields filters) as [|cv fields]; simpl; eauto.
Qed.

(** The WHERE clause of every statement is, as text, what
    [_build_where_clause] followed by [_apply_time_window] returns. *)
Lemma where_clause_text (py : Python) (filters : option PrimaryFilters)
    (time_window : option TimeWindow) :
  render_conj (where_clause py filters time_window)
  = fst (_apply_time_window py
           (fst (_build_where_clause (default no_filters filters))) time_window).
Proof.
  unfold where_clause. rewrite build_where_clause_render.
  destruct (where_atoms_nonempty (default no_filters filters)) as (a & w & ->).
  now rewrite apply_time_window_render.
Qed.

(** ** Failure results *)






(** Peels the binds of a [try] body that is known to return. *)
Ltac returns :=
  repeat match goal with
  | H : bind ?m _ = Ok _ |- _ =>
      let E := fresh "E" in
      destruct m eqn:E; cbn [bind] in H; [|discriminate H]
  | H : match ?x with _ => _ end = Ok _ |- _ =>
      let E := fresh "E" in destruct x eqn:E
  | H : Ok _ = Ok _ |- _ => injection H as H
  | H : Raise _ = Ok _ |- _ => discriminate H
  end.


(** ** Segment comparison *)



(** ** Sizes of the chart series *)

Lemma traverse_length {A B : Type} (f : A -> result B) (l : list A) (l' : list B) :
  traverse f l = Ok l' -> length l' = length l.
Proof.
  revert l'. induction l as [|a l IH]; intros l' H; simpl in H.
  - now injection H as <-.
  - returns. subst l'. simpl. f_equal. now apply IH.
Qed.

Lemma fetchdf_length (rel : Relation) : length (fetchdf rel) = length (tuples rel).
Proof. unfold fetchdf. apply length_map. Qed.

Lemma duckdb_execute (d : Dialect) (tbl : list Tx.Row) (q : query) (params : list string) :
  in_fragment q = true -> execute (duckdb d tbl) q params = run d tbl q params.
Proof. intros H. simpl. now rewrite H. Qed.

(** The body of an operation returned [r]. *)
Ltac returned H :=
  unfold try_except in H;
  match type of H with
  | context [match ?b with Ok _ => _ | Raise _ => _ end] =>
      let Hb := fresh "Hb" in
      destruct b eqn:Hb; [|discriminate H]
  end.

(** C7, as the code has it.  The chart series of a grouped aggregation has
    at most 20 points, that of a segment comparison exactly 2, and that of
    the top failure codes at most N.  The time series operation returns at
    most 20 numbers, and its chart series has one point for every row of
    the executed statement. *)
Theorem chart_series_sizes (py : Python) :
  (forall d tbl metric by_ filters tw ch,
     in_fragment (QAggregate by_ (metric_expr aggregate_expr_map metric) metric
                    (where_clause py filters tw)) = true ->
     chart_data (aggregate py (Some (duckdb d tbl)) metric by_ filters tw) = Some ch ->
     (length (data ch) <= 20)%nat)
  /\ (forall c seg_a seg_b metric filters tw ch,
        chart_data (compare_segments py (Some c) seg_a seg_b metric filters tw) = Some ch ->
        length (data ch) = 2%nat)
  /\ (forall d tbl filters tw limit ch,
        in_fragment (QTopFailureCodes (where_clause py filters tw)
                       (limit_or_default limit)) = true ->
        chart_data (get_top_failure_codes py (Some (duckdb d tbl)) filters tw limit) = Some ch ->
        (length (data ch) <= Z.to_nat (limit_or_default limit))%nat)
  /\ (forall c metric time_col period filters tw group_by,
        let r := time_series py (Some c) metric time_col period filters tw group_by in
        (length (numbers r) <= 20)%nat
        /\ forall ch, chart_data r = Some ch ->
             exists rel,
               execute c (QTimeSeries (bucket period time_col) (grouping group_by)
                            (metric_expr time_series_expr_map metric) metric
                            (where_clause py filters tw)) [] = Ok rel
               /\ length (data ch) = length (tuples rel)).
Proof.
  repeat split.
  - intros d tbl metric by_ filters tw ch Hfrag H.
    unfold aggregate in H. returned H. rewrite duckdb_execute in Hb by exact Hfrag.
    destruct by_ as [|b by_].
    + returns; subst a; discriminate H.
    + returns. subst a. cbn [chart_data] in H. injection H as <-. cbn [data].
      rewrite length_map. erewrite traverse_length by eassumption.
      rewrite fetchdf_length.
      unfold run in E. returns. subst. cbn [tuples].
      rewrite length_map. apply firstn_le_length.
  - intros c seg_a seg_b metric filters tw ch H.
    unfold compare_segments in H. returned H. returns. subst a.
    cbn [chart_data] in H. injection H as <-. reflexivity.
  - intros d tbl filters tw limit ch Hfrag H.
    unfold get_top_failure_codes in H. returned H.
    rewrite duckdb_execute in Hb by exact Hfrag.
    returns. subst a. cbn [chart_data] in H. injection H as <-. cbn [data].
    rewrite length_map. erewrite traverse_length by eassumption.
    rewrite fetchdf_length.
    unfold run in E. returns. subst. cbn [tuples].
    rewrite length_map. apply firstn_le_length.
  - unfold time_series, try_except.
    match goal with
    | |- context [match ?b with Ok _ => _ | Raise _ => _ end] => destruct b eqn:Hb
    end; [|simpl; lia].
    returns. subst a. cbn [numbers]. apply firstn_le_length.
  - intros ch H. unfold time_series in H. returned H. returns. subst a.
    cbn [chart_data] in H. injection H as <-. cbn [data].
    eexists. split; [reflexivity|].
    rewrite length_map. erewrite traverse_length by eassumption.
    apply fetchdf_length.
Qed.

Lemma chart_series_sizes_witness :
  (length (data
     {| chart_type := BAR; title := Some "Volume by category";
        x_label := None; y_label := None;
        data := [ {| x := "Food"; y := PFloat 20; point_label := None |};
                  {| x := "Entertainment"; y := PFloat 20; point_label := None |};
                  {| x := "Travel"; y := PFloat 20; point_label := None |};
                  {| x := "Utilities"; y := PFloat 20; point_label := None |};
                  {| x := "Others"; y := PFloat 20; point_label := None |} ];
        series_name := None |}) <= 20)%nat.
Proof.
  apply (proj1 (chart_series_sizes Sample.python) Sample.dialect Sample.fixture
           "volume" ["category"] None None).
  - vm_compute. reflexivity.
  - vm_compute. reflexivity.
Defined.

(** C7, as the specification states it, fails: over twenty-one days of
    transactions the chart series of the daily time series has twenty-one
    points, while only twenty numbers are returned. *)
Lemma time_series_chart_exceeds_cap :
  let r := time_series Sample.python (Some (duckdb Sample.dialect Sample.three_weeks))
             "volume" "date_only" "day" None None None in
  success r = true
  /\ length (numbers r) = 20%nat
  /\ option_map (fun ch => length (data ch)) (chart_data r) = Some 21%nat.
Proof. vm_compute. repeat split. Qed.

(** ** Rounded rates *)

Lemma pow10_pos (digits : nat) : (0 < 10 ^ Z.of_nat digits)%Z.
Proof. apply Z.pow_pos_nonneg; lia. Qed.

(** The rounded value, before it is normalised, as a number of units of
    [10^-digits]. *)
Lemma round_to_units (digits : nat) (n : Z) (dn : positive) :
  (0 <= n)%Z ->
  (round_to digits (Qmake n dn) ==
   Qmake ((2 * (n * 10 ^ Z.of_nat digits) + Zpos dn) / (2 * Zpos dn))
         (Z.to_pos (10 ^ Z.of_nat digits)))%Q.
Proof.
  intros Hn. unfold round_to. cbn [Qnum Qden].
  pose proof (pow10_pos digits) as Hs.
  destruct (Z.leb_spec 0 (n * 10 ^ Z.of_nat digits)) as [_|Hneg]; [|nia].
  apply Qred_correct.
Qed.

(** A percentage of a part in a whole, rounded, lies between 0 and 100. *)
Lemma round_to_percentage_range (digits : nat) (part : Z) (whole : positive) :
  (0 <= part <= Zpos whole)%Z ->
  (0 <= round_to digits (Qmake (100 * part) whole)
   /\ round_to digits (Qmake (100 * part) whole) <= 100)%Q.
Proof.
  intros [Hlo Hhi]. rewrite round_to_units by lia.
  pose proof (pow10_pos digits) as Hs.
  set (s := (10 ^ Z.of_nat digits)%Z) in *.
  set (r := ((2 * (100 * part * s) + Zpos whole) / (2 * Zpos whole))%Z).
  assert (Hr0 : (0 <= r)%Z) by (apply Z.div_pos; nia).
  assert (Hr1 : (r < 100 * s + 1)%Z)
    by (apply Z.div_lt_upper_bound; nia).
  unfold Qle. cbn [Qnum Qden]. rewrite Z2Pos.id by exact Hs. lia.
Qed.

Lemma count_where_range (f : Tx.Row -> bool) (rows : list Tx.Row) :
  (0 <= count_where f rows <= Z.of_nat (length rows))%Z.
Proof.
  unfold count_where. split; [lia|].
  apply inj_le. apply List.filter_length_le.
Qed.

Lemma rate_cell_range (digits : nat) (f : Tx.Row -> bool) (rows : list Tx.Row) :
  match rate_cell digits f rows with
  | VNull => rows = []
  | VFloat q => (0 <= q /\ q <= 100)%Q
  | _ => False
  end.
Proof.
  unfold rate_cell. destruct rows as [|r rows]; [reflexivity|].
  apply round_to_percentage_range.
  pose proof (count_where_range f (r :: rows)) as H.
  rewrite <- positive_nat_Z, Nat2Pos.id by discriminate. exact H.
Qed.

(** ** Failure rate *)

Lemma or_num_count (n : Z) : or_num (VInt n) (PInt 0) = Ok (PInt n).
Proof. simpl. destruct (Z.eqb_spec n 0) as [->|]; reflexivity. Qed.

Lemma or_num_sum_case (f : Tx.Row -> bool) (rows : list Tx.Row) :
  or_num (sum_case f rows) (PInt 0) = Ok (PInt (count_where f rows)).
Proof.
  destruct rows as [|r rows]; [reflexivity|].
  unfold sum_case. apply or_num_count.
Qed.

Lemma or_num_rate (rows : list Tx.Row) :
  or_num (rate_cell 2 is_failed rows) (PFloat 0) = Ok (PFloat (reported_rate rows)).
Proof.
  unfold reported_rate.
  pose proof (rate_cell_range 2 is_failed rows) as H.
  destruct (rate_cell 2 is_failed rows); try contradiction; [reflexivity|].
  simpl. destruct (Qeq_bool q 0); reflexivity.
Qed.

Lemma reported_rate_range (rows : list Tx.Row) :
  (0 <= reported_rate rows /\ reported_rate rows <= 100)%Q.
Proof.
  unfold reported_rate.
  pose proof (rate_cell_range 2 is_failed rows) as H.
  destruct (rate_cell 2 is_failed rows); try (split; discriminate).
  destruct (Qeq_bool q 0); [split; discriminate | exact H].
Qed.

Lemma reported_rate_no_rows : reported_rate [] = 0%Q.
Proof. reflexivity. Qed.

(** With no filter set, and a time window whose dates DuckDB can read, the
    failure rate operation succeeds: the rate lies between 0 and 100, is 0
    when no row is selected, and comes with the number of failed rows as
    numerator and the number of selected rows as denominator. *)
Lemma failure_rate_unfiltered (py : Python) (d : Dialect) (tbl rows : list Tx.Row)
    (tw : option TimeWindow) :
  forallb atom_ok (window_atoms py tw) = true ->
  select_rows d (ATrue :: window_atoms py tw) [] tbl = Ok (rows, []) ->
  let r := compute_failure_rate py (Some (duckdb d tbl)) None tw in
  success r = true
  /\ numbers r =
     [ {| label := "Failure Rate";
          value := format py "" (PFloat (reported_rate rows)) +:+ "%";
          raw_value := Some (PFloat (reported_rate rows));
          calculation := Some
            {| numerator := Some (PInt (count_where is_failed rows));
               denominator := Some (PInt (Z.of_nat (length rows)));
               formula := Some "(failed_transactions / total_transactions) * 100";
               sample_size := None |} |};
       {| label := "Total Transactions";
          value := format py "," (PInt (Z.of_nat (length rows)));
          raw_value := Some (PInt (Z.of_nat (length rows)));
          calculation := None |};
       {| label := "Failed Transactions";
          value := format py "," (PInt (count_where is_failed rows));
          raw_value := Some (PInt (count_where is_failed rows));
          calculation := None |} ]
  /\ (0 <= reported_rate rows /\ reported_rate rows <= 100)%Q
  /\ (rows = [] -> reported_rate rows = 0%Q).
Proof.
  intros Hok Hsel r. subst r. unfold compute_failure_rate.
  change (where_clause py None tw) with (ATrue :: window_atoms py tw).
  assert (Hf1 : in_fragment (QFailureRate (ATrue :: window_atoms py tw)) = true)
    by exact Hok.
  assert (Hf2 : in_fragment (QFailedSample (ATrue :: window_atoms py tw)) = true)
    by exact Hok.
  rewrite !duckdb_execute by assumption.
  unfold run. rewrite Hsel.
  cbn [bind all_bound fst snd fetchone tuples head item nth_error].
  rewrite or_num_count, or_num_sum_case, or_num_rate.
  cbn [bind try_except success numbers].
  repeat split; try apply reported_rate_range.
  intros ->. reflexivity.
Qed.

(** End-to-end scenario A: the hundred rows of the test fixture, ten of
    them failed, give the raw value 10.0 with numerator 10 and denominator
    100. *)
Example failure_rate_scenario_A :
  let r := compute_failure_rate Sample.python
             (Some (duckdb Sample.dialect Sample.fixture)) None None in
  success r = true
  /\ option_map (fun n => (value n, raw_value n,
                           option_map (fun c => (numerator c, denominator c))
                                      (calculation n)))
                (head (numbers r))
     = Some ("10.0%", Some (PFloat 10),
             Some (Some (PInt 10), Some (PInt 100))).
Proof. vm_compute. split; reflexivity. Qed.

Lemma where_atoms_blank (filters : PrimaryFilters) :
  where_atoms (blank filters) = where_atoms filters.
Proof.
  destruct filters as [[?|] [?|] [?|] [?|] [?|] [?|] [?|]]; reflexivity.
Qed.

(** The values of the filters never reach the connection: the statement
    and its (empty) parameter list are the same whatever the values are. *)
Lemma failure_rate_ignores_filter_values (py : Python) (c : Conn)
    (filters : PrimaryFilters) (tw : option TimeWindow) :
  compute_failure_rate py (Some c) (Some filters) tw
  = compute_failure_rate py (Some c) (Some (blank filters)) tw.
Proof.
  unfold compute_failure_rate, where_clause. cbn [from_option id].
  now rewrite where_atoms_blank.
Qed.

Lemma where_atoms_in_fragment (filters : PrimaryFilters) :
  forallb atom_ok (where_atoms filters) = true.
Proof.
  destruct filters as [[?|] [?|] [?|] [?|] [?|] [?|] [?|]]; reflexivity.
Qed.

(** With any filter set, the statement holds a placeholder for which no
    value is passed, and the operation fails. *)
Lemma failure_rate_with_filter_fails (py : Python) (d : Dialect) (tbl : list Tx.Row)
    (filters : PrimaryFilters) (tw : option TimeWindow) :
  set_fields filters <> [] ->
  forallb atom_ok (window_atoms py tw) = true ->
  let r := compute_failure_rate py (Some (duckdb d tbl)) (Some filters) tw in
  success r = false /\ numbers r = [].
Proof.
  intros Hset Hok r. subst r. unfold compute_failure_rate, where_clause.
  cbn [from_option id].
  rewrite duckdb_execute
    by (cbn [in_fragment]; now rewrite forallb_app, where_atoms_in_fragment, Hok).
  unfold where_atoms. destruct (set_fields filters) as [|cv fields]; [congruence|].
  split; reflexivity.
Qed.

(** C2 at the input of [test_failure_rate_with_device_filter]: with the
    device filter [Android] on the test fixture the operation returns a
    failed result without numbers, because the statement holds [device = ?]
    and [execute] is called without the collected parameters. *)
Theorem failure_rate_with_device_filter :
  let r := compute_failure_rate Sample.python
             (Some (duckdb Sample.dialect Sample.fixture))
             (Some (device_only "Android")) None in
  success r = false
  /\ numbers r = []
  /\ Py.contains "WHERE device = ?" (query_executed r) = true
  /\ snd (_build_where_clause (device_only "Android")) = ["Android"]
  /\ error r = Some "Invalid Input Error: Values were not provided for the prepared statement parameters".
Proof. vm_compute. repeat split. Qed.

(** ** GROUP BY *)

Section Grouping.

Context {K : Type} (eqb : K -> K -> bool) (key : Tx.Row -> K).
Hypothesis eqb_eq : forall a b, eqb a b = true <-> a = b.

Lemma eqb_same (k : K) : eqb k k = true.
Proof. now apply eqb_eq. Qed.

Lemma eqb_other (a b : K) : a <> b -> eqb a b = false.
Proof.
  intros H. destruct (eqb a b) eqn:E; [|reflexivity].
  now apply eqb_eq in E.
Qed.

Lemma existsb_eqb_In (k : K) (ks : list K) :
  existsb (eqb k) ks = true <-> In k ks.
Proof.
  rewrite existsb_exists. split.
  - intros (x & Hin & Hx). apply eqb_eq in Hx. now subst.
  - intros Hin. exists k. split; [exact Hin | apply eqb_same].
Qed.

Lemma rows_of_snoc (l : list Tx.Row) (r : Tx.Row) (k : K) :
  rows_of eqb key (l ++ [r]) k
  = rows_of eqb key l k ++ (if eqb (key r) k then [r] else []).
Proof. unfold rows_of. rewrite List.filter_app. reflexivity. Qed.

(** Adding a row to groups that hold the rows of their keys. *)
Lemma insert_group_rows_of (l : list Tx.Row) (r : Tx.Row) (ks : list K) :
  List.NoDup ks ->
  (~ In (key r) ks -> rows_of eqb key l (key r) = []) ->
  insert_group eqb (key r) r (map (fun k => (k, rows_of eqb key l k)) ks)
  = map (fun k => (k, rows_of eqb key (l ++ [r]) k))
        (if existsb (eqb (key r)) ks then ks else ks ++ [key r]).
Proof.
  induction ks as [|k ks IH]; intros Hnd Hnew.
  - cbn. rewrite rows_of_snoc, eqb_same, Hnew by (intros []). reflexivity.
  - apply List.NoDup_cons_iff in Hnd as [Hk Hnd].
    cbn [map insert_group existsb].
    destruct (eqb (key r) k) eqn:E.
    + apply eqb_eq in E. cbn [orb map]. rewrite rows_of_snoc, E, eqb_same.
      f_equal. apply map_ext_in. intros k' Hk'.
      rewrite rows_of_snoc, eqb_other, app_nil_r; [reflexivity|].
      intros Heq. rewrite E in Heq. subst k'. contradiction.
    + cbn [orb]. rewrite IH.
      * destruct (existsb (eqb (key r)) ks); cbn [map app];
          now rewrite rows_of_snoc, E, app_nil_r.
      * exact Hnd.
      * intros Hn. apply Hnew. intros [->|Hin]; [|contradiction].
        now rewrite eqb_same in E.
Qed.

Lemma first_keys_snoc (l : list Tx.Row) (r : Tx.Row) :
  first_keys eqb key (l ++ [r])
  = if existsb (eqb (key r)) (first_keys eqb key l)
    then first_keys eqb key l else first_keys eqb key l ++ [key r].
Proof. unfold first_keys. now rewrite fold_left_app. Qed.

Lemma first_keys_sound (l : list Tx.Row) (k : K) :
  In k (first_keys eqb key l) <-> exists r, In r l /\ key r = k.
Proof.
  induction l as [|r l IH] using rev_ind.
  - cbn. split; [intros [] | intros (r & [] & _)].
  - rewrite first_keys_snoc.
    destruct (existsb (eqb (key r)) (first_keys eqb key l)) eqn:E.
    + rewrite IH. split.
      * intros (x & Hx & Hk). exists x. split; [|exact Hk].
        apply in_or_app. now left.
      * intros (x & Hx & Hk). apply in_app_or in Hx as [Hx|[<-|[]]].
        -- eauto.
        -- apply IH. subst k. now apply existsb_eqb_In.
    + rewrite in_app_iff, IH. split.
      * intros [(x & Hx & Hk)|[<-|[]]].
        -- exists x. split; [apply in_or_app; now left | exact Hk].
        -- exists r. split; [apply in_or_app; right; now left | reflexivity].
      * intros (x & Hx & Hk). apply in_app_or in Hx as [Hx|[<-|[]]].
        -- left. eauto.
        -- right. now left.
Qed.

Lemma first_keys_NoDup (l : list Tx.Row) : List.NoDup (first_keys eqb key l).
Proof.
  induction l as [|r l IH] using rev_ind; [constructor|].
  rewrite first_keys_snoc.
  destruct (existsb (eqb (key r)) (first_keys eqb key l)) eqn:E; [exact IH|].
  apply List.NoDup_app; repeat split.
  - exact IH.
  - constructor; [intros [] | constructor].
  - intros k Hk [<-|[]]. apply existsb_eqb_In in Hk. congruence.
Qed.

(** GROUP BY yields one group for every distinct key, in order of first
    occurrence, holding the rows of that key. *)
Lemma group_rows_spec (l : list Tx.Row) :
  group_rows eqb key l
  = map (fun k => (k, rows_of eqb key l k)) (first_keys eqb key l).
Proof.
  induction l as [|r l IH] using rev_ind; [reflexivity|].
  unfold group_rows in *. rewrite fold_left_app. cbn [fold_left].
  rewrite IH, first_keys_snoc. apply insert_group_rows_of.
  - apply first_keys_NoDup.
  - intros Hn. unfold rows_of.
    destruct (List.filter (fun x => eqb (key x) (key r)) l) as [|x rest] eqn:E;
      [reflexivity|].
    exfalso. apply Hn. apply first_keys_sound.
    assert (Hin : In x (List.filter (fun x => eqb (key x) (key r)) l))
      by (rewrite E; now left).
    apply List.filter_In in Hin as [Hin Hk]. apply eqb_eq in Hk. eauto.
Qed.

Lemma group_rows_In (l : list Tx.Row) (k : K) (rs : list Tx.Row) :
  In (k, rs) (group_rows eqb key l) -> rs = rows_of eqb key l k /\ rs <> [].
Proof.
  rewrite group_rows_spec, in_map_iff. intros (k' & Heq & Hin).
  injection Heq as -> <-. split; [reflexivity|].
  apply first_keys_sound in Hin as (r & Hr & Hk).
  intros Hempty.
  assert (Hin : In r (rows_of eqb key l k))
    by (apply List.filter_In; split; [exact Hr | now apply eqb_eq]).
  now rewrite Hempty in Hin.
Qed.



End Grouping.

(** ** ORDER BY and LIMIT *)

Section Ordering.

Context {A : Type} (leb : A -> A -> bool).
Hypothesis leb_total : forall a b, leb a b = true \/ leb b a = true.
Hypothesis leb_trans : forall a b c, leb a b = true -> leb b c = true -> leb a c = true.





End Ordering.



(** ** Sums *)





(** ** Top failure codes *)

Lemma code_eqb_eq (a b : option string) : code_eqb a b = true <-> a = b.
Proof.
  destruct a as [s|], b as [t|]; simpl; try (split; congruence).
  rewrite String.eqb_eq. split; congruence.
Qed.









Section TopFailureCodes.

Variable rows : list Tx.Row.
Variable limit : nat.

Let failures := List.filter is_failed rows.





Lemma code_entry_count_pos (code : option string) (r : Tx.Row) :
  In r failures -> Tx.failure_code r = code ->
  (0 < entry_count (code_entry failures code))%Z.
Proof.
  intros Hr Hc. unfold code_entry, entry_count. cbn [fst snd].
  assert (Hin : In r (rows_of code_eqb Tx.failure_code failures code))
    by (apply List.filter_In; split; [exact Hr | now apply code_eqb_eq]).
  destruct (rows_of code_eqb Tx.failure_code failures code); [contradiction|].
  cbn [length]. lia.
Qed.





End TopFailureCodes.





(** ** Metrics without a registered expression *)

Lemma metric_expr_unregistered (m : gmap string agg) (metric : string) :
  m !! Py.lower metric = None -> metric_expr m metric = CountStar.
Proof. intros H. unfold metric_expr. now rewrite H. Qed.

Lemma format_metric_value_returns (py : Python) (metric : string) (n : pynum) :
  exists text, _format_metric_value py metric n = Ok text.
Proof.
  unfold _format_metric_value.
  destruct n as [z|q|]; try (eexists; reflexivity);
    repeat match goal with
    | |- context [if ?b then _ else _] => destruct b
    end; cbn [to_int bind]; eexists; reflexivity.
Qed.


(** An alias accepted by the fragment differs from the other columns. *)
Lemma alias_ok_fresh (alias : string) (others : list string) :
  alias_ok alias others = true ->
  Forall (fun c => Py.lower c = c) others ->
  existsb (String.eqb alias) others = false.
Proof.
  unfold alias_ok. intros H Hl. apply andb_prop in H as [_ H].
  apply negb_true_iff in H.
  destruct (existsb (String.eqb alias) others) eqn:E; [|reflexivity].
  apply existsb_exists in E as (c & Hc & Heq).
  apply String.eqb_eq in Heq. subst c.
  assert (existsb (String.eqb (Py.lower alias)) others = true); [|congruence].
  apply existsb_exists. exists alias. split; [exact Hc|].
  apply String.eqb_eq.
  rewrite List.Forall_forall in Hl. now apply Hl.
Qed.















Lemma query_executed_try_except (metric : string) (q : query)
    (body : result AnalysisResult) :
  (forall r, body = Ok r -> query_executed r = Py.strip (render q)) ->
  query_executed (try_except metric q body) = Py.strip (render q).
Proof. intros H. destruct body; [now apply H | reflexivity]. Qed.







(** What the substitution gives for [fraud_rate] on the test fixture: the
    number of rows, shown as a percentage. *)
Example aggregate_fraud_rate_on_fixture :
  let r := aggregate Sample.python (Some (duckdb Sample.dialect Sample.fixture))
             "fraud_rate" [] None None in
  map (fun n => (label n, value n, raw_value n)) (numbers r)
  = [("Fraud Rate", "100.00%", Some (PFloat 100))]
  /\ Py.contains "SELECT COUNT(*) as fraud_rate" (query_executed r) = true.
Proof. vm_compute. split; reflexivity. Qed.

(** When B's value is zero the percentage difference is shown as zero. *)
Example compare_with_empty_segment :
  let r := compare_segments Sample.python
             (Some (duckdb Sample.dialect Sample.fixture))
             [("device", "Android")] [("device", "Nokia")] "volume" None None in
  map (fun n => (value n, raw_value n)) (numbers r)
  = [ (rupee +:+ "34.00", Some (PFloat 34));
      (rupee +:+ "0.00", Some (PFloat 0));
      ("+34.00 (+0.0%)", Some (PFloat 34)) ].
Proof. vm_compute. reflexivity. Qed.

(** A summary over no rows: the NULL sums cannot be formatted, the
    exception is caught and reported in band. *)
Example summary_of_empty_table :
  let r := get_executive_summary Sample.python (Some (duckdb Sample.dialect [])) None in
  success r = false /\ numbers r = []
  /\ error r = Some "unsupported format string passed to NoneType.__format__".
Proof. vm_compute. repeat split. Qed.

(* ===================================================================== *)
(** * Further properties of the analysis operations *)
(* ===================================================================== *)

(** Transaction volume is a number of rows, and is displayed as an amount
    of money: a metric whose lower-case name is [volume] takes the branch
    of [_format_metric_value] for amounts, never the one for counts, and
    [aggregate] without grouping reports the number of selected rows
    behind a rupee sign. *)
Theorem volume_is_displayed_as_currency (py : Python) (d : Dialect)
    (tbl rows : list Tx.Row) (metric : string) (tw : option TimeWindow) :
  Py.lower metric = "volume" ->
  in_fragment (QAggregate [] CountStar metric (where_clause py None tw)) = true ->
  reserved d "volume" = false ->
  select_rows d (where_clause py None tw) [] tbl = Ok (rows, []) ->
  (forall z, _format_metric_value py metric (PInt z) = Ok (rupee +:+ format py "," (PInt z)))
  /\ (forall q, _format_metric_value py metric (PFloat q)
                = Ok (rupee +:+ format py ",.2f" (PFloat q)))
  /\ numbers (aggregate py (Some (duckdb d tbl)) metric [] None tw)
     = [ {| label := metric_title metric;
            value := rupee +:+ format py "," (PInt (Z.of_nat (length rows)));
            raw_value := Some (PFloat (inject_Z (Z.of_nat (length rows))));
            calculation := None |} ].
Proof.
  intros Hlow Hfrag Hres Hsel.
  assert (Hfmt : forall n, n <> PNaN ->
            _format_metric_value py metric n
            = Ok (rupee +:+ format py (if is_float n then ",.2f" else ",") n)).
  { intros n Hn. unfold _format_metric_value. rewrite Hlow.
    destruct n; try congruence; reflexivity. }
  split; [intros z; now rewrite Hfmt|].
  split; [intros q; now rewrite Hfmt|].
  unfold aggregate, metric_expr. rewrite Hlow.
  change (default CountStar (aggregate_expr_map !! "volume")) with CountStar.
  rewrite duckdb_execute by exact Hfrag.
  unfold run, check_alias. rewrite Hlow, Hres, Hsel.
  cbn [bind all_bound fst snd fetchdf columns tuples map combine getitem].
  rewrite String.eqb_refl. cbn [bind eval_agg scalar].
  rewrite Hfmt by discriminate. reflexivity.
Qed.

Lemma volume_is_displayed_as_currency_witness :
  numbers (aggregate Sample.python (Some (duckdb Sample.dialect Sample.fixture))
             "Volume" [] None None)
  = [ {| label := "Volume"; value := rupee +:+ "100";
         raw_value := Some (PFloat 100); calculation := None |} ].
Proof.
  apply (volume_is_displayed_as_currency Sample.python Sample.dialect
           Sample.fixture Sample.fixture "Volume" None); reflexivity.
Defined.

Lemma rate_cell_float (digits : nat) (f : Tx.Row -> bool) (r : Tx.Row)
    (rows : list Tx.Row) :
  exists q, rate_cell digits f (r :: rows) = VFloat q /\ (0 <= q /\ q <= 100)%Q.
Proof.
  pose proof (rate_cell_range digits f (r :: rows)) as H.
  destruct (rate_cell digits f (r :: rows)) eqn:E; try contradiction; try discriminate.
  eauto.
Qed.

Lemma amounts_rows (rows : list Tx.Row) : amounts rows <> [] -> rows <> [].
Proof. intros H ->. now apply H. Qed.

(** The executive summary succeeds exactly when some selected row has an
    amount.  Over no rows, for instance for a time window without
    transactions, the sum of the amounts is NULL, formatting it raises,
    and the operation reports that exception; it does not report zeros
    as [compute_failure_rate] does.  When it succeeds it returns its six
    numbers, the first the number of selected rows, the three rates
    between 0 and 100. *)
Theorem executive_summary_needs_an_amount (py : Python) (d : Dialect)
    (tbl rows : list Tx.Row) (tw : option TimeWindow) :
  forallb atom_ok (window_atoms py tw) = true ->
  select_rows d (ATrue :: window_atoms py tw) [] tbl = Ok (rows, []) ->
  let r := get_executive_summary py (Some (duckdb d tbl)) tw in
  (success r = true <-> amounts rows <> [])
  /\ (amounts rows = [] ->
      numbers r = []
      /\ error r = Some "unsupported format string passed to NoneType.__format__")
  /\ (amounts rows <> [] ->
      map label (numbers r) = summary_labels
      /\ exists total average failure fraud review,
           map raw_value (numbers r)
           = [ Some (PInt (Z.of_nat (length rows))); Some (PFloat total);
               Some (PFloat average); Some (PFloat failure);
               Some (PFloat fraud); Some (PFloat review) ]
           /\ (0 <= failure /\ failure <= 100)%Q
           /\ (0 <= fraud /\ fraud <= 100)%Q
           /\ (0 <= review /\ review <= 100)%Q).
Proof.
  intros Hok Hsel r. subst r. unfold get_executive_summary.
  change ([ATrue] ++ window_atoms py tw) with (ATrue :: window_atoms py tw).
  rewrite duckdb_execute by exact Hok.
  unfold run. rewrite Hsel.
  cbn [bind all_bound fst snd fetchone tuples head].
  unfold summary_number.
  cbn [item nth_error bind format_cell optional_num eval_agg].
  destruct (amounts rows) as [|a l] eqn:Ha.
  - cbn [String.eqb Ascii.eqb Bool.eqb bind try_except failed success numbers error].
    split; [split; [discriminate|congruence]|].
    split; [intros _; split; reflexivity|congruence].
  - assert (Hrows : rows <> []) by (apply amounts_rows; rewrite Ha; discriminate).
    destruct rows as [|r0 rows']; [congruence|].
    destruct (rate_cell_float 2 is_failed r0 rows') as (q1 & -> & H1).
    destruct (rate_cell_float 4 (flag_set Tx.fraud_flag) r0 rows') as (q2 & -> & H2).
    destruct (rate_cell_float 2 (flag_set Tx.review_flag) r0 rows') as (q3 & -> & H3).
    cbn [String.eqb Ascii.eqb Bool.eqb bind try_except success numbers error map label
         raw_value].
    split; [split; [discriminate|reflexivity]|].
    split; [discriminate|]. intros _. split; [reflexivity|].
    do 5 eexists. split; [reflexivity|]. auto.
Qed.

Lemma executive_summary_needs_an_amount_witness :
  success (get_executive_summary Sample.python
             (Some (duckdb Sample.dialect Sample.fixture)) None) = true
  <-> amounts Sample.fixture <> [].
Proof.
  apply (executive_summary_needs_an_amount Sample.python Sample.dialect
           Sample.fixture Sample.fixture None); reflexivity.
Defined.

Lemma eval_agg_no_rows (e : agg) : e <> CountStar -> eval_agg e [] = VNull.
Proof. destruct e; [congruence|reflexivity..]. Qed.

Lemma eval_agg_null_or_float (e : agg) (rows : list Tx.Row) :
  e <> CountStar -> eval_agg e rows = VNull \/ exists q, eval_agg e rows = VFloat q.
Proof.
  intros He. destruct e; [congruence| | |]; cbn [eval_agg].
  - destruct (amounts rows); eauto.
  - destruct (amounts rows); eauto.
  - pose proof (rate_cell_range 2 is_failed rows) as Hr.
    destruct (rate_cell 2 is_failed rows); try contradiction; eauto.
Qed.

(** A segment without rows has no failure rate, average or total: DuckDB
    answers NULL, which the data frame holds as NaN.  When segment B is
    such a segment, [compare_segments] succeeds, shows [N/A] for B, and
    reports NaN as the difference and as its percentage; the rule that
    reports a percentage of 0 applies to a value of 0 only. *)
Theorem comparison_with_empty_segment_is_nan (py : Python) (d : Dialect)
    (tbl rows_a : list Tx.Row) (seg_a seg_b : list (string * string))
    (metric : string) (filters : option PrimaryFilters) (tw : option TimeWindow) :
  let e := metric_expr compare_expr_map metric in
  let w := where_clause py filters tw in
  e <> CountStar ->
  seg_a <> [] -> seg_b <> [] ->
  in_fragment (QCompare e metric w (segment_atoms seg_a) (segment_atoms seg_b)) = true ->
  reserved d (Py.lower metric) = false ->
  select_rows d (w ++ segment_atoms seg_a) [] tbl = Ok (rows_a, []) ->
  select_rows d (w ++ segment_atoms seg_b) [] tbl = Ok ([], []) ->
  let r := compare_segments py (Some (duckdb d tbl)) seg_a seg_b metric filters tw in
  success r = true
  /\ exists val_a text_a,
       map value (numbers r)
       = [ text_a; "N/A";
           format py "+.2f" PNaN +:+ " (" +:+ format py "+.1f" PNaN +:+ "%)" ]
       /\ map raw_value (numbers r) = [Some val_a; Some PNaN; Some PNaN]
       /\ map (fun n => option_map sample_size (calculation n)) (numbers r)
          = [ Some (Some (Z.of_nat (length rows_a))); Some (Some 0%Z); None ].
Proof.
  intros e w He Ha Hb Hfrag Hres Hsa Hsb r. subst r e w.
  unfold compare_segments.
  set (e := metric_expr compare_expr_map metric) in *.
  set (w := where_clause py filters tw) in *.
  rewrite duckdb_execute by exact Hfrag.
  unfold run, check_alias. rewrite Hres. cbn [bind].
  destruct seg_a as [|sa seg_a']; [congruence|].
  destruct seg_b as [|sb seg_b']; [congruence|].
  cbn [segment_atoms map] in *.
  rewrite Hsa. cbn [bind fst snd]. rewrite Hsb. cbn [bind all_bound fst snd].
  rewrite (eval_agg_no_rows e He).
  cbn [fetchdf columns tuples map combine iloc_float iloc_int nth_error bind].
  assert (Hfresh : existsb (String.eqb metric) ["segment"; "sample_size"] = false).
  { apply alias_ok_fresh.
    - cbn [in_fragment] in Hfrag. apply andb_prop in Hfrag. apply Hfrag.
    - repeat constructor. }
  cbn [existsb] in Hfresh. rewrite orb_false_r in Hfresh.
  apply orb_false_elim in Hfresh. destruct Hfresh as [H1 H2].
  assert (H1' : String.eqb "segment" metric = false) by (now rewrite String.eqb_sym).
  assert (H2' : String.eqb "sample_size" metric = false) by (now rewrite String.eqb_sym).
  cbn [getitem]. rewrite H1', String.eqb_refl. cbn [bind float_cell scalar to_float].
  rewrite H2.
  change (String.eqb "segment" "sample_size") with false.
  change (String.eqb "sample_size" "sample_size") with true.
  cbn [length Z.of_nat].
  destruct (eval_agg_null_or_float e rows_a He) as [-> | (q & ->)].
  all: cbn [bind float_cell scalar to_float int_cell to_int py_sub pct_difference nonzero
            py_ratio_pct as_Q].
  all: change (_format_metric_value py metric PNaN) with (@Ok string "N/A").
  all: match goal with
       | |- context [_format_metric_value ?p ?m ?n] =>
           destruct (format_metric_value_returns p m n) as (text & ->)
       | _ => idtac
       end.
  all: cbn [bind try_except success numbers map value raw_value calculation option_map
            sample_size].
  all: split; [reflexivity|]; do 2 eexists; repeat split; reflexivity.
Qed.

Lemma comparison_with_empty_segment_is_nan_witness :
  success (compare_segments Sample.python
             (Some (duckdb Sample.dialect Sample.fixture))
             [("device", "Android")] [("device", "Nokia")] "failure_rate"
             None None) = true.
Proof.
  apply (comparison_with_empty_segment_is_nan Sample.python Sample.dialect
           Sample.fixture
           (List.filter (fun r => bool_decide (Tx.device r = Some "Android"))
                        Sample.fixture)
           [("device", "Android")] [("device", "Nokia")] "failure_rate" None None).
  - vm_compute. discriminate.
  - discriminate.
  - discriminate.
  - reflexivity.
  - reflexivity.
  - vm_compute. reflexivity.
  - vm_compute. reflexivity.
Defined.

Lemma traverse_each {A B : Type} (f : A -> result B) (P : B -> Prop)
    (l : list A) (l' : list B) :
  (forall a b, f a = Ok b -> P b) -> traverse f l = Ok l' -> Forall P l'.
Proof.
  intros Hf. revert l'. induction l as [|a l IH]; intros l' H; cbn [traverse] in H.
  - injection H as <-. constructor.
  - returns. subst l'. constructor; [eapply Hf; eassumption|now apply IH].
Qed.

Lemma Forall2_fst_snd {A B : Type} (R : A -> B -> Prop) (items : list (A * B)) :
  Forall (fun it => R (fst it) (snd it)) items ->
  Forall2 R (map fst items) (map snd items).
Proof. induction 1; constructor; assumption. Qed.

Lemma aggregate_row_plotted (py : Python) (metric : string) (by_ : list string)
    (row : list (string * cell)) (it : NumberDetail * ChartDataPoint) :
  aggregate_row py metric by_ row = Ok it ->
  label (fst it) = x (snd it) /\ plotted (fst it) (snd it).
Proof. unfold aggregate_row. intros H. returns. subst it. split; reflexivity. Qed.

Lemma failure_code_row_plotted (py : Python) (row : list (string * cell))
    (it : NumberDetail * ChartDataPoint) :
  failure_code_row py row = Ok it ->
  label (fst it) = x (snd it) /\ plotted (fst it) (snd it).
Proof. unfold failure_code_row. intros H. returns. subst it. split; reflexivity. Qed.

Lemma time_series_row_plotted (py : Python) (metric : string) (g : option string)
    (row : list (string * cell)) (it : NumberDetail * ChartDataPoint) :
  time_series_row py metric g row = Ok it -> plotted (fst it) (snd it).
Proof. unfold time_series_row. intros H. returns; subst it; reflexivity. Qed.

(** Whatever the connection answers, a chart shows the numbers that are
    reported with it.  For a grouped aggregation and for the top failure
    codes the points are the numbers one by one, with the label of the
    number as [x] and its raw value as [y]; the points of a comparison are
    the raw values of the two segments; the numbers of a time series are
    the first twenty points of its chart. *)
Theorem chart_plots_the_reported_numbers (py : Python) (c : Conn) (ch : ChartData) :
  (forall metric by_ filters tw,
     let r := aggregate py (Some c) metric by_ filters tw in
     chart_data r = Some ch ->
     Forall2 (fun n p => label n = x p /\ plotted n p) (numbers r) (data ch))
  /\ (forall filters tw limit,
        let r := get_top_failure_codes py (Some c) filters tw limit in
        chart_data r = Some ch ->
        Forall2 (fun n p => label n = x p /\ plotted n p) (numbers r) (data ch))
  /\ (forall seg_a seg_b metric filters tw,
        let r := compare_segments py (Some c) seg_a seg_b metric filters tw in
        chart_data r = Some ch ->
        Forall2 plotted (firstn 2 (numbers r)) (data ch))
  /\ (forall metric time_col period filters tw group_by,
        let r := time_series py (Some c) metric time_col period filters tw group_by in
        chart_data r = Some ch ->
        Forall2 plotted (numbers r) (firstn 20 (data ch))).
Proof.
  repeat split.
  - intros metric by_ filters tw r H. subst r. unfold aggregate in *.
    returned H. destruct by_ as [|b by_].
    + returns; subst a; discriminate H.
    + returns. subst a. cbn [chart_data] in H. injection H as <-.
      cbn [numbers data]. apply Forall2_fst_snd.
      eapply traverse_each; [|eassumption].
      intros row it. apply aggregate_row_plotted.
  - intros filters tw limit r H. subst r. unfold get_top_failure_codes in *.
    returned H. returns. subst a. cbn [chart_data] in H. injection H as <-.
    cbn [numbers data]. apply Forall2_fst_snd.
    eapply traverse_each; [|eassumption].
    intros row it. apply failure_code_row_plotted.
  - intros seg_a seg_b metric filters tw r H. subst r. unfold compare_segments in *.
    returned H. returns. subst a. cbn [chart_data] in H. injection H as <-.
    cbn [numbers data firstn]. repeat constructor.
  - intros metric time_col period filters tw group_by r H. subst r.
    unfold time_series in *.
    returned H. returns. subst a. cbn [chart_data] in H. injection H as <-.
    cbn [numbers data]. apply Forall2_take, Forall2_fst_snd.
    eapply traverse_each; [|eassumption].
    intros row it. apply time_series_row_plotted.
Qed.

Lemma chart_plots_the_reported_numbers_witness :
  Forall2 (fun n p => label n = x p /\ plotted n p)
    (numbers (aggregate Sample.python (Some (duckdb Sample.dialect Sample.fixture))
                "avg_amount" ["device"] None None))
    [ {| x := "Web"; y := PFloat 600; point_label := None |};
      {| x := "Android"; y := PFloat 595; point_label := None |};
      {| x := "iOS"; y := PFloat 590; point_label := None |} ].
Proof.
  apply (proj1 (chart_plots_the_reported_numbers Sample.python
                  (duckdb Sample.dialect Sample.fixture)
                  {| chart_type := BAR; title := Some "Avg Amount by device";
                     x_label := None; y_label := None;
                     data := [ {| x := "Web"; y := PFloat 600; point_label := None |};
                               {| x := "Android"; y := PFloat 595; point_label := None |};
                               {| x := "iOS"; y := PFloat 590; point_label := None |} ];
                     series_name := None |})
           "avg_amount" ["device"] None None).
  vm_compute. reflexivity.
Defined.

(* ===================================================================== *)
(** * Filters, and the router of the chat endpoint *)
(* ===================================================================== *)

Lemma where_clause_placeholder (py : Python) (filters : PrimaryFilters)
    (tw : option TimeWindow) :
  set_fields filters <> [] ->
  existsb is_placeholder (where_clause py (Some filters) tw) = true.
Proof.
  intros H. unfold where_clause, where_atoms. cbn [default from_option id].
  destruct (set_fields filters) as [|cv fields]; [congruence|]. reflexivity.
Qed.

Lemma try_except_raise (metric : string) (q : query) (msg : string) :
  let r := try_except metric q (Raise msg) in
  success r = false /\ numbers r = [] /\ error r = Some msg.
Proof. repeat split. Qed.

Lemma bind_conj_unbound (d : Dialect) (w more : list atom) :
  existsb is_placeholder w = true ->
  exists msg, bind_conj d (w ++ more) [] = Raise msg.
Proof.
  induction w as [|a w IH]; intros H; [discriminate|].
  cbn [existsb] in H. cbn [app bind_conj].
  destruct a as [|col|col lit|lit|lit]; cbn [is_placeholder orb] in H.
  - cbn [bind snd]. destruct (IH H) as (msg & ->). eauto.
  - cbn [bind]. eauto.
  - destruct (eq_pred d col lit); cbn [bind snd]; [|eauto].
    destruct (IH H) as (msg & ->). eauto.
  - destruct (ts_pred d true lit); cbn [bind snd]; [|eauto].
    destruct (IH H) as (msg & ->). eauto.
  - destruct (ts_pred d false lit); cbn [bind snd]; [|eauto].
    destruct (IH H) as (msg & ->). eauto.
Qed.

Lemma select_rows_unbound (d : Dialect) (w more : list atom) (tbl : list Tx.Row) :
  existsb is_placeholder w = true ->
  exists msg, select_rows d (w ++ more) [] tbl = Raise msg.
Proof.
  intros H. unfold select_rows.
  destruct (bind_conj_unbound d w more H) as (msg & ->). eauto.
Qed.

Lemma bind_raise {A B : Type} (m : result A) (k : A -> result B) :
  (exists msg, m = Raise msg) -> exists msg, bind m k = Raise msg.
Proof. intros (msg & ->). eauto. Qed.

Lemma bind_either {A B : Type} (m : result A) (k : A -> result B) :
  (forall a, exists msg, k a = Raise msg) -> exists msg, bind m k = Raise msg.
Proof. intros H. destruct m; cbn [bind]; eauto. Qed.

(** The model of DuckDB answers a statement of the fragment that holds a
    placeholder, executed without values, with an exception. *)
Lemma run_unbound (d : Dialect) (tbl : list Tx.Row) (q : query) :
  existsb is_placeholder (where_of q) = true ->
  exists msg, run d tbl q [] = Raise msg.
Proof.
  intros H.
  assert (Hs : forall w, existsb is_placeholder w = true ->
                         exists msg, select_rows d w [] tbl = Raise msg).
  { intros w Hw. rewrite <- (app_nil_r w). now apply select_rows_unbound. }
  destruct q as [w|w|by_ e alias w|e alias w sa sb|t g e alias w|w limit|w];
    cbn [where_of] in H; cbn [run].
  - apply bind_raise, Hs, H.
  - apply bind_raise, Hs, H.
  - destruct by_.
    + apply bind_either. intros ?. apply bind_raise, Hs, H.
    + apply bind_either. intros ?. apply bind_either. intros ?.
      apply bind_raise, Hs, H.
  - apply bind_either. intros ?. destruct sa; [eauto|]. destruct sb; [eauto|].
    apply bind_raise, select_rows_unbound, H.
  - apply bind_either. intros ?. apply bind_either. intros ?.
    apply bind_either. intros ?. apply bind_raise, Hs, H.
  - apply bind_raise, Hs, H.
  - apply bind_raise, Hs, H.
Qed.

Lemma duckdb_refuses_unbound (d : Dialect) (tbl : list Tx.Row) :
  (forall q, in_fragment q = false -> exists msg, beyond d tbl q [] = Raise msg) ->
  refuses_unbound (duckdb d tbl).
Proof.
  intros Hb q H. cbn [duckdb execute].
  destruct (in_fragment q) eqn:Hf; [now apply run_unbound|now apply Hb].
Qed.

Lemma sample_refuses_unbound (tbl : list Tx.Row) :
  refuses_unbound (duckdb Sample.dialect tbl).
Proof. apply duckdb_refuses_unbound. intros q _. eexists. reflexivity. Qed.

Lemma filtered_failure_rate (py : Python) (c : Conn) (filters : PrimaryFilters)
    (tw : option TimeWindow) :
  refuses_unbound c -> set_fields filters <> [] ->
  let r := compute_failure_rate py (Some c) (Some filters) tw in
  success r = false /\ numbers r = [] /\ is_Some (error r).
Proof.
  intros Hc Hset r. subst r.
  pose proof (where_clause_placeholder py filters tw Hset) as Hp.
  unfold compute_failure_rate.
  destruct (Hc (QFailureRate (where_clause py (Some filters) tw)) Hp) as (msg & E).
  rewrite E. cbn. eauto.
Qed.

Lemma filtered_aggregate (py : Python) (c : Conn) (filters : PrimaryFilters)
    (tw : option TimeWindow) (metric : string) (by_ : list string) :
  refuses_unbound c -> set_fields filters <> [] ->
  let r := aggregate py (Some c) metric by_ (Some filters) tw in
  success r = false /\ numbers r = [] /\ is_Some (error r).
Proof.
  intros Hc Hset r. subst r.
  pose proof (where_clause_placeholder py filters tw Hset) as Hp.
  unfold aggregate.
  destruct (Hc (QAggregate by_ (metric_expr aggregate_expr_map metric) metric
                  (where_clause py (Some filters) tw)) Hp) as (msg & E).
  rewrite E. cbn. eauto.
Qed.

Lemma filtered_compare_segments (py : Python) (c : Conn) (filters : PrimaryFilters)
    (tw : option TimeWindow) (seg_a seg_b : list (string * string)) (metric : string) :
  refuses_unbound c -> set_fields filters <> [] ->
  let r := compare_segments py (Some c) seg_a seg_b metric (Some filters) tw in
  success r = false /\ numbers r = [] /\ is_Some (error r).
Proof.
  intros Hc Hset r. subst r.
  pose proof (where_clause_placeholder py filters tw Hset) as Hp.
  unfold compare_segments.
  destruct (Hc (QCompare (metric_expr compare_expr_map metric) metric
                  (where_clause py (Some filters) tw)
                  (segment_atoms seg_a) (segment_atoms seg_b)) Hp) as (msg & E).
  rewrite E. cbn. eauto.
Qed.

Lemma filtered_time_series (py : Python) (c : Conn) (filters : PrimaryFilters)
    (tw : option TimeWindow) (metric time_col period_ : string)
    (group_by : option string) :
  refuses_unbound c -> set_fields filters <> [] ->
  let r := time_series py (Some c) metric time_col period_ (Some filters) tw group_by in
  success r = false /\ numbers r = [] /\ is_Some (error r).
Proof.
  intros Hc Hset r. subst r.
  pose proof (where_clause_placeholder py filters tw Hset) as Hp.
  unfold time_series.
  destruct (Hc (QTimeSeries (bucket period_ time_col) (grouping group_by)
                  (metric_expr time_series_expr_map metric) metric
                  (where_clause py (Some filters) tw)) Hp) as (msg & E).
  rewrite E. cbn. eauto.
Qed.

Lemma filtered_top_failure_codes (py : Python) (c : Conn) (filters : PrimaryFilters)
    (tw : option TimeWindow) (limit : option Z) :
  refuses_unbound c -> set_fields filters <> [] ->
  let r := get_top_failure_codes py (Some c) (Some filters) tw limit in
  success r = false /\ numbers r = [] /\ is_Some (error r).
Proof.
  intros Hc Hset r. subst r.
  pose proof (where_clause_placeholder py filters tw Hset) as Hp.
  unfold get_top_failure_codes.
  destruct (Hc (QTopFailureCodes (where_clause py (Some filters) tw)
                  (limit_or_default limit)) Hp) as (msg & E).
  rewrite E. cbn. eauto.
Qed.

(** No operation answers a filtered question.  Each operation that takes
    filters puts one placeholder per set field into its statement and
    executes the statement without the collected values; on a connection
    that refuses such a statement, every one of them returns a failed
    result as soon as one field of the filters is set. *)
Theorem filtered_operations_fail (py : Python) (c : Conn) (filters : PrimaryFilters)
    (tw : option TimeWindow) :
  refuses_unbound c ->
  set_fields filters <> [] ->
  success (compute_failure_rate py (Some c) (Some filters) tw) = false
  /\ (forall metric by_,
        success (aggregate py (Some c) metric by_ (Some filters) tw) = false)
  /\ (forall seg_a seg_b metric,
        success (compare_segments py (Some c) seg_a seg_b metric (Some filters) tw)
        = false)
  /\ (forall metric time_col period_ group_by,
        success (time_series py (Some c) metric time_col period_ (Some filters) tw
                   group_by) = false)
  /\ (forall limit,
        success (get_top_failure_codes py (Some c) (Some filters) tw limit) = false).
Proof.
  intros Hc Hset. repeat split; intros.
  - now apply filtered_failure_rate.
  - now apply filtered_aggregate.
  - now apply filtered_compare_segments.
  - now apply filtered_time_series.
  - now apply filtered_top_failure_codes.
Qed.

Lemma filtered_operations_fail_witness :
  success (aggregate Sample.python (Some (duckdb Sample.dialect Sample.fixture))
             "volume" ["category"]
             (Some {| device := None; state := Some "Goa"; age_group := None;
                      network := None; category := None; payment_method := None;
                      status := None |}) None) = false.
Proof.
  apply (filtered_operations_fail Sample.python
           (duckdb Sample.dialect Sample.fixture)
           {| device := None; state := Some "Goa"; age_group := None;
              network := None; category := None; payment_method := None;
              status := None |} None).
  - apply sample_refuses_unbound.
  - discriminate.
Defined.

(** Seen from the chat endpoint: an intent with any filter set is either
    answered with a failed result, or routed to the executive summary,
    which takes no filters; in no case do the filters restrict the rows of
    an answer. *)
Theorem routed_filters_never_restrict (py : Python) (c : Conn) (intent : RoutedIntent) :
  refuses_unbound c ->
  set_fields (primary_filters (guarded intent)) <> [] ->
  let r := _execute_analysis py (Some c) intent in
  success r = true ->
  Py.lower (or_str (metric (guarded intent)) "failure_rate") = "executive_summary"
  /\ r = get_executive_summary py (Some c)
           (option_map window_dict (time_window intent)).
Proof.
  intros Hc Hset r Hr. subst r. unfold _execute_analysis in *.
  set (filters := primary_filters (guarded intent)) in *.
  set (window := option_map window_dict (time_window intent)) in *.
  destruct (intent_type (guarded intent)).
  - destruct (String.eqb _ "failure_codes") eqn:E1.
    { rewrite (proj1 (filtered_top_failure_codes py c filters window None Hc Hset)) in Hr.
      discriminate. }
    destruct (String.eqb _ "executive_summary") eqn:E2.
    { apply String.eqb_eq in E2. now split. }
    destruct (Py.contains "failure" _).
    { rewrite (proj1 (filtered_failure_rate py c filters window Hc Hset)) in Hr.
      discriminate. }
    rewrite (proj1 (filtered_aggregate py c filters window _ _ Hc Hset)) in Hr.
    discriminate.
  - destruct (comparison_segments intent) as [sa sb].
    rewrite (proj1 (filtered_compare_segments py c filters window _ _ _ Hc Hset)) in Hr.
    discriminate.
  - rewrite (proj1 (filtered_time_series py c filters window _ _ _ _ Hc Hset)) in Hr.
    discriminate.
  - rewrite (proj1 (filtered_aggregate py c filters window _ _ Hc Hset)) in Hr.
    discriminate.
  - destruct (String.eqb _ "failure_codes") eqn:E1.
    { rewrite (proj1 (filtered_top_failure_codes py c filters window None Hc Hset)) in Hr.
      discriminate. }
    destruct (String.eqb _ "executive_summary") eqn:E2.
    { apply String.eqb_eq in E2. now split. }
    destruct (Py.contains "failure" _).
    { rewrite (proj1 (filtered_failure_rate py c filters window Hc Hset)) in Hr.
      discriminate. }
    rewrite (proj1 (filtered_aggregate py c filters window _ _ Hc Hset)) in Hr.
    discriminate.
  - destruct (String.eqb _ "failure_codes") eqn:E1.
    { rewrite (proj1 (filtered_top_failure_codes py c filters window None Hc Hset)) in Hr.
      discriminate. }
    destruct (String.eqb _ "executive_summary") eqn:E2.
    { apply String.eqb_eq in E2. now split. }
    destruct (Py.contains "failure" _).
    { rewrite (proj1 (filtered_failure_rate py c filters window Hc Hset)) in Hr.
      discriminate. }
    rewrite (proj1 (filtered_aggregate py c filters window _ _ Hc Hset)) in Hr.
    discriminate.
Qed.

Lemma routed_filters_never_restrict_witness :
  _execute_analysis Sample.python (Some (duckdb Sample.dialect Sample.fixture))
    {| guarded := {| intent_type := METRIC_QUERY;
                     metric := Some "Executive_Summary";
                     primary_filters := device_only "Android" |};
       comparison := None; time_window := None;
       follow_up_needed := false; follow_up_question := None |}
  = get_executive_summary Sample.python
      (Some (duckdb Sample.dialect Sample.fixture)) None.
Proof.
  apply (routed_filters_never_restrict Sample.python
           (duckdb Sample.dialect Sample.fixture)
           {| guarded := {| intent_type := METRIC_QUERY;
                            metric := Some "Executive_Summary";
                            primary_filters := device_only "Android" |};
              comparison := None; time_window := None;
              follow_up_needed := false; follow_up_question := None |}).
  - apply sample_refuses_unbound.
  - discriminate.
  - vm_compute. reflexivity.
Defined.

(** A comparison with something that is no device (for instance a period)
    is sent with two empty segments: the guard does not look at
    [compare_with], the router leaves both segment dicts empty, and the
    statement ends each of its WHERE clauses with [AND] and nothing after
    it.  The result is a failed one, whatever the table holds. *)
Theorem comparison_with_no_device_fails (py : Python) (d : Dialect)
    (tbl : list Tx.Row) (intent : RoutedIntent) (other : string) :
  let m := or_str (metric (guarded intent)) "failure_rate" in
  let w := where_clause py (Some (primary_filters (guarded intent)))
             (option_map window_dict (time_window intent)) in
  intent_type (guarded intent) = COMPARISON ->
  comparison intent = Some {| compare_with := Some other |} ->
  other <> "" ->
  existsb (String.eqb (Py.lower other)) ["android"; "ios"; "web"] = false ->
  in_fragment (QCompare (metric_expr compare_expr_map m) m w [] []) = true ->
  let r := _execute_analysis py (Some (duckdb d tbl)) intent in
  comparison_segments intent = ([], [])
  /\ success r = false /\ numbers r = []
  /\ query_executed r
     = Py.strip (render (QCompare (metric_expr compare_expr_map m) m w [] [])).
Proof.
  intros m w Hty Hcmp Hne Hdev Hfrag r. subst r.
  assert (Hseg : comparison_segments intent = ([], [])).
  { unfold comparison_segments. rewrite Hcmp. cbn [compare_with Py.truthy str_opt].
    destruct (String.eqb other "") eqn:E; [apply String.eqb_eq in E; congruence|].
    cbn [negb]. now rewrite Hdev. }
  split; [exact Hseg|].
  unfold _execute_analysis. rewrite Hty, Hseg.
  fold m. fold w. unfold compare_segments. fold w.
  cbn [segment_atoms map]. rewrite duckdb_execute by exact Hfrag.
  cbn [run]. destruct (check_alias d m); cbn [bind try_except failed];
    repeat split.
Qed.

Lemma comparison_with_no_device_fails_witness :
  success (_execute_analysis Sample.python
             (Some (duckdb Sample.dialect Sample.fixture))
             {| guarded := {| intent_type := COMPARISON;
                              metric := Some "failure_rate";
                              primary_filters := no_filters |};
                comparison := Some {| compare_with := Some "last month" |};
                time_window := None;
                follow_up_needed := false; follow_up_question := None |}) = false.
Proof.
  apply (comparison_with_no_device_fails Sample.python Sample.dialect Sample.fixture
           {| guarded := {| intent_type := COMPARISON;
                            metric := Some "failure_rate";
                            primary_filters := no_filters |};
              comparison := Some {| compare_with := Some "last month" |};
              time_window := None;
              follow_up_needed := false; follow_up_question := None |}
           "last month"); try reflexivity.
  discriminate.
Defined.

Lemma or_str_some (m fallback : string) : m <> "" -> or_str (Some m) fallback = m.
Proof.
  intros H. unfold or_str. cbn [Py.truthy str_opt].
  destruct (String.eqb m "") eqn:E; [apply String.eqb_eq in E; congruence|reflexivity].
Qed.

(** The operations for the top failure codes and for the executive
    summary answer only an intent that falls through to the last branch of
    the router.  Under a comparison, a time series or a segmentation the
    same two metric names, which the guard accepts, are keys of no
    expression map: the statement that is executed and reported counts
    rows under the name of the metric. *)
Theorem dedicated_metrics_are_counted_elsewhere (py : Python) (c : Conn)
    (intent : RoutedIntent) (m : string) :
  metric (guarded intent) = Some m ->
  Py.lower m = "failure_codes" \/ Py.lower m = "executive_summary" ->
  let w := where_clause py (Some (primary_filters (guarded intent)))
             (option_map window_dict (time_window intent)) in
  let r := _execute_analysis py (Some c) intent in
  fst (is_metric_computable
         {| intent_type := intent_type (guarded intent); metric := Some m;
            primary_filters := no_filters |}) = true
  /\ match intent_type (guarded intent) with
     | COMPARISON =>
         query_executed r
         = Py.strip (render (QCompare CountStar m w
                               (segment_atoms (fst (comparison_segments intent)))
                               (segment_atoms (snd (comparison_segments intent)))))
     | TIME_SERIES =>
         query_executed r
         = Py.strip (render (QTimeSeries (TCol "date_only") None CountStar m w))
     | SEGMENTATION =>
         query_executed r
         = Py.strip (render (QAggregate
                               (segmentation_columns (primary_filters (guarded intent)))
                               CountStar m w))
     | _ => result_metric r = Py.lower m
     end.
Proof.
  intros Hm Hlow w r. subst r.
  assert (Hne : m <> "") by (intros ->; destruct Hlow; discriminate).
  assert (Ha : aggregate_expr_map !! Py.lower m = None)
    by (destruct Hlow as [-> | ->]; reflexivity).
  assert (Hc : compare_expr_map !! Py.lower m = None)
    by (destruct Hlow as [-> | ->]; reflexivity).
  assert (Ht : time_series_expr_map !! Py.lower m = None)
    by (destruct Hlow as [-> | ->]; reflexivity).
  split.
  { unfold is_metric_computable, rejected_by. cbn [metric primary_filters str_opt].
    destruct Hlow as [-> | ->]; cbn [Py.truthy];
      (destruct (String.eqb m "") eqn:E; [apply String.eqb_eq in E; congruence|]);
      reflexivity. }
  unfold _execute_analysis. rewrite Hm, !(or_str_some m _ Hne). fold w.
  assert (Hlast :
    result_metric
      (if String.eqb (Py.lower m) "failure_codes"
       then get_top_failure_codes py (Some c)
              (Some (primary_filters (guarded intent)))
              (option_map window_dict (time_window intent)) None
       else if String.eqb (Py.lower m) "executive_summary"
       then get_executive_summary py (Some c)
              (option_map window_dict (time_window intent))
       else if Py.contains "failure" (Py.lower m)
       then compute_failure_rate py (Some c)
              (Some (primary_filters (guarded intent)))
              (option_map window_dict (time_window intent))
       else aggregate py (Some c) m [] (Some (primary_filters (guarded intent)))
              (option_map window_dict (time_window intent)))
    = Py.lower m).
  { destruct Hlow as [-> | ->]; cbn [String.eqb Ascii.eqb Bool.eqb].
    - unfold get_top_failure_codes, try_except.
      match goal with
      | |- context [match ?b with Ok _ => _ | Raise _ => _ end] => destruct b eqn:Hb
      end; [returns; subst; reflexivity|reflexivity].
    - unfold get_executive_summary, try_except.
      match goal with
      | |- context [match ?b with Ok _ => _ | Raise _ => _ end] => destruct b eqn:Hb
      end; [returns; subst; reflexivity|reflexivity]. }
  destruct (intent_type (guarded intent)); try exact Hlast.
  - destruct (comparison_segments intent) as [sa sb]. cbn [fst snd].
    unfold compare_segments. rewrite (metric_expr_unregistered _ _ Hc). fold w.
    apply query_executed_try_except. intros r Hr. returns; subst r; reflexivity.
  - unfold time_series. rewrite (metric_expr_unregistered _ _ Ht). fold w.
    apply query_executed_try_except. intros r Hr. returns; subst r; reflexivity.
  - unfold aggregate. rewrite (metric_expr_unregistered _ _ Ha). fold w.
    apply query_executed_try_except. intros r Hr. returns; subst r; reflexivity.
Qed.

Lemma dedicated_metrics_are_counted_elsewhere_witness :
  query_executed
    (_execute_analysis Sample.python (Some (duckdb Sample.dialect Sample.fixture))
       {| guarded := {| intent_type := SEGMENTATION; metric := Some "failure_codes";
                        primary_filters := no_filters |};
          comparison := None; time_window := None;
          follow_up_needed := false; follow_up_question := None |})
  = Py.strip (render (QAggregate ["category"] CountStar "failure_codes" [ATrue])).
Proof.
  apply (dedicated_metrics_are_counted_elsewhere Sample.python
           (duckdb Sample.dialect Sample.fixture)
           {| guarded := {| intent_type := SEGMENTATION;
                            metric := Some "failure_codes";
                            primary_filters := no_filters |};
              comparison := None; time_window := None;
              follow_up_needed := false; follow_up_question := None |}
           "failure_codes").
  - reflexivity.
  - left. reflexivity.
Defined.

(* ===================================================================== *)
(** * Loading the dataset, and the service singleton *)
(* ===================================================================== *)

(** [load_dataset] never returns [False]: it returns [True] or raises.  It
    returns [True] only if every required column is the lower-case form of
    a column of the file, so the case of the header does not matter and
    further columns are accepted.  The connection is set as soon as the
    file exists, also when a later step of the loading raises. *)
Theorem load_dataset_outcomes (env : Loader) (path : string) :
  let outcome := load_dataset env (new_service path) in
  fst outcome <> Ok false
  /\ (fst outcome = Ok true ->
      exists names, column_names env path = Ok names
        /\ forall c, c ∈ _required_columns -> exists n, In n names /\ Py.lower n = c)
  /\ (conn (snd outcome) = None <-> path_exists env path = false)
  /\ (path_exists env path = false ->
      fst outcome = Raise ("Data file not found: " +:+ path)).
Proof.
  cbv zeta. unfold load_dataset, new_service. cbn [data_path].
  destruct (path_exists env path) eqn:Hp; cbn [negb fst snd conn].
  2: { repeat split; try discriminate; auto. }
  split.
  { destruct (create_table env path); cbn [bind]; [|discriminate].
    destruct (column_names env path); cbn [bind]; [|discriminate].
    destruct (bool_decide _); [|discriminate].
    destruct (add_date_only env path); cbn [bind]; discriminate. }
  split.
  { intros H.
    destruct (create_table env path); cbn [bind] in H; [|discriminate].
    destruct (column_names env path) as [names|]; cbn [bind] in H; [|discriminate].
    exists names. split; [reflexivity|].
    destruct (bool_decide _) eqn:Hm; [|discriminate].
    apply bool_decide_eq_true in Hm. intros c Hc.
    assert (Hin : c ∈ (list_to_set (map Py.lower names) : gset string)).
    { destruct (decide (c ∈ (list_to_set (map Py.lower names) : gset string)))
        as [Hyes|Hno]; [exact Hyes|].
      exfalso.
      assert (Hd : c ∈ _required_columns ∖ list_to_set (map Py.lower names))
        by (apply elem_of_difference; split; assumption).
      rewrite Hm in Hd. now apply not_elem_of_empty in Hd. }
    apply elem_of_list_to_set in Hin. apply list_elem_of_In in Hin.
    apply in_map_iff in Hin as (n & Hn & Hin). eauto. }
  split; [split; discriminate|discriminate].
Qed.

Lemma load_dataset_outcomes_witness :
  exists names, column_names sample_loader "data.csv" = Ok names
    /\ forall c, c ∈ _required_columns -> exists n, In n names /\ Py.lower n = c.
Proof.
  apply (proj1 (proj2 (load_dataset_outcomes sample_loader "data.csv"))).
  vm_compute. reflexivity.
Defined.

(** The service singleton is assigned before the dataset is loaded, so a
    first call that fails leaves the unloaded instance behind.  Every
    later call returns the instance it finds, whatever path it is given
    and whatever the file system holds by then: a load that failed is
    never tried again.  When the file was missing, the instance has no
    connection, and each of the six operations answers that the dataset
    is not loaded. *)
Theorem failed_load_is_never_retried (env : Loader) (path : string) :
  path_exists env path = false ->
  let first := get_analysis_service env None path in
  fst first = Raise ("Data file not found: " +:+ path)
  /\ exists service,
       snd first = Some service
       /\ (forall env' path',
             get_analysis_service env' (snd first) path' = (Ok service, snd first))
       /\ forall py filters tw,
            compute_failure_rate py (conn service) filters tw
              = not_loaded "failure_rate"
            /\ (forall metric by_,
                  aggregate py (conn service) metric by_ filters tw = not_loaded metric)
            /\ (forall seg_a seg_b metric,
                  compare_segments py (conn service) seg_a seg_b metric filters tw
                  = not_loaded metric)
            /\ (forall metric time_col period_ group_by,
                  time_series py (conn service) metric time_col period_ filters tw
                    group_by = not_loaded metric)
            /\ (forall limit,
                  get_top_failure_codes py (conn service) filters tw limit
                  = not_loaded "failure_codes")
            /\ get_executive_summary py (conn service) tw
               = not_loaded "executive_summary".
Proof.
  intros Hp first. subst first.
  unfold get_analysis_service, load_dataset, new_service. cbn [data_path].
  rewrite Hp. cbn [negb fst snd bind].
  split; [reflexivity|].
  eexists. split; [reflexivity|].
  split; [reflexivity|].
  intros py filters tw. cbn [conn]. repeat split.
Qed.

Lemma failed_load_is_never_retried_witness :
  fst (get_analysis_service sample_loader None "missing.csv")
  = Raise "Data file not found: missing.csv".
Proof.
  apply (failed_load_is_never_retried sample_loader "missing.csv").
  reflexivity.
Defined.

(* ===================================================================== *)
(** * The session service *)
(* ===================================================================== *)

Lemma assoc_has_key (k : string) (d : list (string * SessionContext)) :
  has_key k d = match assoc k d with Some _ => true | None => false end.
Proof.
  unfold has_key. induction d as [|[k' v] d IH]; [reflexivity|].
  cbn [existsb assoc fst]. rewrite (String.eqb_sym k' k).
  destruct (String.eqb k k'); [reflexivity|exact IH].
Qed.

Lemma assoc_In (k : string) (v : SessionContext) (d : list (string * SessionContext)) :
  assoc k d = Some v -> In (k, v) d.
Proof.
  induction d as [|[k' v'] d IH]; [discriminate|]. cbn [assoc].
  destruct (String.eqb k k') eqn:E.
  - apply String.eqb_eq in E. subst k'. intros [= ->]. now left.
  - intros H. right. now apply IH.
Qed.

Lemma assoc_None_keys (k : string) (d : list (string * SessionContext)) :
  assoc k d = None <-> ~ In k (map fst d).
Proof.
  induction d as [|[k' v'] d IH]; cbn [assoc map fst In]; [tauto|].
  destruct (String.eqb k k') eqn:E.
  - apply String.eqb_eq in E. subst k'. split; [discriminate|tauto].
  - apply String.eqb_neq in E. rewrite IH. split; [intros H [H'|H']; congruence|tauto].
Qed.

Lemma assoc_app_new (k : string) (v : SessionContext)
    (d : list (string * SessionContext)) :
  assoc k d = None -> assoc k (d ++ [(k, v)]) = Some v.
Proof.
  induction d as [|[k' v'] d IH]; cbn [assoc app].
  - now rewrite String.eqb_refl.
  - destruct (String.eqb k k'); [discriminate|exact IH].
Qed.

Lemma assoc_app_other (k k' : string) (v : SessionContext)
    (d : list (string * SessionContext)) :
  k <> k' -> assoc k (d ++ [(k', v)]) = assoc k d.
Proof.
  intros Hne. induction d as [|[k0 v0] d IH]; cbn [assoc app].
  - apply String.eqb_neq in Hne. now rewrite Hne.
  - destruct (String.eqb k k0); [reflexivity|exact IH].
Qed.

Lemma keys_del_item (k : string) (d : list (string * SessionContext)) :
  map fst (del_item k d) = List.filter (fun k' => negb (String.eqb k' k)) (map fst d).
Proof.
  unfold del_item. induction d as [|[k' v'] d IH]; [reflexivity|].
  cbn [List.filter map fst]. destruct (String.eqb k' k); cbn [negb map fst]; now rewrite IH.
Qed.

Lemma del_item_not_key (k : string) (d : list (string * SessionContext)) :
  ~ In k (map fst (del_item k d)).
Proof.
  rewrite keys_del_item, filter_In. intros [_ H].
  now rewrite String.eqb_refl in H.
Qed.

Lemma assoc_del_item_same (k : string) (d : list (string * SessionContext)) :
  assoc k (del_item k d) = None.
Proof. apply assoc_None_keys, del_item_not_key. Qed.

Lemma assoc_del_item_other (k k' : string) (d : list (string * SessionContext)) :
  k <> k' -> assoc k (del_item k' d) = assoc k d.
Proof.
  intros Hne. unfold del_item. induction d as [|[k0 v0] d IH]; [reflexivity|].
  cbn [List.filter assoc fst]. destruct (String.eqb k0 k') eqn:E; cbn [negb assoc].
  - apply String.eqb_eq in E. subst k0. apply String.eqb_neq in Hne.
    now rewrite Hne.
  - destruct (String.eqb k k0); [reflexivity|exact IH].
Qed.

Lemma NoDup_del_item (k : string) (d : list (string * SessionContext)) :
  List.NoDup (map fst d) -> List.NoDup (map fst (del_item k d)).
Proof. intros H. rewrite keys_del_item. now apply List.NoDup_filter. Qed.

Lemma length_del_item (k : string) (d : list (string * SessionContext)) :
  (length (del_item k d) <= length d)%nat.
Proof. apply List.filter_length_le. Qed.

Lemma length_del_item_present (k : string) (v : SessionContext)
    (d : list (string * SessionContext)) :
  assoc k d = Some v -> (S (length (del_item k d)) <= length d)%nat.
Proof.
  unfold del_item. induction d as [|[k' v'] d IH]; [discriminate|].
  cbn [assoc List.filter fst length]. rewrite (String.eqb_sym k' k).
  destruct (String.eqb k k'); cbn [negb length].
  - intros _. pose proof (length_del_item k d) as H. unfold del_item in H. lia.
  - intros H. apply IH in H. lia.
Qed.

Lemma keys_set_item (k : string) (v : SessionContext)
    (d : list (string * SessionContext)) :
  map fst (set_item k v d)
  = if has_key k d then map fst d else map fst d ++ [k].
Proof.
  unfold set_item. destruct (has_key k d).
  - rewrite map_map. apply map_ext_in. intros [k' v'] _. cbn [fst].
    destruct (String.eqb k' k) eqn:E; [|reflexivity].
    apply String.eqb_eq in E. now subst.
  - now rewrite map_app.
Qed.

Lemma length_set_item (k : string) (v : SessionContext)
    (d : list (string * SessionContext)) :
  length (set_item k v d)
  = if has_key k d then length d else S (length d).
Proof.
  unfold set_item. destruct (has_key k d).
  - apply length_map.
  - rewrite length_app. cbn. lia.
Qed.

Lemma assoc_set_item_same (k : string) (v : SessionContext)
    (d : list (string * SessionContext)) :
  assoc k (set_item k v d) = Some v.
Proof.
  unfold set_item. destruct (has_key k d) eqn:Hk.
  - rewrite assoc_has_key in Hk.
    induction d as [|[k' v'] d IH]; [discriminate|].
    cbn [assoc map fst] in *. rewrite (String.eqb_sym k' k).
    destruct (String.eqb k k') eqn:E; cbn [assoc].
    + now rewrite String.eqb_refl.
    + rewrite E. now apply IH.
  - apply assoc_app_new. rewrite assoc_has_key in Hk.
    now destruct (assoc k d).
Qed.

Lemma assoc_set_item_other (k k' : string) (v : SessionContext)
    (d : list (string * SessionContext)) :
  k <> k' -> assoc k (set_item k' v d) = assoc k d.
Proof.
  intros Hne. unfold set_item. destruct (has_key k' d).
  - induction d as [|[k0 v0] d IH]; [reflexivity|].
    cbn [assoc map fst]. destruct (String.eqb k0 k') eqn:E; cbn [assoc].
    + apply String.eqb_eq in E. subst k0. apply String.eqb_neq in Hne.
      now rewrite Hne.
    + destruct (String.eqb k k0); [reflexivity|exact IH].
  - now apply assoc_app_other.
Qed.

Lemma Forall_set_item (P : string * SessionContext -> Prop) (k : string)
    (v : SessionContext) (d : list (string * SessionContext)) :
  P (k, v) -> Forall P d -> Forall P (set_item k v d).
Proof.
  intros Hv Hd. unfold set_item. destruct (has_key k d).
  - apply List.Forall_map. eapply List.Forall_impl; [|exact Hd].
    intros [k' v'] H. cbn [fst]. now destruct (String.eqb k' k).
  - apply Forall_app. split; [exact Hd|]. now constructor.
Qed.

Lemma Forall_del_item (P : string * SessionContext -> Prop) (k : string)
    (d : list (string * SessionContext)) :
  Forall P d -> Forall P (del_item k d).
Proof.
  intros H. unfold del_item. apply List.Forall_forall. intros kv Hin.
  apply filter_In in Hin as [Hin _].
  now apply (proj1 (List.Forall_forall P d) H).
Qed.

Lemma length_last_from {A : Type} (n : Z) (l : list A) :
  (1 <= n)%Z -> (Z.of_nat (length (last_from n l)) <= n)%Z.
Proof.
  intros Hn. unfold last_from.
  destruct (0 <? n)%Z eqn:E; [|apply Z.ltb_ge in E; lia].
  rewrite length_skipn. lia.
Qed.

Lemma last_from_zero {A : Type} (l : list A) : last_from 0 l = l.
Proof. reflexivity. Qed.

Lemma last_from_snoc {A : Type} (n : Z) (l : list A) (a : A) :
  (1 <= n)%Z -> exists front, last_from n (l ++ [a]) = front ++ [a].
Proof.
  intros Hn. unfold last_from.
  destruct (0 <? n)%Z eqn:E; [|apply Z.ltb_ge in E; lia].
  rewrite length_app. cbn [length].
  replace (length l + 1 - Z.to_nat n)%nat
    with (length l - (Z.to_nat n - 1))%nat by lia.
  rewrite skipn_app.
  replace (length l - (Z.to_nat n - 1) - length l)%nat with 0%nat by lia.
  cbn [skipn]. eauto.
Qed.

(** [get_session] on a service within its limits. *)
Lemma get_session_spec (self : SessionService) (sid : string) :
  (1 <= max_sessions self)%Z -> within_limits self ->
  exists session self',
    get_session self sid = Ok (session, self')
    /\ within_limits self'
    /\ max_turns self' = max_turns self
    /\ max_sessions self' = max_sessions self
    /\ assoc sid (_sessions self') = Some session
    /\ turns session = stored_turns self sid
    /\ (forall k ctx, k <> sid -> assoc k (_sessions self') = Some ctx ->
                      assoc k (_sessions self) = Some ctx).
Proof.
  intros Hms (Hnd & Hlen & Hturns). unfold get_session, stored_turns.
  destruct (assoc sid (_sessions self)) as [session|] eqn:Ha.
  - exists session. eexists. split; [reflexivity|].
    unfold with_sessions; cbn [_sessions max_turns max_sessions].
    split; [|split; [reflexivity|split; [reflexivity|]]].
    + unfold within_limits, with_sessions. cbn [_sessions max_turns max_sessions].
      split; [|split].
      * rewrite map_app. cbn [map fst]. apply NoDup_ListNoDup, NoDup_app.
        split; [|split].
        -- apply NoDup_ListNoDup, NoDup_del_item, Hnd.
        -- intros k Hk Hk'. apply list_elem_of_In in Hk.
           apply list_elem_of_In in Hk'. destruct Hk' as [<-|[]].
           now apply del_item_not_key in Hk.
        -- apply NoDup_ListNoDup. repeat constructor. intros [].
      * rewrite length_app. cbn [length].
        pose proof (length_del_item_present sid session _ Ha). lia.
      * intros Hmt. apply Forall_app. split.
        -- apply Forall_del_item, Hturns, Hmt.
        -- constructor; [|constructor].
           apply (proj1 (List.Forall_forall _ _) (Hturns Hmt) (sid, session)).
           now apply assoc_In.
    + split; [apply assoc_app_new, assoc_del_item_same|].
      split; [reflexivity|].
      intros k ctx Hne H. rewrite assoc_app_other, assoc_del_item_other in H; auto.
  - unfold _add_session.
    assert (Hfresh : forall d, (forall k, In k (map fst d) -> In k (map fst (_sessions self))) ->
              set_item sid {| session_id := sid; turns := [] |} d
              = d ++ [(sid, {| session_id := sid; turns := [] |})]).
    { intros d Hd. unfold set_item. rewrite assoc_has_key.
      destruct (assoc sid d) eqn:E; [|reflexivity].
      exfalso. apply assoc_In in E. apply (proj1 (assoc_None_keys _ _) Ha), Hd.
      now apply (in_map fst) in E. }
    destruct (max_sessions self <=? Z.of_nat (length (_sessions self)))%Z eqn:Hfull.
    + apply Z.leb_le in Hfull.
      destruct (_sessions self) as [|[k0 v0] rest] eqn:Hd; [cbn in Hfull; lia|].
      cbn [bind]. rewrite Hfresh by (intros k Hk; now right).
      eexists. eexists. split; [reflexivity|].
      unfold with_sessions; cbn [_sessions max_turns max_sessions].
      cbn [map fst length] in *. apply List.NoDup_cons_iff in Hnd as [Hk0 Hnd].
      split; [|split; [reflexivity|split; [reflexivity|]]].
      * unfold within_limits, with_sessions. cbn [_sessions max_turns max_sessions].
        split; [|split].
        -- rewrite map_app. cbn [map fst]. apply NoDup_ListNoDup, NoDup_app.
           split; [now apply NoDup_ListNoDup|split].
           ++ intros k Hk Hk'. apply list_elem_of_In in Hk.
              apply list_elem_of_In in Hk'. destruct Hk' as [<-|[]].
              apply (proj1 (assoc_None_keys _ _) Ha). now right.
           ++ apply NoDup_ListNoDup. repeat constructor. intros [].
        -- rewrite length_app. cbn [length]. lia.
        -- intros Hmt. apply Forall_app. split.
           ++ now apply Forall_inv_tail in Hturns.
           ++ constructor; [cbn; lia|constructor].
      * split; [apply assoc_app_new|].
        { apply assoc_None_keys. intros Hin.
          apply (proj1 (assoc_None_keys _ _) Ha). now right. }
        split; [reflexivity|].
        intros k ctx Hne H. rewrite assoc_app_other in H by exact Hne.
        cbn [assoc]. destruct (String.eqb k k0) eqn:E; [|exact H].
        apply String.eqb_eq in E. subst k0. exfalso. apply Hk0.
        apply assoc_In in H. now apply (in_map fst) in H.
    + apply Z.leb_gt in Hfull. cbn [bind]. rewrite Hfresh by auto.
      eexists. eexists. split; [reflexivity|].
      unfold with_sessions; cbn [_sessions max_turns max_sessions].
      split; [|split; [reflexivity|split; [reflexivity|]]].
      * unfold within_limits, with_sessions. cbn [_sessions max_turns max_sessions].
        split; [|split].
        -- rewrite map_app. cbn [map fst]. apply NoDup_ListNoDup, NoDup_app.
           split; [now apply NoDup_ListNoDup|split].
           ++ intros k Hk Hk'. apply list_elem_of_In in Hk.
              apply list_elem_of_In in Hk'. destruct Hk' as [<-|[]].
              now apply (proj1 (assoc_None_keys _ _) Ha).
           ++ apply NoDup_ListNoDup. repeat constructor. intros [].
        -- rewrite length_app. cbn [length]. lia.
        -- intros Hmt. apply Forall_app. split; [auto|].
           constructor; [cbn; lia|constructor].
      * split; [now apply assoc_app_new|].
        split; [reflexivity|].
        intros k ctx Hne H. now rewrite assoc_app_other in H.
Qed.

(** The turns [add_turn] leaves in a session that held [before]. *)
Lemma add_turn_spec (self : SessionService) (sid role_ content_ : string) :
  (1 <= max_sessions self)%Z -> within_limits self ->
  let appended := stored_turns self sid ++ [ {| role := role_; content := content_ |} ] in
  exists self',
    add_turn self sid role_ content_ = Ok self'
    /\ within_limits self'
    /\ max_turns self' = max_turns self
    /\ max_sessions self' = max_sessions self
    /\ stored_turns self' sid
       = (if (max_turns self <? Z.of_nat (length appended))%Z
          then last_from (max_turns self) appended else appended)
    /\ (forall k ctx, k <> sid -> assoc k (_sessions self') = Some ctx ->
                      assoc k (_sessions self) = Some ctx).
Proof.
  intros Hms Hok appended. subst appended.
  destruct (get_session_spec self sid Hms Hok)
    as (session & s1 & Hget & (Hnd & Hlen & Hturns) & Hmt & Hmsx & Hin & Ht & Hother).
  unfold add_turn. rewrite Hget. cbn [bind fst snd].
  eexists. split; [reflexivity|].
  unfold with_sessions; cbn [_sessions max_turns max_sessions].
  assert (Hkey : has_key sid (_sessions s1) = true)
    by (rewrite assoc_has_key; now rewrite Hin).
  split; [|split; [exact Hmt|split; [exact Hmsx|split]]].
  - unfold within_limits, with_sessions. cbn [_sessions max_turns max_sessions].
    split; [|split].
    + now rewrite keys_set_item, Hkey.
    + now rewrite length_set_item, Hkey.
    + intros H1. apply Forall_set_item; [|auto]. cbn [snd turns].
      destruct (max_turns s1 <? _)%Z eqn:E.
      * now apply length_last_from.
      * now apply Z.ltb_ge in E.
  - unfold stored_turns at 1. cbn [_sessions].
    rewrite assoc_set_item_same. cbn [turns]. now rewrite Ht, Hmt.
  - intros k ctx Hne H. rewrite assoc_set_item_other in H by exact Hne.
    now apply Hother.
Qed.

Lemma perform_spec (self : SessionService) (call : session_call) :
  (1 <= max_sessions self)%Z -> within_limits self ->
  exists self',
    perform self call = Ok self'
    /\ within_limits self'
    /\ max_turns self' = max_turns self
    /\ max_sessions self' = max_sessions self.
Proof.
  intros Hms Hok. destruct call as [sid|sid r c|sid|sid|sid]; cbn [perform].
  - destruct (get_session_spec self sid Hms Hok)
      as (session & s1 & -> & H1 & H2 & H3 & _). cbn [bind snd]. eauto.
  - destruct (add_turn_spec self sid r c Hms Hok) as (s1 & -> & H1 & H2 & H3 & _).
    eauto.
  - unfold get_context_string.
    destruct (get_session_spec self sid Hms Hok)
      as (session & s1 & -> & H1 & H2 & H3 & _). cbn [bind fst snd].
    destruct (turns session); cbn [bind snd]; eauto.
  - unfold get_last_user_query.
    destruct (get_session_spec self sid Hms Hok)
      as (session & s1 & -> & H1 & H2 & H3 & _). cbn [bind fst snd]. eauto.
  - eexists. split; [reflexivity|]. unfold clear_session.
    destruct (has_key sid (_sessions self)); [|auto].
    destruct Hok as (Hnd & Hlen & Hturns).
    unfold within_limits, with_sessions. cbn [_sessions max_turns max_sessions].
    repeat split.
    + now apply NoDup_del_item.
    + pose proof (length_del_item sid (_sessions self)). lia.
    + intros H. now apply Forall_del_item, Hturns.
Qed.

(** From a new service that keeps at least one session, no sequence of
    calls raises, and after every one of them the store holds one session
    per id, at most [max_sessions] sessions, and, when [max_turns] is
    positive, at most [max_turns] turns in each session. *)
Theorem session_store_stays_within_limits (turns_kept sessions_kept : Z)
    (calls : list session_call) :
  (1 <= sessions_kept)%Z ->
  exists self,
    perform_all (new_sessions turns_kept sessions_kept) calls = Ok self
    /\ List.NoDup (map fst (_sessions self))
    /\ (Z.of_nat (length (_sessions self)) <= sessions_kept)%Z
    /\ ((1 <= turns_kept)%Z ->
        forall sid, (Z.of_nat (length (stored_turns self sid)) <= turns_kept)%Z).
Proof.
  intros Hms.
  assert (Hgen : forall self, (1 <= max_sessions self)%Z -> within_limits self ->
            exists self', perform_all self calls = Ok self'
              /\ within_limits self'
              /\ max_turns self' = max_turns self
              /\ max_sessions self' = max_sessions self).
  { induction calls as [|call calls IH]; intros self H1 H2; cbn [perform_all].
    - eauto.
    - destruct (perform_spec self call H1 H2) as (s1 & -> & Hok & Hmt & Hmsx).
      cbn [bind]. destruct (IH s1) as (s2 & -> & Hok2 & Hmt2 & Hmsx2); [lia|auto|].
      exists s2. split; [reflexivity|split; [exact Hok2|split; congruence]]. }
  destruct (Hgen (new_sessions turns_kept sessions_kept)) as (self & -> & Hok & Hmt & Hmsx).
  - exact Hms.
  - repeat split; cbn; [constructor|lia|constructor].
  - cbn [new_sessions max_turns max_sessions] in Hmt, Hmsx.
    destruct Hok as (Hnd & Hlen & Hturns). rewrite Hmt, Hmsx in *.
    exists self. repeat split; auto.
    intros Hk sid. unfold stored_turns.
    destruct (assoc sid (_sessions self)) as [session|] eqn:E; [|cbn; lia].
    apply assoc_In in E.
    apply (proj1 (List.Forall_forall _ _) (Hturns Hk) (sid, session) E).
Qed.

Lemma session_store_stays_within_limits_witness :
  exists self,
    perform_all (new_sessions 2 1)
      [ CallAddTurn "a" "user" "one"; CallAddTurn "a" "assistant" "two";
        CallAddTurn "a" "user" "three"; CallContextString "b" ] = Ok self
    /\ List.NoDup (map fst (_sessions self))
    /\ (Z.of_nat (length (_sessions self)) <= 1)%Z
    /\ ((1 <= 2)%Z ->
        forall sid, (Z.of_nat (length (stored_turns self sid)) <= 2)%Z).
Proof.
  apply (session_store_stays_within_limits 2 1). lia.
Defined.

(** A service that keeps no session cannot serve any: on its empty store
    the eviction in [_add_session] pops from an empty dict, and the
    [KeyError] leaves every method that looks a session up. *)
Theorem no_session_can_be_kept (self : SessionService) (sid role_ content_ : string) :
  (max_sessions self <= 0)%Z ->
  _sessions self = [] ->
  get_session self sid = Raise "'dictionary is empty'"
  /\ add_turn self sid role_ content_ = Raise "'dictionary is empty'"
  /\ get_context_string self sid = Raise "'dictionary is empty'"
  /\ get_last_user_query self sid = Raise "'dictionary is empty'".
Proof.
  intros Hms Hd.
  assert (Hget : get_session self sid = Raise "'dictionary is empty'").
  { unfold get_session, _add_session. rewrite Hd. cbn [assoc length].
    change (Z.of_nat 0) with 0%Z.
    destruct (max_sessions self <=? 0)%Z eqn:E; [reflexivity|].
    apply Z.leb_gt in E. lia. }
  unfold add_turn, get_context_string, get_last_user_query.
  rewrite Hget. repeat split.
Qed.

Lemma no_session_can_be_kept_witness :
  get_session (new_sessions 6 0) "a" = Raise "'dictionary is empty'".
Proof.
  apply (no_session_can_be_kept (new_sessions 6 0) "a" "user" "hello").
  - cbn. lia.
  - reflexivity.
Defined.

(** A limit of zero turns is no limit: [turns[-0:]] is the whole list, so
    with [max_turns = 0] a session keeps every turn added to it, and the
    context string shows all of them. *)
Theorem zero_turns_keeps_every_turn (self : SessionService)
    (sid role_ content_ : string) :
  (1 <= max_sessions self)%Z ->
  within_limits self ->
  max_turns self = 0%Z ->
  exists self' self'',
    add_turn self sid role_ content_ = Ok self'
    /\ stored_turns self' sid
       = stored_turns self sid ++ [ {| role := role_; content := content_ |} ]
    /\ get_context_string self' sid
       = Ok (Py.join nl (map context_line (stored_turns self' sid)), self'').
Proof.
  intros Hms Hok Hz.
  destruct (add_turn_spec self sid role_ content_ Hms Hok)
    as (s1 & Hadd & Hok1 & Hmt & Hmsx & Hst & _).
  rewrite Hz in Hst. rewrite last_from_zero in Hst.
  assert (Hst' : stored_turns s1 sid
            = stored_turns self sid ++ [ {| role := role_; content := content_ |} ])
    by (destruct (_ <? _)%Z; exact Hst).
  destruct (get_session_spec s1 sid) as (session & s2 & Hget & _ & _ & _ & _ & Ht & _);
    [lia|exact Hok1|].
  exists s1, s2. split; [exact Hadd|]. split; [exact Hst'|].
  unfold get_context_string. rewrite Hget. cbn [bind fst snd].
  rewrite Ht, Hmt, Hz.
  destruct (stored_turns s1 sid) eqn:E; [|reflexivity].
  rewrite Hst' in E. now destruct (stored_turns self sid).
Qed.

Lemma zero_turns_keeps_every_turn_witness :
  exists self' self'',
    add_turn (new_sessions 0 5) "a" "user" "hello" = Ok self'
    /\ stored_turns self' "a"
       = stored_turns (new_sessions 0 5) "a" ++ [ {| role := "user"; content := "hello" |} ]
    /\ get_context_string self' "a"
       = Ok (Py.join nl (map context_line (stored_turns self' "a")), self'').
Proof.
  apply (zero_turns_keeps_every_turn (new_sessions 0 5) "a" "user" "hello").
  - cbn. lia.
  - repeat split; cbn; [constructor|lia|constructor].
  - reflexivity.
Defined.

Lemma last_from_snoc2 {A : Type} (n : Z) (l : list A) (a b : A) :
  (2 <= n)%Z -> exists front, last_from n (l ++ [a; b]) = front ++ [a; b].
Proof.
  intros Hn. unfold last_from.
  destruct (0 <? n)%Z eqn:E; [|apply Z.ltb_ge in E; lia].
  rewrite length_app. cbn [length].
  replace (length l + 2 - Z.to_nat n)%nat
    with (length l - (Z.to_nat n - 2))%nat by lia.
  rewrite skipn_app.
  replace (length l - (Z.to_nat n - 2) - length l)%nat with 0%nat by lia.
  cbn [skipn]. eauto.
Qed.

Lemma find_user_last (front : list ConversationTurn) (text : string) :
  List.find (fun turn => String.eqb (role turn) "user")
            (rev (front ++ [ {| role := "user"; content := text |} ]))
  = Some {| role := "user"; content := text |}.
Proof. rewrite rev_app_distr. reflexivity. Qed.

Lemma last_user_query_spec (self : SessionService) (sid : string) :
  (1 <= max_sessions self)%Z -> within_limits self ->
  exists self',
    get_last_user_query self sid
    = Ok (option_map content
            (List.find (fun turn => String.eqb (role turn) "user")
                       (rev (stored_turns self sid))), self').
Proof.
  intros Hms Hok.
  destruct (get_session_spec self sid Hms Hok)
    as (session & s1 & Hget & _ & _ & _ & _ & Ht & _).
  unfold get_last_user_query. rewrite Hget. cbn [bind fst snd]. rewrite Ht. eauto.
Qed.

(** The last user query survives the round trip through the store: after
    a user turn is added, [get_last_user_query] returns its content, and
    the turns of the other sessions are as they were.  After the reply is
    added as well, the query is still returned, except with
    [max_turns = 1], where the reply pushes the query out. *)
Theorem last_user_query_round_trip (self : SessionService)
    (sid query_ role_ reply : string) :
  (1 <= max_sessions self)%Z ->
  (0 <= max_turns self)%Z ->
  within_limits self ->
  role_ <> "user" ->
  exists s1 s1' s2 s2',
    add_turn self sid "user" query_ = Ok s1
    /\ get_last_user_query s1 sid = Ok (Some query_, s1')
    /\ (forall k ctx, k <> sid -> assoc k (_sessions s1) = Some ctx ->
                      assoc k (_sessions self) = Some ctx)
    /\ add_turn s1 sid role_ reply = Ok s2
    /\ get_last_user_query s2 sid
       = Ok (if (max_turns self =? 1)%Z then None else Some query_, s2').
Proof.
  intros Hms Hmt Hok Hrole.
  set (u := {| role := "user"; content := query_ |}).
  set (a := {| role := role_; content := reply |}).
  destruct (add_turn_spec self sid "user" query_ Hms Hok)
    as (s1 & Hadd1 & Hok1 & Hmt1 & Hms1 & Hst1 & Hother).
  fold u in Hst1.
  assert (Hfront : exists front, stored_turns s1 sid = front ++ [u]).
  { rewrite Hst1.
    destruct (max_turns self <? Z.of_nat (length (stored_turns self sid ++ [u])))%Z;
      [|eauto].
    destruct (Z.eq_dec (max_turns self) 0%Z) as [Hz|Hnz].
    - rewrite Hz, last_from_zero. eauto.
    - apply last_from_snoc. lia. }
  destruct Hfront as (front & Hfront).
  destruct (last_user_query_spec s1 sid) as (s1' & Hq1); [lia|exact Hok1|].
  rewrite Hfront in Hq1. unfold u in Hq1. rewrite find_user_last in Hq1.
  destruct (add_turn_spec s1 sid role_ reply) as (s2 & Hadd2 & Hok2 & Hmt2 & Hms2 & Hst2 & _);
    [lia|exact Hok1|].
  fold a in Hst2. rewrite Hfront, Hmt1 in Hst2.
  destruct (last_user_query_spec s2 sid) as (s2' & Hq2); [lia|exact Hok2|].
  exists s1, s1', s2, s2'.
  split; [exact Hadd1|]. split; [exact Hq1|]. split; [exact Hother|].
  split; [exact Hadd2|]. rewrite Hq2, Hst2. f_equal. f_equal.
  assert (Ha : String.eqb role_ "user" = false) by now apply String.eqb_neq.
  rewrite <- app_assoc. cbn [app].
  destruct (max_turns self =? 1)%Z eqn:E1.
  - apply Z.eqb_eq in E1. rewrite E1.
    assert (Hlen : (1 <? Z.of_nat (length (front ++ [u; a])))%Z = true).
    { apply Z.ltb_lt. rewrite length_app. cbn [length]. lia. }
    rewrite Hlen. unfold last_from. change (0 <? 1)%Z with true. cbv beta iota.
    change (Z.to_nat 1) with 1%nat.
    rewrite length_app. cbn [length].
    rewrite skipn_app, skipn_all2 by lia.
    replace (length front + 2 - 1 - length front)%nat with 1%nat by lia.
    unfold a. cbn [app skipn rev List.find role]. now rewrite Ha.
  - apply Z.eqb_neq in E1.
    assert (Hkeep : exists front', (if (max_turns self <? Z.of_nat (length (front ++ [u; a])))%Z
                    then last_from (max_turns self) (front ++ [u; a])
                    else front ++ [u; a]) = front' ++ [u; a]).
    { destruct (max_turns self <? Z.of_nat (length (front ++ [u; a])))%Z; [|eauto].
      destruct (Z.eq_dec (max_turns self) 0%Z) as [Hz|Hnz].
      - rewrite Hz, last_from_zero. eauto.
      - apply last_from_snoc2. lia. }
    destruct Hkeep as (front' & ->).
    rewrite rev_app_distr. unfold a, u. cbn [rev app List.find role]. now rewrite Ha.
Qed.

Lemma last_user_query_round_trip_witness :
  exists s1 s1' s2 s2',
    add_turn (new_sessions 1 5) "a" "user" "how many failed?" = Ok s1
    /\ get_last_user_query s1 "a" = Ok (Some "how many failed?", s1')
    /\ (forall k ctx, k <> "a" -> assoc k (_sessions s1) = Some ctx ->
                      assoc k (_sessions (new_sessions 1 5)) = Some ctx)
    /\ add_turn s1 "a" "assistant" "ten" = Ok s2
    /\ get_last_user_query s2 "a"
       = Ok (if (max_turns (new_sessions 1 5) =? 1)%Z
             then None else Some "how many failed?", s2').
Proof.
  apply (last_user_query_round_trip (new_sessions 1 5) "a" "how many failed?"
           "assistant" "ten").
  - cbn. lia.
  - cbn. lia.
  - repeat split; cbn; [constructor|lia|constructor].
  - discriminate.
Defined.

Lemma length_append (s t : string) :
  String.length (s +:+ t) = (String.length s + String.length t)%nat.
Proof.
  induction s as [|c s IH]; [reflexivity|].
  rewrite append_cons. cbn [String.length]. now rewrite IH.
Qed.

Lemma length_substring_le (n : nat) (s : string) :
  (String.length (substring 0 n s) <= n)%nat.
Proof.
  revert s. induction n as [|n IH]; intros [|c s]; cbn [substring String.length]; try lia.
  specialize (IH s). lia.
Qed.

Lemma length_context_line (turn : ConversationTurn) :
  (String.length (context_line turn) <= 514)%nat.
Proof.
  unfold context_line. rewrite !length_append.
  assert (H1 : (String.length (if String.eqb (role turn) "user"
                               then "User" else "Assistant") <= 9)%nat)
    by (destruct (String.eqb (role turn) "user"); cbn; lia).
  assert (H2 : (String.length
                  (if (500 <? String.length (content turn))%nat
                   then substring 0 500 (content turn) +:+ "..."
                   else content turn) <= 503)%nat).
  { destruct (500 <? String.length (content turn))%nat eqn:E.
    - rewrite length_append.
      pose proof (length_substring_le 500 (content turn)).
      change (String.length "...") with 3%nat. lia.
    - apply Nat.ltb_ge in E. lia. }
  change (String.length ": ") with 2%nat. lia.
Qed.

Lemma length_join_lines (lines : list string) :
  Forall (fun l => (String.length l <= 514)%nat) lines ->
  (String.length (Py.join nl lines) <= 515 * length lines)%nat.
Proof.
  induction 1 as [|l lines Hl Hls IH]; [cbn; lia|].
  destruct lines as [|l' lines].
  - cbn [Py.join length]. lia.
  - change (Py.join nl (l :: l' :: lines)) with (l +:+ nl +:+ Py.join nl (l' :: lines)).
    rewrite !length_append. change (String.length nl) with 1%nat.
    cbn [length] in *. lia.
Qed.

Lemma get_session_turns (self self' : SessionService) (sid : string)
    (session : SessionContext) :
  get_session self sid = Ok (session, self') ->
  turns session = stored_turns self sid.
Proof.
  unfold get_session, stored_turns.
  destruct (assoc sid (_sessions self)) as [found|].
  - now intros [= -> _].
  - intros H. returns. now subst session.
Qed.

Lemma context_line_first (turn : ConversationTurn) :
  exists c rest, context_line turn = String c rest /\ c <> "N"%char.
Proof.
  unfold context_line. destruct (String.eqb (role turn) "user").
  - exists "U"%char. eexists. split; [reflexivity|discriminate].
  - exists "A"%char. eexists. split; [reflexivity|discriminate].
Qed.

Lemma join_lines_first (l : string) (lines : list string) (c : ascii) (rest : string) :
  l = String c rest -> exists rest', Py.join nl (l :: lines) = String c rest'.
Proof.
  intros ->. destruct lines as [|l' lines].
  - cbn [Py.join]. eauto.
  - change (Py.join nl (String c rest :: l' :: lines))
      with (String c rest +:+ nl +:+ Py.join nl (l' :: lines)).
    rewrite append_cons. eauto.
Qed.

(** The context string of a session is [No previous context.] exactly
    when the session holds no turn.  Otherwise it has one line for each of
    the last [max_turns] turns, whose content is cut after 500 characters,
    so that for a positive [max_turns] the string is never longer than
    [515 * max_turns] characters, whatever was stored. *)
Theorem context_string_is_bounded (self self' : SessionService)
    (sid text : string) :
  (1 <= max_turns self)%Z ->
  get_context_string self sid = Ok (text, self') ->
  (text = "No previous context." <-> stored_turns self sid = [])
  /\ (stored_turns self sid <> [] ->
      text = Py.join nl (map context_line
                           (last_from (max_turns self) (stored_turns self sid))))
  /\ (Z.of_nat (String.length text) <= 515 * max_turns self)%Z.
Proof.
  intros Hmt H. unfold get_context_string in H.
  destruct (get_session self sid) as [[session s1]|] eqn:Hget; [|discriminate].
  cbn [bind fst snd] in H. rewrite (get_session_turns _ _ _ _ Hget) in H.
  destruct (stored_turns self sid) as [|t ts] eqn:Hst.
  - injection H as <- _. split; [tauto|]. split; [congruence|].
    change (String.length "No previous context.") with 20%nat. lia.
  - injection H as <- _.
    set (shown := last_from (max_turns self) (t :: ts)).
    assert (Hlen : (Z.of_nat (length shown) <= max_turns self)%Z)
      by now apply length_last_from.
    assert (Hne : shown <> []).
    { unfold shown, last_from.
      destruct (0 <? max_turns self)%Z eqn:E; [|apply Z.ltb_ge in E; lia].
      intros Hnil. apply (f_equal (@length _)) in Hnil.
      rewrite length_skipn in Hnil. cbn [length] in Hnil. lia. }
    split; [|split; [reflexivity|]].
    + split; [|discriminate]. intros Heq. exfalso.
      destruct shown as [|t0 shown']; [congruence|]. cbn [map] in Heq.
      destruct (context_line_first t0) as (c & rest & Hc & Hn).
      destruct (join_lines_first _ (map context_line shown') c rest Hc) as (rest' & Hj).
      rewrite Hj in Heq. injection Heq as Heq _. congruence.
    + pose proof (length_join_lines (map context_line shown)) as Hj.
      rewrite length_map in Hj.
      assert (Hall : Forall (fun l => (String.length l <= 514)%nat)
                            (map context_line shown)).
      { apply List.Forall_map, List.Forall_forall. intros turn _.
        apply length_context_line. }
      specialize (Hj Hall). lia.
Qed.

Lemma context_string_is_bounded_witness :
  (Z.of_nat (String.length "User: how many failed?") <= 515 * 6)%Z.
Proof.
  apply (context_string_is_bounded
           {| max_turns := 6; max_sessions := 1000;
              _sessions := [("a", {| session_id := "a";
                                     turns := [ {| role := "user";
                                                   content := "how many failed?" |} ] |})] |}
           {| max_turns := 6; max_sessions := 1000;
              _sessions := [("a", {| session_id := "a";
                                     turns := [ {| role := "user";
                                                   content := "how many failed?" |} ] |})] |}
           "a" "User: how many failed?").
  - cbn. lia.
  - reflexivity.
Defined.

(** Reading has a side effect.  Asking for the context string of a session
    id that is not stored creates that session; when the store is full,
    the session at the front of the store, the one whose last use is the
    oldest, is dropped with all its turns. *)
Theorem reading_a_context_can_evict (self : SessionService) (sid oldest : string)
    (ctx : SessionContext) (rest : list (string * SessionContext)) :
  within_limits self ->
  (1 <= max_sessions self)%Z ->
  _sessions self = (oldest, ctx) :: rest ->
  Z.of_nat (length (_sessions self)) = max_sessions self ->
  assoc sid (_sessions self) = None ->
  exists self' self'',
    get_context_string self sid = Ok ("No previous context.", self')
    /\ _sessions self' = rest ++ [(sid, {| session_id := sid; turns := [] |})]
    /\ stored_turns self' oldest = []
    /\ get_last_user_query self' oldest = Ok (None, self'').
Proof.
  intros Hok Hms Hd Hfull Hnew.
  assert (Hne : oldest <> sid).
  { intros ->. rewrite Hd in Hnew. cbn [assoc] in Hnew.
    now rewrite String.eqb_refl in Hnew. }
  assert (Hrest : assoc sid rest = None).
  { rewrite Hd in Hnew. cbn [assoc] in Hnew.
    destruct (String.eqb sid oldest); [discriminate|exact Hnew]. }
  assert (Hget : get_session self sid
            = Ok ({| session_id := sid; turns := [] |},
                  with_sessions self
                    (rest ++ [(sid, {| session_id := sid; turns := [] |})]))).
  { unfold get_session, _add_session. rewrite Hnew.
    assert (Hle : (max_sessions self <=? Z.of_nat (length (_sessions self)))%Z = true)
      by (apply Z.leb_le; lia).
    rewrite Hle, Hd. cbn [bind]. unfold set_item.
    rewrite assoc_has_key, Hrest. reflexivity. }
  set (s1 := with_sessions self
               (rest ++ [(sid, {| session_id := sid; turns := [] |})])) in *.
  assert (Hgone : assoc oldest (_sessions s1) = None).
  { unfold s1, with_sessions. cbn [_sessions].
    rewrite assoc_app_other by exact Hne.
    apply assoc_None_keys. destruct Hok as (Hnd & _).
    rewrite Hd in Hnd. cbn [map fst] in Hnd.
    now apply List.NoDup_cons_iff in Hnd as [Hnot _]. }
  assert (Hok1 : within_limits s1).
  { destruct (get_session_spec self sid Hms Hok) as (session & s' & Hg & Hok' & _).
    rewrite Hget in Hg. now injection Hg as _ <-. }
  destruct (last_user_query_spec s1 oldest) as (s2 & Hq); [exact Hms|exact Hok1|].
  exists s1, s2. unfold get_context_string. rewrite Hget. cbn [bind fst snd turns].
  split; [reflexivity|]. split; [reflexivity|].
  assert (Hst : stored_turns s1 oldest = []) by (unfold stored_turns; now rewrite Hgone).
  split; [exact Hst|]. rewrite Hq, Hst. reflexivity.
Qed.

Lemma reading_a_context_can_evict_witness :
  exists self' self'',
    get_context_string
      {| max_turns := 6; max_sessions := 1;
         _sessions := [("a", {| session_id := "a";
                                turns := [ {| role := "user"; content := "hello" |} ] |})] |}
      "b" = Ok ("No previous context.", self')
    /\ _sessions self' = [] ++ [("b", {| session_id := "b"; turns := [] |})]
    /\ stored_turns self' "a" = []
    /\ get_last_user_query self' "a" = Ok (None, self'').
Proof.
  apply (reading_a_context_can_evict
           {| max_turns := 6; max_sessions := 1;
              _sessions := [("a", {| session_id := "a";
                                     turns := [ {| role := "user";
                                                   content := "hello" |} ] |})] |}
           "b" "a"
           {| session_id := "a"; turns := [ {| role := "user"; content := "hello" |} ] |}
           []).
  - repeat split; cbn.
    + repeat constructor. intros [].
    + lia.
    + intros _. repeat constructor. cbn. lia.
  - cbn. lia.
  - reflexivity.
  - reflexivity.
  - reflexivity.
Defined.

(* ===================================================================== *)
(** * The rate limiter *)
(* ===================================================================== *)

From Stdlib Require Import Lqa.

Lemma later_than_spec (bound ts : Q) : later_than bound ts = true <-> (bound < ts)%Q.
Proof.
  unfold later_than. rewrite negb_true_iff.
  destruct (Qle_bool ts bound) eqn:E.
  - apply Qle_bool_iff in E. split; [discriminate|]. intros H. lra.
  - split; [intros _|reflexivity].
    destruct (Qlt_le_dec bound ts) as [H|H]; [exact H|].
    apply Qle_bool_iff in H. congruence.
Qed.

Lemma filter_later_than_twice (earlier later : Q) (l : list Q) :
  (earlier <= later)%Q ->
  List.filter (later_than later) (List.filter (later_than earlier) l)
  = List.filter (later_than later) l.
Proof.
  intros Hle. induction l as [|ts l IH]; [reflexivity|]. cbn [List.filter].
  destruct (later_than earlier ts) eqn:E1; cbn [List.filter].
  - now rewrite IH.
  - destruct (later_than later ts) eqn:E2; [|exact IH].
    apply later_than_spec in E2.
    assert (later_than earlier ts = true) by (apply later_than_spec; lra).
    congruence.
Qed.

Lemma filter_length_weaker {A : Type} (f g : A -> bool) (l : list A) :
  (forall a, In a l -> f a = true -> g a = true) ->
  (length (List.filter f l) <= length (List.filter g l))%nat.
Proof.
  induction l as [|a l IH]; intros H; [reflexivity|]. cbn [List.filter].
  assert (IH' := IH (fun b Hb => H b (or_intror Hb))).
  destruct (f a) eqn:Ef.
  - rewrite (H a (or_introl eq_refl) Ef). cbn [length]. lia.
  - destruct (g a); cbn [length]; lia.
Qed.

Lemma requests_of_insert (self : RateLimiter) (sid sid' : string) (l : list Q) :
  requests_of (with_requests self (<[sid := l]> (_requests self))) sid'
  = if String.eqb sid sid' then l else requests_of self sid'.
Proof.
  unfold requests_of, with_requests. cbn [_requests].
  destruct (String.eqb sid sid') eqn:E.
  - apply String.eqb_eq in E. subst. now rewrite lookup_insert_eq.
  - apply String.eqb_neq in E. now rewrite lookup_insert_ne.
Qed.

Lemma is_allowed_limits (self : RateLimiter) (now : Q) (sid : string) :
  max_requests (snd (is_allowed self now sid)) = max_requests self
  /\ window_seconds (snd (is_allowed self now sid)) = window_seconds self.
Proof. unfold is_allowed. destruct (_ <=? _)%Z; split; reflexivity. Qed.

Lemma in_window_snoc (width : Z) (t now : Q) (l : list Q) :
  in_window width t (l ++ [now])
  = (in_window width t l
     + if later_than (t - inject_Z width) now && Qle_bool now t then 1 else 0)%nat.
Proof.
  unfold in_window. rewrite List.filter_app, length_app. cbn [List.filter].
  now destruct (_ && _).
Qed.

Lemma with_requests_limits (self : RateLimiter) (m : gmap string (list Q)) :
  max_requests (with_requests self m) = max_requests self
  /\ window_seconds (with_requests self m) = window_seconds self.
Proof. split; reflexivity. Qed.

Lemma is_allowed_remembers (self : RateLimiter) (past : string -> list Q)
    (clock now : Q) (s : string) :
  (0 < window_seconds self)%Z ->
  remembers self past clock ->
  (clock <= now)%Q ->
  remembers (snd (is_allowed self now s))
    (fun k => past k ++ (if fst (is_allowed self now s) && String.eqb s k
                         then [now] else []))
    now.
Proof.
  intros HW (Hseen & Hpast & Hlimit) Hnow.
  destruct (Hseen s) as (seen & Hseen_le & Hreq).
  assert (HWq : (0 < inject_Z (window_seconds self))%Q).
  { change 0%Q with (inject_Z 0). rewrite <- Zlt_Qlt. exact HW. }
  assert (Hrecent :
    List.filter (later_than (now - inject_Z (window_seconds self))) (requests_of self s)
    = List.filter (later_than (now - inject_Z (window_seconds self))) (past s)).
  { rewrite Hreq. apply filter_later_than_twice. lra. }
  unfold is_allowed. cbv zeta. rewrite Hrecent.
  destruct (max_requests self <=? Z.of_nat
              (length (List.filter (later_than (now - inject_Z (window_seconds self)))
                                   (past s))))%Z eqn:Hfull;
    cbn [fst snd andb]; unfold remembers;
    destruct (with_requests_limits self
                (<[s := List.filter (later_than (now - inject_Z (window_seconds self)))
                                    (past s)]> (_requests self))) as [Hm1 Hw1];
    destruct (with_requests_limits self
                (<[s := List.filter (later_than (now - inject_Z (window_seconds self)))
                                    (past s) ++ [now]]> (_requests self))) as [Hm2 Hw2];
    rewrite ?Hm1, ?Hw1, ?Hm2, ?Hw2.
  - (* denied *)
    split; [|split].
    + intros k. rewrite requests_of_insert, app_nil_r.
      destruct (String.eqb s k) eqn:E.
      * apply String.eqb_eq in E. subst k. exists now. split; [lra|reflexivity].
      * destruct (Hseen k) as (seen' & Hle' & Hreq'). exists seen'.
        split; [lra|exact Hreq'].
    + intros k ts Hin. rewrite app_nil_r in Hin. specialize (Hpast k ts Hin). lra.
    + intros k t'. rewrite app_nil_r. apply Hlimit.
  - (* allowed *)
    apply Z.leb_gt in Hfull.
    split; [|split].
    + intros k. rewrite requests_of_insert.
      destruct (String.eqb s k) eqn:E.
      * apply String.eqb_eq in E. subst k. exists now. split; [lra|].
        rewrite List.filter_app. cbn [List.filter].
        assert (Hself : later_than (now - inject_Z (window_seconds self)) now = true)
          by (apply later_than_spec; lra).
        now rewrite Hself.
      * destruct (Hseen k) as (seen' & Hle' & Hreq'). exists seen'.
        split; [lra|]. now rewrite app_nil_r.
    + intros k ts Hin. apply in_app_or in Hin as [Hin|Hin].
      * specialize (Hpast k ts Hin). lra.
      * destruct (String.eqb s k); [|destruct Hin].
        destruct Hin as [<-|[]]. lra.
    + intros k t'.
      destruct (String.eqb s k) eqn:E; [|rewrite app_nil_r; apply Hlimit].
      apply String.eqb_eq in E. subst k.
      rewrite in_window_snoc.
      destruct (later_than (t' - inject_Z (window_seconds self)) now && Qle_bool now t')
        eqn:Hin; [|rewrite Nat.add_0_r; apply Hlimit].
      apply andb_prop in Hin as [Hlo Hhi].
      apply later_than_spec in Hlo. apply Qle_bool_iff in Hhi.
      assert (Hle : (in_window (window_seconds self) t' (past s)
                     <= length (List.filter
                                  (later_than (now - inject_Z (window_seconds self)))
                                  (past s)))%nat).
      { unfold in_window. apply filter_length_weaker.
        intros ts _ Hts. apply andb_prop in Hts as [Hts _].
        apply later_than_spec in Hts. apply later_than_spec. lra. }
      lia.
Qed.

Lemma grants_respect_the_limit (calls : list (Q * string)) :
  forall (self : RateLimiter) (past : string -> list Q) (clock : Q),
    (0 < window_seconds self)%Z ->
    remembers self past clock ->
    clock_from clock calls ->
    forall sid t,
      (Z.of_nat (in_window (window_seconds self) t (past sid ++ grants self calls sid))
       <= max_requests self)%Z.
Proof.
  induction calls as [|[now s] calls IH]; intros self past clock HW Hrem Hclock sid t.
  - cbn [grants]. rewrite app_nil_r. apply Hrem.
  - cbn [clock_from] in Hclock. destruct Hclock as [Hnow Hclock].
    cbn [grants]. rewrite app_assoc.
    destruct (is_allowed_limits self now s) as [Hmax Hwin].
    pose proof (is_allowed_remembers self past clock now s HW Hrem Hnow) as Hrem'.
    rewrite <- Hwin in HW.
    pose proof (IH _ _ now HW Hrem' Hclock sid t) as H.
    cbv beta in H. rewrite Hmax, Hwin in H. exact H.
Qed.

(** The limit holds in every window.  From a new limiter, with a clock
    that does not run backwards, the calls that are let through for one
    session within any [window_seconds] seconds are never more than
    [max_requests], however many calls are made and whatever the other
    sessions do. *)
Theorem rate_limit_holds_in_every_window (requests_allowed window : Z)
    (start : Q) (calls : list (Q * string)) (sid : string) (t : Q) :
  (0 <= requests_allowed)%Z ->
  (0 < window)%Z ->
  clock_from start calls ->
  (Z.of_nat (in_window window t (grants (new_limiter requests_allowed window) calls sid))
   <= requests_allowed)%Z.
Proof.
  intros Hmax Hwin Hclock.
  apply (grants_respect_the_limit calls (new_limiter requests_allowed window)
           (fun _ => []) start Hwin); [|exact Hclock].
  split; [|split].
  - intros k. exists start. split; [lra|]. reflexivity.
  - intros k ts [].
  - intros k t'. cbn. exact Hmax.
Qed.

Lemma rate_limit_holds_in_every_window_witness :
  (Z.of_nat (in_window 60 30
               (grants (new_limiter 2 60)
                  [ (0%Q, "a"); (10%Q, "a"); (20%Q, "b"); (30%Q, "a") ] "a"))
   <= 2)%Z.
Proof.
  apply (rate_limit_holds_in_every_window 2 60 0
           [ (0%Q, "a"); (10%Q, "a"); (20%Q, "b"); (30%Q, "a") ] "a" 30).
  - lia.
  - lia.
  - cbn. repeat split; discriminate.
Defined.

Lemma filter_later_than_alike (clock now : Q) (width : Q) (l l' : list Q) :
  (clock <= now)%Q ->
  List.filter (later_than (clock - width)) l = List.filter (later_than (clock - width)) l' ->
  List.filter (later_than (now - width)) l = List.filter (later_than (now - width)) l'.
Proof.
  intros Hle H.
  rewrite <- (filter_later_than_twice (clock - width) (now - width) l) by lra.
  rewrite <- (filter_later_than_twice (clock - width) (now - width) l') by lra.
  now rewrite H.
Qed.

Lemma is_allowed_alike (clock now : Q) (a b : RateLimiter) (sid : string) :
  alike_from clock a b -> (clock <= now)%Q ->
  fst (is_allowed a now sid) = fst (is_allowed b now sid)
  /\ alike_from now (snd (is_allowed a now sid)) (snd (is_allowed b now sid)).
Proof.
  intros (Hmax & Hwin & Hreq) Hnow.
  assert (Hrecent :
    List.filter (later_than (now - inject_Z (window_seconds a))) (requests_of a sid)
    = List.filter (later_than (now - inject_Z (window_seconds a))) (requests_of b sid))
    by (eapply filter_later_than_alike; [exact Hnow|apply Hreq]).
  unfold is_allowed. cbv zeta. rewrite <- Hwin, <- Hmax, Hrecent.
  set (recent := List.filter (later_than (now - inject_Z (window_seconds a)))
                             (requests_of b sid)).
  destruct (max_requests a <=? Z.of_nat (length recent))%Z; cbn [fst snd];
    (split; [reflexivity|]); unfold alike_from;
    rewrite !(proj1 (with_requests_limits _ _)), !(proj2 (with_requests_limits _ _));
    (split; [exact Hmax|split; [exact Hwin|]]);
    intros k; rewrite !requests_of_insert;
    (destruct (String.eqb sid k); [reflexivity|]);
    (eapply filter_later_than_alike; [exact Hnow|apply Hreq]).
Qed.

Lemma verdicts_alike (calls : list (Q * string)) :
  forall (clock : Q) (a b : RateLimiter),
    alike_from clock a b -> clock_from clock calls ->
    verdicts a calls = verdicts b calls.
Proof.
  induction calls as [|[now sid] calls IH]; intros clock a b Hab Hclock; [reflexivity|].
  cbn [clock_from] in Hclock. destruct Hclock as [Hnow Hclock].
  cbn [verdicts]. destruct (is_allowed_alike clock now a b sid Hab Hnow) as [Hv Hs].
  rewrite Hv. f_equal. now apply (IH now).
Qed.

(** A call that is refused does not count.  Its time is not recorded, and
    all it does to the limiter is to forget times that are out of the
    window already: the verdicts of all later calls, for every session,
    are the ones they would get had the refused call not been made. *)
Theorem refused_calls_do_not_count (self : RateLimiter) (now : Q) (sid : string)
    (calls : list (Q * string)) :
  fst (is_allowed self now sid) = false ->
  clock_from now calls ->
  requests_of (snd (is_allowed self now sid)) sid
  = List.filter (later_than (now - inject_Z (window_seconds self))) (requests_of self sid)
  /\ verdicts (snd (is_allowed self now sid)) calls = verdicts self calls.
Proof.
  intros Hden Hclock. unfold is_allowed in *. cbv zeta in *.
  set (recent := List.filter (later_than (now - inject_Z (window_seconds self)))
                             (requests_of self sid)) in *.
  destruct (max_requests self <=? Z.of_nat (length recent))%Z; [|discriminate].
  cbn [snd]. split.
  - rewrite requests_of_insert. now rewrite String.eqb_refl.
  - apply (verdicts_alike calls now); [|exact Hclock].
    unfold alike_from.
    rewrite !(proj1 (with_requests_limits _ _)), !(proj2 (with_requests_limits _ _)).
    split; [reflexivity|split; [reflexivity|]].
    intros k. rewrite requests_of_insert.
    destruct (String.eqb sid k) eqn:E; [|reflexivity].
    apply String.eqb_eq in E. subst k. unfold recent.
    apply filter_later_than_twice. lra.
Qed.

Lemma refused_calls_do_not_count_witness :
  verdicts (snd (is_allowed
                   {| max_requests := 1; window_seconds := 60;
                      _requests := {[ "a" := [0%Q] ]} |} 30 "a"))
           [ (59%Q, "a"); (61%Q, "a") ]
  = verdicts {| max_requests := 1; window_seconds := 60;
                _requests := {[ "a" := [0%Q] ]} |}
             [ (59%Q, "a"); (61%Q, "a") ].
Proof.
  apply (refused_calls_do_not_count
           {| max_requests := 1; window_seconds := 60;
              _requests := {[ "a" := [0%Q] ]} |} 30 "a"
           [ (59%Q, "a"); (61%Q, "a") ]).
  - vm_compute. reflexivity.
  - cbn. repeat split; discriminate.
Defined.
